(** * Session trace, conversation orchestrator and diagram reconstructor

    A shallow embedding of [scripts/generate_sequence_diagram.py] and of
    [backend/core/conversation.py], with the properties of the session
    trace and replay subsystem proved over it.

    Conventions of the embedding:
    - a Python [str] is a [string]; its characters stand for code points
      below 256, so [len] is [String.length] and [text[:n]] is [str_take n];
    - a Python [int] is a [Z] (a counter that starts at 0 and is only
      incremented is a [nat]); JSON numbers are integers, floats are not
      modelled;
    - a value produced by [json.load] is a [json]; a dict is the list of its
      items in insertion order (keys distinct), so that the order seen by
      [parameters.items()] is the order of the list;
    - a Python exception that leaves a function is a [Raise] result. *)

From Stdlib Require Import String Ascii List ZArith Lia Bool Arith.
From Stdlib Require Import Numbers.DecimalString.
Import ListNotations.

Local Open Scope list_scope.
Local Open Scope string_scope.

(** ** Exceptions as results *)

Inductive exn : Type :=
| AttributeError
| TypeError
| OSError (msg : string)
| ValueError (msg : string).

Inductive result (A : Type) : Type :=
| Ok (a : A)
| Raise (e : exn).

Arguments Ok {A} a.
Arguments Raise {A} e.

Definition bind {A B : Type} (r : result A) (k : A -> result B) : result B :=
  match r with
  | Ok a => k a
  | Raise e => Raise e
  end.

Declare Scope result_scope.
Delimit Scope result_scope with result.
Notation "x <- r ;; k" := (bind r (fun x => k))
  (at level 100, r at next level, right associativity) : result_scope.
Local Open Scope result_scope.

(** ** Python strings *)

Module PyStr.

(** The characters that the renderer names. *)
Definition LF : ascii := ascii_of_nat 10.
Definition TAB : ascii := ascii_of_nat 9.
Definition CR : ascii := ascii_of_nat 13.
Definition DQUOTE : ascii := ascii_of_nat 34.
Definition SQUOTE : ascii := ascii_of_nat 39.
Definition BACKSLASH : ascii := ascii_of_nat 92.

Definition chr (c : ascii) : string := String c EmptyString.

(** [text[:n]] *)
Fixpoint str_take (n : nat) (s : string) : string :=
  match n, s with
  | S n', String c s' => String c (str_take n' s')
  | _, _ => EmptyString
  end.

(** [text.replace(c, by)] for a one-character pattern [c]. *)
Fixpoint replace_char (c : ascii) (by_ : string) (s : string) : string :=
  match s with
  | EmptyString => EmptyString
  | String a s' =>
      if Ascii.eqb a c then by_ ++ replace_char c by_ s'
      else String a (replace_char c by_ s')
  end.

(** [c in text] *)
Fixpoint contains (c : ascii) (s : string) : bool :=
  match s with
  | EmptyString => false
  | String a s' => Ascii.eqb a c || contains c s'
  end.

(** [sep.join(parts)] *)
Fixpoint join (sep : string) (parts : list string) : string :=
  match parts with
  | [] => EmptyString
  | [p] => p
  | p :: rest => p ++ sep ++ join sep rest
  end.

(** [str(n)] for an integer. *)
Definition str_of_Z (z : Z) : string := NilZero.string_of_int (Z.to_int z).
Definition str_of_nat (n : nat) : string := NilZero.string_of_uint (Nat.to_uint n).

Definition hex_digit (n : nat) : ascii :=
  if (n <? 10)%nat then ascii_of_nat (48 + n) else ascii_of_nat (87 + n).

(** The escape [\xNN] that [repr] writes for an unprintable character. *)
Definition hex_escape (c : ascii) : string :=
  let n := nat_of_ascii c in
  String BACKSLASH (String "x" (String (hex_digit (n / 16))
                                  (String (hex_digit (n mod 16)) EmptyString))).

(** One character of [repr(text)], [q] being the quote chosen. *)
Definition repr_char (q : ascii) (c : ascii) : string :=
  let n := nat_of_ascii c in
  if Ascii.eqb c q || Ascii.eqb c BACKSLASH then String BACKSLASH (chr c)
  else if Ascii.eqb c TAB then String BACKSLASH "t"
  else if Ascii.eqb c LF then String BACKSLASH "n"
  else if Ascii.eqb c CR then String BACKSLASH "r"
  else if ((n <? 32) || (n =? 127))%nat then hex_escape c
  else if (n <? 127)%nat then chr c
  else if ((n <=? 160) || (n =? 173))%nat then hex_escape c
  else chr c.

Fixpoint repr_chars (q : ascii) (s : string) : string :=
  match s with
  | EmptyString => EmptyString
  | String c s' => repr_char q c ++ repr_chars q s'
  end.

(** [repr(text)]: single quotes, unless the text has a single quote and no
    double quote. *)
Definition repr_str (s : string) : string :=
  let q := if contains SQUOTE s && negb (contains DQUOTE s) then DQUOTE else SQUOTE in
  String q (repr_chars q s ++ chr q).

End PyStr.

(** ** Values read from a session record *)

#[local] Set Warnings "-register-all".

Inductive json : Type :=
| JNull
| JBool (b : bool)
| JInt (z : Z)
| JStr (s : string)
| JList (l : list json)
| JDict (d : list (string * json)).

Module PyVal.
Import PyStr.

(** [repr(v)] *)
Fixpoint py_repr (v : json) : string :=
  match v with
  | JNull => "None"
  | JBool true => "True"
  | JBool false => "False"
  | JInt z => str_of_Z z
  | JStr s => repr_str s
  | JList l => "[" ++ join ", " (map py_repr l) ++ "]"
  | JDict d =>
      "{" ++ join ", " (map (fun kv => match kv with
                                       | (k, x) => repr_str k ++ ": " ++ py_repr x
                                       end) d) ++ "}"
  end.

(** [str(v)], which is what an f-string writes for [{v}]. *)
Definition py_str (v : json) : string :=
  match v with
  | JStr s => s
  | _ => py_repr v
  end.

(** [bool(v)] *)
Definition truthy (v : json) : bool :=
  match v with
  | JNull => false
  | JBool b => b
  | JInt z => negb (Z.eqb z 0)
  | JStr s => negb (String.eqb s EmptyString)
  | JList l => match l with [] => false | _ => true end
  | JDict d => match d with [] => false | _ => true end
  end.

(** [v == text] for a string literal [text]. *)
Definition eq_str (v : json) (text : string) : bool :=
  match v with
  | JStr s => String.eqb s text
  | _ => false
  end.

(** Lookup in the items of a dict. *)
Fixpoint lookup (d : list (string * json)) (key : string) : option json :=
  match d with
  | [] => None
  | (k, x) :: rest => if String.eqb k key then Some x else lookup rest key
  end.

(** [d.get(key, default)] *)
Definition get (d : list (string * json)) (key : string) (default : json) : json :=
  match lookup d key with
  | Some x => x
  | None => default
  end.

(** [for x in v]: the elements of a list, the keys of a dict, the characters
    of a string; anything else is not iterable. *)
Definition iterate (v : json) : result (list json) :=
  match v with
  | JList l => Ok l
  | JDict d => Ok (map (fun kv => JStr (fst kv)) d)
  | JStr s => Ok (map (fun c => JStr (chr c)) (list_ascii_of_string s))
  | _ => Raise TypeError
  end.

(** [v.items()] *)
Definition items (v : json) : result (list (string * json)) :=
  match v with
  | JDict d => Ok d
  | _ => Raise AttributeError
  end.

End PyVal.

(** ** The diagram reconstructor: [scripts/generate_sequence_diagram.py] *)

Module Diagram.
Import PyStr PyVal.

(** [escape_text(text, max_length)] on a [str]. *)
Definition escape_text (text : string) (max_length : nat) : string :=
  let text := replace_char LF "<br/>" text in
  let text := replace_char DQUOTE (chr SQUOTE) text in
  if (max_length <? String.length text)%nat
  then str_take max_length text ++ "..."
  else text.

(** A call of [escape_text] on a value of the record: only a [str] has the
    method [replace]. *)
Definition call_escape_text (text : json) (max_length : nat) : result string :=
  match text with
  | JStr s => Ok (escape_text s max_length)
  | _ => Raise AttributeError
  end.

(** The local variables of the walk. *)
Record walk_state : Type := mkWalk {
  lines : list string;
  turn_number : nat;
  in_turn : bool
}.

Definition append (st : walk_state) (new : list string) : walk_state :=
  mkWalk (List.app (lines st) new) (turn_number st) (in_turn st).

Definition header (trace_data : list (string * json)) : list string :=
  [ "---";
    "Session ID: " ++ py_str (get trace_data "session_id" (JStr "unknown"));
    "Start Time: " ++ py_str (get trace_data "start_time" (JStr "unknown"));
    "Model: " ++ py_str (get trace_data "model" (JStr "unknown"));
    "---";
    EmptyString;
    "```mermaid";
    "sequenceDiagram";
    "    participant User";
    "    participant HostApp as Host App<br/>(chat.py)";
    "    participant LLM as Claude LLM";
    "    participant MemorySystem as Memory System<br/>(memory_tool)";
    EmptyString;
    "    Note over HostApp: Session Started" ].

Definition footer : list string :=
  [ EmptyString;
    "    Note over HostApp: Session Ended";
    "```" ].

Definition rect_line : string := "    rect rgb(200, 220, 255)".
Definition end_line : string := "    end".

(** [', '.join([f"{k}={repr(v)[:30]}" for k, v in parameters.items()])],
    then cut to 50 characters. *)
Definition format_pair (kv : string * json) : string :=
  fst kv ++ "=" ++ str_take 30 (py_repr (snd kv)).

Definition format_params (parameters : list (string * json)) : string :=
  let params_str := join ", " (map format_pair parameters) in
  if (50 <? String.length params_str)%nat
  then str_take 50 params_str ++ "..."
  else params_str.

Definition on_user_input (event : list (string * json)) (st : walk_state)
  : result walk_state :=
  let turn_number := S (turn_number st) in
  content <- call_escape_text (get event "content" (JStr EmptyString)) 50 ;;
  Ok (mkWalk
        (List.app (lines st)
           [ EmptyString;
             rect_line;
             "        Note over User,MemorySystem: Turn " ++ str_of_nat turn_number
               ++ ": User Input";
             EmptyString;
             "        User->>HostApp: " ++ chr DQUOTE ++ content ++ chr DQUOTE;
             "        HostApp->>HostApp: Append to messages" ])
        turn_number
        true).

Definition on_llm_request (event : list (string * json)) (st : walk_state)
  : result walk_state :=
  if in_turn st
  then Ok (append st
             [ EmptyString;
               "        HostApp->>LLM: POST /messages<br/>tools: "
                 ++ py_str (get event "tools" (JList [])) ])
  else Ok st.

Definition on_tool_call (event : list (string * json)) (st : walk_state)
  : result walk_state :=
  let tool_name := get event "tool_name" (JStr EmptyString) in
  let command := get event "command" (JStr EmptyString) in
  let parameters := get event "parameters" (JDict []) in
  if eq_str tool_name "memory"
  then
    params <- items parameters ;;
    let params_str := format_params params in
    Ok (append st
          [ EmptyString;
            "        Note over LLM: Decides to " ++ py_str command;
            "        LLM->>MemorySystem: " ++ py_str command ++ "(" ++ params_str ++ ")";
            "        activate MemorySystem" ])
  else Ok st.

Definition on_tool_result (event : list (string * json)) (st : walk_state)
  : result walk_state :=
  let tool_name := get event "tool_name" (JStr EmptyString) in
  let success := get event "success" (JBool true) in
  let error := get event "error" JNull in
  let result_ := get event "result" (JStr EmptyString) in
  if eq_str tool_name "memory"
  then
    st' <- (if truthy success
            then
              result_preview <- call_escape_text result_ 40 ;;
              Ok (append st [ "        MemorySystem-->>LLM: " ++ result_preview ])
            else
              error_msg <- call_escape_text
                             (if truthy error then error else JStr "Error") 40 ;;
              Ok (append st [ "        MemorySystem-->>LLM: ERROR: " ++ error_msg ])) ;;
    Ok (append st' [ "        deactivate MemorySystem" ])
  else Ok st.

Definition on_llm_response (event : list (string * json)) (st : walk_state)
  : result walk_state :=
  content <- call_escape_text (get event "content" (JStr EmptyString)) 60 ;;
  let st := append st
              [ EmptyString;
                "        Note over LLM: Ready to respond";
                "        LLM-->>HostApp: " ++ chr DQUOTE ++ content ++ chr DQUOTE;
                "        HostApp->>HostApp: Append to messages";
                "        HostApp-->>User: " ++ chr DQUOTE ++ content ++ chr DQUOTE ] in
  if in_turn st
  then Ok (mkWalk (List.app (lines st) [ end_line ]) (turn_number st) false)
  else Ok st.

Definition on_error (event : list (string * json)) (st : walk_state)
  : result walk_state :=
  error_msg <- call_escape_text (get event "message" (JStr "Unknown error")) 40 ;;
  Ok (append st [ "    Note over HostApp: ERROR: " ++ error_msg ]).

(** One iteration of the loop over the events. *)
Definition walk_event (event : json) (st : walk_state) : result walk_state :=
  match event with
  | JDict ev =>
      let event_type := get ev "event_type" JNull in
      if eq_str event_type "user_input" then on_user_input ev st
      else if eq_str event_type "llm_request" then on_llm_request ev st
      else if eq_str event_type "tool_call" then on_tool_call ev st
      else if eq_str event_type "tool_result" then on_tool_result ev st
      else if eq_str event_type "llm_response" then on_llm_response ev st
      else if eq_str event_type "error" then on_error ev st
      else Ok st
  | _ => Raise AttributeError
  end.

(** The loop. *)
Fixpoint walk (events : list json) (st : walk_state) : result walk_state :=
  match events with
  | [] => Ok st
  | event :: rest => st' <- walk_event event st ;; walk rest st'
  end.

(** What follows the loop: close an open turn, then the footer. *)
Definition close_walk (st : walk_state) : list string :=
  List.app (if in_turn st then List.app (lines st) [ end_line ] else lines st) footer.

(** The lines of the diagram, before they are joined. *)
Definition generate_mermaid_lines (trace_data : json) : result (list string) :=
  match trace_data with
  | JDict td =>
      let st0 := mkWalk (header td) 0 false in
      events <- iterate (get td "events" (JList [])) ;;
      st <- walk events st0 ;;
      Ok (close_walk st)
  | _ => Raise AttributeError
  end.

(** [generate_mermaid_diagram(trace_data)] *)
Definition generate_mermaid_diagram (trace_data : json) : result string :=
  ls <- generate_mermaid_lines trace_data ;;
  Ok (join (chr LF) ls).

(** What [main] finds at [trace_file]: no file; text that [json.load]
    rejects with [JSONDecodeError]; a file that cannot be opened or decoded
    ([open] or [json.load] raises another exception, such as [OSError] for a
    directory or [ValueError] for text that is not UTF-8); or a parsed
    record. *)
Inductive trace_file_content : Type :=
| NotFound
| InvalidJSON (err : string)
| Unreadable (e : exn)
| Loaded (trace_data : json).

(** What the file system answers when the diagram is saved (the [mkdir]
    calls, [open] and [write]): it is written, or one of them raises and the
    diagram is not saved in full. *)
Inductive disk : Type :=
| Writes
| Refuses (e : exn).

(** What a run of [main] leaves: its return value (or the exception that
    escapes it), what it printed, and the diagram it saved, with its path. *)
Record main_run : Type := mkRun {
  returned : result Z;
  printed : list string;
  written : option (string * string)
}.

(** [text.split(c)] *)
Fixpoint split_on (c : ascii) (s : string) : list string :=
  match s with
  | EmptyString => [ EmptyString ]
  | String a s' =>
      if Ascii.eqb a c
      then EmptyString :: split_on c s'
      else match split_on c s' with
           | [] => [ chr a ]
           | part :: parts => String a part :: parts
           end
  end.

Definition SLASH : ascii := ascii_of_nat 47.

(** The number of slashes that a path begins with. *)
Fixpoint leading_slashes (s : string) : nat :=
  match s with
  | String a s' => if Ascii.eqb a SLASH then S (leading_slashes s') else 0
  | EmptyString => 0
  end.

(** The parts of [Path(text)]: what is between the slashes, the empty parts
    and the parts that are a dot left out. *)
Definition path_parts (s : string) : list string :=
  filter (fun part => negb (String.eqb part EmptyString || String.eqb part "."))
         (split_on SLASH s).

(** [str(Path(text))] on a POSIX system: the root is one slash (two when the
    text begins with exactly two), the parts are joined with one slash, and
    the path with neither root nor parts is a dot. *)
Definition path_str (s : string) : string :=
  let root :=
    match leading_slashes s with
    | 0 => EmptyString
    | 2 => "//"
    | _ => "/"
    end in
  let shown := root ++ join "/" (path_parts s) in
  if String.eqb shown EmptyString then "." else shown.

(** [main()], for the arguments [trace_file] and [--output]. *)
Definition main (trace_file : string) (output : option string)
           (file : trace_file_content) (d : disk) : main_run :=
  let trace_path := path_str trace_file in
  match file with
  | NotFound =>
      mkRun (Ok 1%Z) [ "Error: Trace file not found: " ++ trace_path ] None
  | InvalidJSON err =>
      mkRun (Ok 1%Z) [ "Error: Invalid JSON in trace file: " ++ err ] None
  | Unreadable e => mkRun (Raise e) [] None
  | Loaded trace_data =>
      match generate_mermaid_diagram trace_data with
      | Raise e => mkRun (Raise e) [] None
      | Ok diagram =>
          let default_path :=
            match trace_data with
            | JDict td =>
                path_str ("./diagrams/sequence_"
                            ++ py_str (get td "session_id" (JStr "unknown")) ++ ".md")
            | _ => EmptyString
            end in
          let output_path :=
            match output with
            | Some o => if String.eqb o EmptyString then default_path else path_str o
            | None => default_path
            end in
          match d with
          | Refuses e => mkRun (Raise e) [] None
          | Writes =>
              mkRun (Ok 0%Z)
                    [ "Sequence diagram saved to: " ++ output_path ]
                    (Some (output_path, diagram))
          end
      end
  end.

End Diagram.

(** ** The event log *)

Module Trace.

(** The four token counts of a [token_usage] event. *)
Record usage : Type := mkUsage {
  input_tokens : Z;
  output_tokens : Z;
  cache_read_tokens : Z;
  cache_write_tokens : Z
}.

Definition usage_zero : usage := mkUsage 0 0 0 0.

Definition usage_add (a b : usage) : usage :=
  mkUsage (input_tokens a + input_tokens b)
          (output_tokens a + output_tokens b)
          (cache_read_tokens a + cache_read_tokens b)
          (cache_write_tokens a + cache_write_tokens b).

Definition usage_le (a b : usage) : Prop :=
  (input_tokens a <= input_tokens b
   /\ output_tokens a <= output_tokens b
   /\ cache_read_tokens a <= cache_read_tokens b
   /\ cache_write_tokens a <= cache_write_tokens b)%Z.

(** Modelled from the spec: the payload of an event, per [event_type]
    (the table of section 4.1); [session_trace.py], which builds the
    events, is not among the sources. *)
Inductive payload : Type :=
| user_input (content : string)
| llm_request (messages_count : nat) (tools : list string)
| tool_call (tool_name command : string) (parameters : list (string * json))
| tool_result (tool_name command : string) (success : bool)
              (result_text error_text : option string)
| llm_response (content : string)
| token_usage (delta cumulative : usage)
| error (error_type message : string).

(** Modelled from the spec: an event of the log, with its position; the
    wall-clock stamp of an event is left out. *)
Record event : Type := mkEvent {
  sequence_index : nat;
  body : payload
}.

(** Modelled from the spec: the Session aggregate of section 3, the class
    [SessionTrace] of the missing [session_trace.py]. [durable] is the
    handle that a successful [finalize] returned. *)
Record SessionTrace : Type := mkTrace {
  session_id : string;
  start_time : string;
  end_time : option string;
  model : string;
  system_prompt : string;
  events : list event;
  durable : option string
}.

(** Modelled from the spec: [SessionTrace(model, system_prompt)]; the
    identifier and the start time come from the environment. *)
Definition create (id now model system_prompt : string) : SessionTrace :=
  mkTrace id now None model system_prompt [] None.

(** Modelled from the spec: [append(event_type, payload)] assigns
    [sequence_index = len(current_log)] and appends. *)
Definition append (p : payload) (t : SessionTrace) : SessionTrace :=
  mkTrace (session_id t) (start_time t) (end_time t) (model t) (system_prompt t)
          (List.app (events t) [ mkEvent (List.length (events t)) p ])
          (durable t).

(** Modelled from the spec: [finalize()] stamps [end_time] and writes the
    record once; a second call returns the same handle; a storage error is
    propagated and leaves the session as it was. [store] is what the
    storage answers to the write. *)
Definition finalize (now : string) (store : result string) (t : SessionTrace)
  : SessionTrace * result string :=
  match durable t with
  | Some handle => (t, Ok handle)
  | None =>
      match store with
      | Ok handle =>
          (mkTrace (session_id t) (start_time t) (Some now) (model t)
                   (system_prompt t) (events t) (Some handle),
           Ok handle)
      | Raise e => (t, Raise e)
      end
  end.

(** The running sum of the [token_usage] deltas of a log. *)
Fixpoint deltas_sum (evs : list event) : usage :=
  match evs with
  | [] => usage_zero
  | e :: rest =>
      match body e with
      | token_usage delta _ => usage_add delta (deltas_sum rest)
      | _ => deltas_sum rest
      end
  end.

(** The checkpoint of the last [token_usage] event of a log, zero when it
    has none. *)
Fixpoint last_cumulative (evs : list event) (acc : usage) : usage :=
  match evs with
  | [] => acc
  | e :: rest =>
      match body e with
      | token_usage _ cumulative => last_cumulative rest cumulative
      | _ => last_cumulative rest acc
      end
  end.

End Trace.

(** ** The conversation orchestrator: [backend/core/conversation.py] *)

Module Conversation.

Record message : Type := mkMessage {
  role : string;
  content : string
}.

(** The fields of [ConversationManager] that the turn and the reset read or
    write. The memory tool logs into the trace it was given by
    [set_trace], which is always the manager's own. *)
Record ConversationManager : Type := mkManager {
  model : string;
  system_prompt : string;
  messages : list message;
  trace : Trace.SessionTrace;
  totals : Trace.usage
}.

Definition total_input_tokens (m : ConversationManager) : Z :=
  Trace.input_tokens (totals m).
Definition total_output_tokens (m : ConversationManager) : Z :=
  Trace.output_tokens (totals m).
Definition total_cache_read_tokens (m : ConversationManager) : Z :=
  Trace.cache_read_tokens (totals m).
Definition total_cache_write_tokens (m : ConversationManager) : Z :=
  Trace.cache_write_tokens (totals m).

(** [ConversationManager.__init__] *)
Definition init (session_id now model system_prompt : string) : ConversationManager :=
  mkManager model system_prompt []
            (Trace.create session_id now model system_prompt)
            Trace.usage_zero.

Definition log (p : Trace.payload) (m : ConversationManager) : ConversationManager :=
  mkManager (model m) (system_prompt m) (messages m)
            (Trace.append p (trace m)) (totals m).

Definition push_message (msg : message) (m : ConversationManager)
  : ConversationManager :=
  mkManager (model m) (system_prompt m) (List.app (messages m) [ msg ])
            (trace m) (totals m).

Definition set_totals (u : Trace.usage) (m : ConversationManager)
  : ConversationManager :=
  mkManager (model m) (system_prompt m) (messages m) (trace m) u.

(** *** What the external call does during one turn *)

(** A block announced by [content_block_start]; [None] is a missing
    attribute. *)
Record content_block : Type := mkBlock {
  block_type : option string;
  block_name : option string;
  block_id : option string
}.

(** An event of [runner.stream_async()], as far as the loop looks at it. *)
Inductive stream_event : Type :=
| content_block_delta (delta_text : option string)
| content_block_start (block : option content_block)
| other_event.

(** One thing that happens while the stream is consumed: an event of the
    stream, or the memory tool (the missing [memory_tool.py]) logging a call
    or its outcome into the trace it was given. *)
Inductive run_step : Type :=
| Stream (e : stream_event)
| ToolCall (tool_name command : string) (parameters : list (string * json))
| ToolResult (tool_name command : string) (success : bool)
             (result_text error_text : option string).

(** An optional attribute of [response.usage]: the object has no such
    attribute, or has it with the value [None] (the default of the field in
    the client library's type), or with an integer. *)
Inductive attribute : Type :=
| Missing
| IsNone
| Int (z : Z).

(** [response.usage]; the two cache counts are read with
    [getattr(usage, name, 0)]. *)
Record api_usage : Type := mkApiUsage {
  input_tokens : Z;
  output_tokens : Z;
  cache_read_input_tokens : attribute;
  cache_creation_input_tokens : attribute
}.

(** The final message: for each content block its text, when it has one. *)
Record response : Type := mkResponse {
  response_content : list (option string);
  usage : api_usage
}.

(** How the external call ends: with an exception that is an [Exception],
    which [except Exception] catches, given by [type(e).__name__] and
    [str(e)]; with an exception that is not one ([asyncio.CancelledError],
    [KeyboardInterrupt]), which nothing in the turn catches; or with the
    final message. *)
Inductive outcome : Type :=
| Raised (error_type message : string)
| Uncaught (error_type message : string)
| Completed (r : response).

Record llm_run : Type := mkLlmRun {
  steps : list run_step;
  ending : outcome
}.

(** *** What the generator yields *)

Record token_snapshot : Type := mkSnapshot {
  last : Trace.usage;
  total : Trace.usage
}.

Inductive outward : Type :=
| text (data : string)
| tool_use_start (tool id : string)
| done (tokens : token_snapshot)
| error (message : string).

(** The state of the loop over the stream: the text gathered, the events
    yielded, the manager. *)
Record stream_state : Type := mkStream {
  response_text : string;
  yielded : list outward;
  manager : ConversationManager
}.

Definition or_default (o : option string) (default : string) : string :=
  match o with
  | Some s => s
  | None => default
  end.

Definition on_step (s : run_step) (st : stream_state) : stream_state :=
  match s with
  | Stream (content_block_delta (Some chunk)) =>
      mkStream (response_text st ++ chunk)
               (List.app (yielded st) [ text chunk ])
               (manager st)
  | Stream (content_block_start (Some block)) =>
      match block_type block with
      | Some ty =>
          if String.eqb ty "tool_use"
          then mkStream (response_text st)
                        (List.app (yielded st)
                           [ tool_use_start (or_default (block_name block) "memory")
                                            (or_default (block_id block) EmptyString) ])
                        (manager st)
          else st
      | None => st
      end
  | Stream _ => st
  | ToolCall tool_name command parameters =>
      mkStream (response_text st) (yielded st)
               (log (Trace.tool_call tool_name command parameters) (manager st))
  | ToolResult tool_name command success result_text error_text =>
      mkStream (response_text st) (yielded st)
               (log (Trace.tool_result tool_name command success result_text error_text)
                    (manager st))
  end.

Definition consume (ss : list run_step) (st : stream_state) : stream_state :=
  fold_left (fun acc s => on_step s acc) ss st.

(** The text of the first content block that has one. *)
Fixpoint first_text (blocks : list (option string)) : option string :=
  match blocks with
  | [] => None
  | Some t :: _ => Some t
  | None :: rest => first_text rest
  end.

(** [getattr(usage, name, 0)]; [None] is Python's [None]. *)
Definition getattr (a : attribute) : option Z :=
  match a with
  | Missing => Some 0%Z
  | IsNone => None
  | Int z => Some z
  end.

(** [str(e)] of the [TypeError] that [total += None] raises. *)
Definition NONE_ADDED : string :=
  "unsupported operand type(s) for +=: 'int' and 'NoneType'".

(** The lines from [usage = response.usage] to the last [+=]: the counters
    they leave, and the deltas of the turn when the four additions ran; an
    addition of [None] raises, with the additions before it done. *)
Definition track_usage (u : api_usage) (counters : Trace.usage)
  : Trace.usage * option Trace.usage :=
  let last_input := input_tokens u in
  let last_output := output_tokens u in
  let last_cache_read := getattr (cache_read_input_tokens u) in
  let last_cache_write := getattr (cache_creation_input_tokens u) in
  let total_input := (Trace.input_tokens counters + last_input)%Z in
  let total_output := (Trace.output_tokens counters + last_output)%Z in
  match last_cache_read with
  | None =>
      (Trace.mkUsage total_input total_output
                     (Trace.cache_read_tokens counters)
                     (Trace.cache_write_tokens counters),
       None)
  | Some cache_read =>
      let total_cache_read := (Trace.cache_read_tokens counters + cache_read)%Z in
      match last_cache_write with
      | None =>
          (Trace.mkUsage total_input total_output total_cache_read
                         (Trace.cache_write_tokens counters),
           None)
      | Some cache_write =>
          (Trace.mkUsage total_input total_output total_cache_read
                         (Trace.cache_write_tokens counters + cache_write)%Z,
           Some (Trace.mkUsage last_input last_output cache_read cache_write))
      end
  end.

(** [send_message_streaming(user_message)], run to its end by a consumer
    that takes every event: the events yielded, the manager afterwards, and
    the exception that leaves the generator, if one does. [run] is what the
    external call does. *)
Definition send_message_streaming (user_message : string) (run : llm_run)
           (m : ConversationManager)
  : list outward * ConversationManager * option (string * string) :=
  let m := push_message (mkMessage "user" user_message) m in
  let m := log (Trace.user_input user_message) m in
  let m := log (Trace.llm_request (List.length (messages m)) [ "memory" ]) m in
  let st := consume (steps run) (mkStream EmptyString [] m) in
  match ending run with
  | Completed r =>
      let response_text :=
        match first_text (response_content r) with
        | Some t => t
        | None => response_text st
        end in
      let m := push_message (mkMessage "assistant" response_text) (manager st) in
      let m := log (Trace.llm_response response_text) m in
      match track_usage (usage r) (totals m) with
      | (counters, Some last) =>
          let m := set_totals counters m in
          let m := log (Trace.token_usage last (totals m)) m in
          (List.app (yielded st) [ done (mkSnapshot last (totals m)) ], m, None)
      | (counters, None) =>
          let m := set_totals counters m in
          let m := log (Trace.error "TypeError" NONE_ADDED) m in
          (List.app (yielded st) [ error NONE_ADDED ], m, None)
      end
  | Raised error_type message =>
      let m := log (Trace.error error_type message) (manager st) in
      (List.app (yielded st) [ error message ], m, None)
  | Uncaught error_type message =>
      (yielded st, manager st, Some (error_type, message))
  end.

(** *** The reset *)

(** What the collaborators of [clear_memories] answer: the memory tool to
    [clear_all_memory()], the storage to the write of [finalize()], and the
    identifier and clock reading for the next session. *)
Record reset_env : Type := mkResetEnv {
  clear_all_memory : result string;
  store : result string;
  now : string;
  next_session_id : string
}.

(** [clear_memories()]: the manager it leaves and what it returns or
    raises, and the session record that was written, if one was. *)
Definition clear_memories (env : reset_env) (m : ConversationManager)
  : ConversationManager * result string * option Trace.SessionTrace :=
  match clear_all_memory env with
  | Raise e => (m, Raise e, None)
  | Ok result_ =>
      let m := mkManager (model m) (system_prompt m) [] (trace m) Trace.usage_zero in
      match Trace.finalize (now env) (store env) (trace m) with
      | (old, Raise e) =>
          (mkManager (model m) (system_prompt m) (messages m) old (totals m),
           Raise e, None)
      | (old, Ok _) =>
          (mkManager (model m) (system_prompt m) (messages m)
                     (Trace.create (next_session_id env) (now env)
                                   (model m) (system_prompt m))
                     (totals m),
           Ok result_, Some old)
      end
  end.

End Conversation.

(** ** Vocabulary of the statements on the diagram *)

Module DiagramSpec.
Import PyStr PyVal Diagram.

(** The text after the two replacements of [escape_text], before the cut. *)
Definition normalised (text : string) : string :=
  replace_char DQUOTE (chr SQUOTE) (replace_char LF "<br/>" text).

(** The event is of the given kind. *)
Definition is_kind (event : list (string * json)) (kind : string) : Prop :=
  get event "event_type" JNull = JStr kind.

(** How many of the lines are exactly [line]. *)
Definition count_line (line : string) (ls : list string) : nat :=
  List.length (filter (String.eqb line) ls).

(** The kinds that the walk has a branch for. *)
Definition recognized (event_type : json) : bool :=
  eq_str event_type "user_input" || eq_str event_type "llm_request"
  || eq_str event_type "tool_call" || eq_str event_type "tool_result"
  || eq_str event_type "llm_response" || eq_str event_type "error".

(** An event record whose [event_type] is none of them. *)
Definition unrecognized (event : json) : bool :=
  match event with
  | JDict ev => negb (recognized (get ev "event_type" JNull))
  | _ => false
  end.

Definition without_unrecognized (events : list json) : list json :=
  filter (fun event => negb (unrecognized event)) events.

(** The session record with the unrecognized events taken out of its
    [events] list. *)
Fixpoint strip_unrecognized (trace_data : list (string * json))
  : list (string * json) :=
  match trace_data with
  | [] => []
  | (k, x) :: rest =>
      (k, if String.eqb k "events"
          then match x with
               | JList events => JList (without_unrecognized events)
               | _ => x
               end
          else x) :: strip_unrecognized rest
  end.

(** The payload that the walk hands to [escape_text] for an event, with the
    budget, read off the branches of the loop: [content] of [user_input]
    and of [llm_response], [result] or [error] of a [tool_result] of the
    memory tool, [message] of [error]. *)
Definition escaped_payload (event : list (string * json)) : option (json * nat) :=
  let event_type := get event "event_type" JNull in
  if eq_str event_type "user_input"
  then Some (get event "content" (JStr EmptyString), 50)
  else if eq_str event_type "llm_request" then None
  else if eq_str event_type "tool_call" then None
  else if eq_str event_type "tool_result"
  then
    if eq_str (get event "tool_name" (JStr EmptyString)) "memory"
    then
      if truthy (get event "success" (JBool true))
      then Some (get event "result" (JStr EmptyString), 40)
      else Some (if truthy (get event "error" JNull)
                 then get event "error" JNull
                 else JStr "Error", 40)
    else None
  else if eq_str event_type "llm_response"
  then Some (get event "content" (JStr EmptyString), 60)
  else if eq_str event_type "error"
  then Some (get event "message" (JStr "Unknown error"), 40)
  else None.


(** Sample events, for the examples. *)
Definition event_of (kind : string) (fields : list (string * json)) : json :=
  JDict (("event_type", JStr kind) :: fields).

Definition fields_of (kind : string) (fields : list (string * json))
  : list (string * json) :=
  ("event_type", JStr kind) :: fields.

Definition sample_user_input : list (string * json) :=
  fields_of "user_input" [ ("content", JStr "hi") ].

Definition sample_llm_response : list (string * json) :=
  fields_of "llm_response" [ ("content", JStr "hello") ].

Definition sample_tool_call : list (string * json) :=
  fields_of "tool_call"
    [ ("tool_name", JStr "memory"); ("command", JStr "view");
      ("parameters", JDict [ ("path", JStr "/memories") ]) ].

Definition sample_tool_result : list (string * json) :=
  fields_of "tool_result"
    [ ("tool_name", JStr "memory"); ("command", JStr "view");
      ("success", JBool true); ("result", JStr "<file list>") ].


Definition start_state : walk_state := mkWalk [] 0 false.

Definition sample_other_tool_call : list (string * json) :=
  fields_of "tool_call"
    [ ("tool_name", JStr "search"); ("command", JStr "find");
      ("parameters", JDict [ ("query", JStr "notes") ]) ].


(** The value is a JSON object. *)
Definition is_object (v : json) : bool :=
  match v with
  | JDict _ => true
  | _ => false
  end.

(** The fields of the record that the renderer reads. *)
Definition read_fields : list string :=
  [ "session_id"; "start_time"; "model"; "events" ].

(** The outputs of [n] successive calls on the same record. *)
Fixpoint render_times (n : nat) (trace_data : json) : list (result string) :=
  match n with
  | O => []
  | S n' => generate_mermaid_diagram trace_data :: render_times n' trace_data
  end.

End DiagramSpec.

(** ** Vocabulary of the statements on the orchestrator *)

Module ConversationSpec.
Import Conversation Trace.

(** Counter consistency: the checkpoint of the [token_usage] event at index
    [i] is the sum of the [token_usage] deltas at the indices up to [i]. *)
Definition counters_consistent (evs : list event) : Prop :=
  forall i idx delta cumulative,
    nth_error evs i = Some (mkEvent idx (token_usage delta cumulative)) ->
    cumulative = deltas_sum (firstn (S i) evs).

(** Each checkpoint is the checkpoint before it (zero when there is none)
    plus the delta of its own turn. *)
Definition checkpoints_chained (evs : list event) : Prop :=
  forall i idx delta cumulative,
    nth_error evs i = Some (mkEvent idx (token_usage delta cumulative)) ->
    cumulative = usage_add (last_cumulative (firstn i evs) usage_zero) delta.

(** The four counters do not decrease from one [token_usage] event to a
    later one. *)
Definition counters_monotone (evs : list event) : Prop :=
  forall i j idx idx' delta delta' cumulative cumulative',
    i <= j ->
    nth_error evs i = Some (mkEvent idx (token_usage delta cumulative)) ->
    nth_error evs j = Some (mkEvent idx' (token_usage delta' cumulative')) ->
    usage_le cumulative cumulative'.

(** The token counts reported for the turns are not negative. *)
Definition deltas_nonneg (evs : list event) : Prop :=
  forall e delta cumulative,
    In e evs -> body e = token_usage delta cumulative -> usage_le usage_zero delta.

(** What holds of a log and of the counters kept beside it. *)
Definition log_ok (evs : list event) (counters : usage) : Prop :=
  counters = deltas_sum evs
  /\ last_cumulative evs usage_zero = counters
  /\ counters_consistent evs
  /\ checkpoints_chained evs.

Definition after_turn (user_message : string) (run : llm_run) (m : ConversationManager)
  : ConversationManager :=
  snd (fst (send_message_streaming user_message run m)).

Definition yielded_by_turn (user_message : string) (run : llm_run)
           (m : ConversationManager) : list outward :=
  fst (fst (send_message_streaming user_message run m)).

(** The exception that leaves the generator of the turn, if one does. *)
Definition escaping_turn (user_message : string) (run : llm_run)
           (m : ConversationManager) : option (string * string) :=
  snd (send_message_streaming user_message run m).

(** The usage of a completed call holds no cache count that is [None]. *)
Definition counts_reported (u : api_usage) : bool :=
  match getattr (cache_read_input_tokens u), getattr (cache_creation_input_tokens u) with
  | Some _, Some _ => true
  | _, _ => false
  end.

(** The external call of the run raised, or completed with a usage whose
    cache counts are integers or missing. *)
Definition usage_reported (run : llm_run) : bool :=
  match ending run with
  | Completed r => counts_reported (Conversation.usage r)
  | _ => true
  end.

(** The deltas of a turn whose usage holds no [None]. *)
Definition last_usage (u : api_usage) : usage :=
  mkUsage (Conversation.input_tokens u) (Conversation.output_tokens u)
          (match getattr (cache_read_input_tokens u) with
           | Some z => z
           | None => 0%Z
           end)
          (match getattr (cache_creation_input_tokens u) with
           | Some z => z
           | None => 0%Z
           end).

(** The managers that the constructor, turns and resets that return lead
    to. The external call of a turn may raise, at any point and with any
    exception, or complete; a completed call whose usage holds a cache count
    that is [None] is not among the steps. A reset that raises in its first
    step leaves the manager as it is; one that raises later is not among
    the steps. *)
Inductive reachable : ConversationManager -> Prop :=
| reach_init : forall session_id now model system_prompt,
    reachable (init session_id now model system_prompt)
| reach_turn : forall m user_message run,
    reachable m ->
    usage_reported run = true ->
    reachable (after_turn user_message run m)
| reach_reset : forall m env m' answer written,
    reachable m ->
    clear_memories env m = (m', Ok answer, written) ->
    reachable m'.

Definition is_progress (o : outward) : bool :=
  match o with
  | text _ | tool_use_start _ _ => true
  | _ => false
  end.

(** What the memory tool logs during the steps of a run, in order. *)
Fixpoint logged_by (ss : list run_step) : list payload :=
  match ss with
  | [] => []
  | ToolCall tool_name command parameters :: rest =>
      tool_call tool_name command parameters :: logged_by rest
  | ToolResult tool_name command success result_text error_text :: rest =>
      tool_result tool_name command success result_text error_text :: logged_by rest
  | Stream _ :: rest => logged_by rest
  end.

(** What the generator yields during the steps of a run, in order. *)
Fixpoint yielded_from (ss : list run_step) : list outward :=
  match ss with
  | [] => []
  | Stream (content_block_delta (Some chunk)) :: rest => text chunk :: yielded_from rest
  | Stream (content_block_start (Some block)) :: rest =>
      match block_type block with
      | Some ty =>
          if String.eqb ty "tool_use"
          then tool_use_start (or_default (block_name block) "memory")
                              (or_default (block_id block) EmptyString)
                 :: yielded_from rest
          else yielded_from rest
      | None => yielded_from rest
      end
  | _ :: rest => yielded_from rest
  end.

Definition log_all (ps : list payload) (m : ConversationManager) : ConversationManager :=
  fold_left (fun acc p => log p acc) ps m.

(** The sum of the deltas among some payloads. *)
Fixpoint payload_sum (ps : list payload) : usage :=
  match ps with
  | [] => usage_zero
  | token_usage delta _ :: rest => usage_add delta (payload_sum rest)
  | _ :: rest => payload_sum rest
  end.

Definition is_token_usage (p : payload) : bool :=
  match p with
  | token_usage _ _ => true
  | _ => false
  end.

(** The text increments of a run, concatenated. *)
Fixpoint streamed_text (ss : list run_step) : string :=
  match ss with
  | [] => EmptyString
  | Stream (content_block_delta (Some chunk)) :: rest => chunk ++ streamed_text rest
  | _ :: rest => streamed_text rest
  end.

(** The text of the assistant at the end of a completed run. *)
Definition final_text (ss : list run_step) (r : response) : string :=
  match first_text (response_content r) with
  | Some t => t
  | None => streamed_text ss
  end.

(** Sample collaborators, for the examples. *)
Definition sample_manager : ConversationManager :=
  init "20250101_100000" "2025-01-01T10:00:00" "claude-sonnet-4-5" "You remember.".

Definition sample_run (input output : Z) : llm_run :=
  mkLlmRun [ Stream (content_block_delta (Some "Hel"));
             Stream (content_block_delta (Some "lo")) ]
           (Completed (mkResponse [ Some "Hello" ]
                                  (mkApiUsage input output Missing (Int 0)))).

(** The call completes and its usage holds a cache count that is [None]. *)
Definition sample_none_run (input output : Z) : llm_run :=
  mkLlmRun [ Stream (content_block_delta (Some "Hello")) ]
           (Completed (mkResponse [ Some "Hello" ]
                                  (mkApiUsage input output IsNone IsNone))).

(** The task of the turn is cancelled while the stream is awaited. *)
Definition sample_cancelled_run : llm_run :=
  mkLlmRun [ Stream (content_block_delta (Some "Hel")) ]
           (Uncaught "CancelledError" EmptyString).

Definition sample_failed_run : llm_run :=
  mkLlmRun [ Stream (content_block_delta (Some "Hel")) ]
           (Raised "APIConnectionError" "Connection error.").

Definition sample_reset_env : reset_env :=
  mkResetEnv (Ok "All memory cleared") (Ok "sessions/session_20250101_100000.json")
             "2025-01-01T11:00:00" "20250101_110000".

(** The storage refuses the write of [finalize()]. *)
Definition sample_interrupted_env : reset_env :=
  mkResetEnv (Ok "All memory cleared") (Raise (OSError "No space left on device"))
             "2025-01-01T11:00:00" "20250101_110000".

Definition manager_after_reset (env : reset_env) (m : ConversationManager)
  : ConversationManager :=
  fst (fst (clear_memories env m)).

(** A turn, a reset interrupted by the storage, and a second turn. *)
Definition sample_interrupted_session : ConversationManager :=
  after_turn "and now?" (sample_run 3 2)
    (manager_after_reset sample_interrupted_env
       (after_turn "hi" (sample_run 10 5) sample_manager)).

(** A turn whose call completes with cache counts that are [None], and a
    second turn. *)
Definition sample_none_session : ConversationManager :=
  after_turn "and now?" (sample_run 3 2)
    (after_turn "hi" (sample_none_run 10 5) sample_manager).

End ConversationSpec.

(** ** Prompt loading: [load_system_prompt] of [backend/core/conversation.py] *)

Module Prompt.
Import PyStr.

(** [c.isspace()], for a code point below 256. *)
Definition is_space (c : ascii) : bool :=
  let n := nat_of_ascii c in
  ((9 <=? n) && (n <=? 13) || (28 <=? n) && (n <=? 32) || (n =? 133) || (n =? 160))%nat.

(** [text.lstrip()] *)
Fixpoint lstrip (s : string) : string :=
  match s with
  | EmptyString => EmptyString
  | String c s' => if is_space c then lstrip s' else s
  end.

(** [text.rstrip()] *)
Fixpoint rstrip (s : string) : string :=
  match s with
  | EmptyString => EmptyString
  | String c s' =>
      match rstrip s' with
      | EmptyString => if is_space c then EmptyString else chr c
      | kept => String c kept
      end
  end.

(** [text.strip()] *)
Definition strip (s : string) : string := lstrip (rstrip s).

(** [text.startswith(c)] for a one-character prefix. *)
Definition startswith (c : ascii) (s : string) : bool :=
  match s with
  | String a _ => Ascii.eqb a c
  | EmptyString => false
  end.

Definition HASH : ascii := ascii_of_nat 35.

(** The body of the loop over the lines of the file. *)
Definition keep_line (lines : list string) (line : string) : list string :=
  let stripped := strip line in
  if negb (String.eqb stripped EmptyString) && negb (startswith HASH stripped)
  then List.app lines [ rstrip line ]
  else if String.eqb stripped EmptyString
       then List.app lines [ EmptyString ]
       else lines.

(** What [open(prompt_file)] finds: no file, or the lines that the iteration
    over the file gives, each with its line end. *)
Inductive prompt_file : Type :=
| NoSuchFile
| FileLines (ls : list string).

Inductive prompt_error : Type :=
| FileNotFoundError.

(** [load_system_prompt(prompt_file)]; [current_date] is the formatted
    reading of the clock. *)
Definition load_system_prompt (file : prompt_file) (current_date : string)
  : prompt_error + string :=
  match file with
  | NoSuchFile => inl FileNotFoundError
  | FileLines ls =>
      let lines := fold_left keep_line ls [] in
      let prompt := strip (join (chr LF) lines) in
      inr (prompt ++ String LF (String LF "Today's date is: ") ++ current_date)
  end.

End Prompt.

(** ** More of the orchestrator *)

Module ConversationMore.
Import Conversation.

(** [get_token_stats()] *)
Definition get_token_stats (m : ConversationManager) : list (string * Z) :=
  [ ("total_input", total_input_tokens m);
    ("total_output", total_output_tokens m);
    ("total_cache_read", total_cache_read_tokens m);
    ("total_cache_write", total_cache_write_tokens m) ].

End ConversationMore.

(** ** The session endpoints of [backend/main.py] *)

Module Api.
Import PyStr PyVal Diagram.

(** A file of the sessions directory: its name, the name without suffix, and
    what reading and parsing it gives. *)
Record session_file : Type := mkFile {
  filename : string;
  stem : string;
  content : trace_file_content
}.

(** [a + b] on values of a record: integers (a boolean counts as 0 or 1),
    texts and lists. *)
Definition as_int (v : json) : option Z :=
  match v with
  | JInt z => Some z
  | JBool true => Some 1%Z
  | JBool false => Some 0%Z
  | _ => None
  end.

Definition py_add (a b : json) : result json :=
  match as_int a, as_int b with
  | Some x, Some y => Ok (JInt (x + y))
  | _, _ =>
      match a, b with
      | JStr x, JStr y => Ok (JStr (x ++ y))
      | JList x, JList y => Ok (JList (List.app x y))
      | _, _ => Raise TypeError
      end
  end.

(** [[e for e in events if e.get("event_type") == "token_usage"]] *)
Fixpoint token_events (events : list json) : result (list (list (string * json))) :=
  match events with
  | [] => Ok []
  | JDict e :: rest =>
      found <- token_events rest ;;
      Ok (if eq_str (get e "event_type" JNull) "token_usage" then e :: found else found)
  | _ :: _ => Raise AttributeError
  end.

(** [cumulative.get(key, 0)], on the value of ["cumulative"]. *)
Definition get_from (v : json) (key : string) (default : json) : result json :=
  match v with
  | JDict d => Ok (get d key default)
  | _ => Raise AttributeError
  end.

(** The total shown for a session: input plus output tokens of the checkpoint
    of its last [token_usage] event. *)
Definition total_tokens_of (events : list json) : result json :=
  found <- token_events events ;;
  match rev found with
  | [] => Ok (JInt 0)
  | last_event :: _ =>
      let cumulative := get last_event "cumulative" (JDict []) in
      total_input <- get_from cumulative "total_input_tokens" (JInt 0) ;;
      total_output <- get_from cumulative "total_output_tokens" (JInt 0) ;;
      py_add total_input total_output
  end.

(** The entry of [list_sessions] for a parsed record. *)
Definition entry_of (f : session_file) (data : json) : result json :=
  match data with
  | JDict data =>
      events <- iterate (get data "events" (JList [])) ;;
      total_tokens <- total_tokens_of events ;;
      Ok (JDict [ ("id", get data "session_id" (JStr (stem f)));
                  ("filename", JStr (filename f));
                  ("start_time", get data "start_time" JNull);
                  ("end_time", get data "end_time" JNull);
                  ("model", get data "model" JNull);
                  ("event_count", JInt (Z.of_nat (List.length events)));
                  ("total_tokens", total_tokens) ])
  | _ => Raise AttributeError
  end.

(** The body of the [try] of [list_sessions] for one file: the entry of the
    session, or nothing when an exception reached the handler, which logs it
    and goes on. *)
Definition session_entry (f : session_file) : option json :=
  match content f with
  | Loaded data =>
      match entry_of f data with
      | Ok entry => Some entry
      | Raise _ => None
      end
  | _ => None
  end.

(** [list_sessions()], for the files of the directory in the order of the
    loop (file names, descending). *)
Fixpoint list_entries (files : list session_file) : list json :=
  match files with
  | [] => []
  | f :: rest =>
      match session_entry f with
      | Some entry => entry :: list_entries rest
      | None => list_entries rest
      end
  end.

Definition list_sessions (files : list session_file) : json :=
  JDict [ ("sessions", JList (list_entries files)) ].

(** How the search for the file of a session ends: with the file and its
    record, with no file, or with the exception of a file that could not be
    read as a JSON object, which nothing catches. *)
Inductive search : Type :=
| Found (f : session_file) (data : list (string * json))
| NotAmong
| Escaped.

(** The loop [for f in sessions_dir.glob(...)] of [get_session] and of
    [generate_session_diagram]. *)
Fixpoint find_session_file (session_id : string) (files : list session_file) : search :=
  match files with
  | [] => NotAmong
  | f :: rest =>
      match content f with
      | Loaded (JDict data) =>
          if eq_str (get data "session_id" JNull) session_id
          then Found f data
          else find_session_file session_id rest
      | _ => Escaped
      end
  end.

(** The text of an [HTTPException]: a literal, or [str(e)] of an exception. *)
Inductive detail : Type :=
| Text (s : string)
| StrOf (e : exn).

Inductive response (A : Type) : Type :=
| Returned (a : A)
| HTTPException (status_code : nat) (d : detail)
| Unhandled.

Arguments Returned {A} a.
Arguments HTTPException {A} status_code d.
Arguments Unhandled {A}.

(** [get_session(session_id)]; the file is read again once found, with the
    same content. *)
Definition get_session (session_id : string) (files : list session_file)
  : response json :=
  match find_session_file session_id files with
  | Found _ data => Returned (JDict data)
  | NotAmong => HTTPException 404 (Text "Session not found")
  | Escaped => Unhandled
  end.

(** What [generate_session_diagram] returns and the file it saves. *)
Record diagram_reply : Type := mkReply {
  reply_session_id : string;
  diagram : string;
  diagram_file : string
}.

(** [generate_session_diagram(session_id)]; the file of the session is read
    again once found, with the same content, and [d] is what the file system
    answers when the diagram is saved, inside the [try]. The identifier is a
    segment of the request path and holds no slash. *)
Definition generate_session_diagram (session_id : string) (files : list session_file)
           (d : disk) : response diagram_reply :=
  match find_session_file session_id files with
  | Found _ data =>
      match generate_mermaid_diagram (JDict data) with
      | Ok text =>
          match d with
          | Writes =>
              Returned (mkReply session_id text
                                ("sessions/diagram_" ++ session_id ++ ".md"))
          | Refuses e => HTTPException 500 (StrOf e)
          end
      | Raise e => HTTPException 500 (StrOf e)
      end
  | NotAmong => HTTPException 404 (Text "Session not found")
  | Escaped => Unhandled
  end.

End Api.

(** ** Vocabulary of the further statements *)

Module MoreSpec.
Import PyStr PyVal Diagram DiagramSpec Conversation.

Definition is_str (v : json) : bool :=
  match v with
  | JStr _ => true
  | _ => false
  end.

(** The event can be written by the walk: it is a record and the payloads
    that its branch escapes are texts, the parameters of a call of the memory
    tool a mapping. *)
Definition event_renders (event : json) : bool :=
  match event with
  | JDict ev =>
      let event_type := get ev "event_type" JNull in
      if eq_str event_type "tool_call"
      then
        if eq_str (get ev "tool_name" (JStr EmptyString)) "memory"
        then is_object (get ev "parameters" (JDict []))
        else true
      else
        match escaped_payload ev with
        | Some (payload, _) => is_str payload
        | None => true
        end
  | _ => false
  end.

(** The record can be rendered: it is an object, its events can be iterated
    and each can be written. *)
Definition record_renders (trace_data : json) : bool :=
  match trace_data with
  | JDict td =>
      match iterate (get td "events" (JList [])) with
      | Ok events => forallb event_renders events
      | Raise _ => false
      end
  | _ => false
  end.

Definition is_user_input (event : json) : bool :=
  match event with
  | JDict ev => eq_str (get ev "event_type" JNull) "user_input"
  | _ => false
  end.

(** The increments of text among the events yielded, concatenated. *)
Fixpoint concat_text (out : list outward) : string :=
  match out with
  | [] => EmptyString
  | text data :: rest => data ++ concat_text rest
  | _ :: rest => concat_text rest
  end.

Definition is_terminal (o : outward) : bool :=
  match o with
  | done _ | error _ => true
  | _ => false
  end.

Definition as_bit (b : bool) : nat := if b then 1 else 0.

Definition is_llm_response (event : json) : bool :=
  match event with
  | JDict ev => eq_str (get ev "event_type" JNull) "llm_response"
  | _ => false
  end.

(** The open-turn flag after an event, from the flag before it: set by a
    [user_input] event, cleared by an [llm_response] event, kept by the
    others. *)
Definition open_after (flag : bool) (event : json) : bool :=
  if is_user_input event then true
  else if is_llm_response event then false
  else flag.

(** The number of [llm_response] events of a log that are met with the flag
    set, the flag being [flag] before the first event. *)
Fixpoint closings (flag : bool) (events : list json) : nat :=
  match events with
  | [] => 0
  | event :: rest =>
      as_bit (flag && is_llm_response event) + closings (open_after flag event) rest
  end.

(** The events of the kinds whose lines hold a field that is written as it
    is: the [tools] of an [llm_request], the [command] and the parameters of
    a [tool_call] of the memory tool. The event has no line break there. *)
Definition fields_unbroken (event : json) : bool :=
  match event with
  | JDict ev =>
      let event_type := get ev "event_type" JNull in
      if eq_str event_type "llm_request"
      then negb (contains LF (py_str (get ev "tools" (JList []))))
      else if eq_str event_type "tool_call"
      then
        if eq_str (get ev "tool_name" (JStr EmptyString)) "memory"
        then
          negb (contains LF (py_str (get ev "command" (JStr EmptyString))))
          && match get ev "parameters" (JDict []) with
             | JDict params => negb (contains LF (format_params params))
             | _ => true
             end
        else true
      else true
  | _ => true
  end.

(** The three fields of the header hold no line break. *)
Definition header_unbroken (trace_data : list (string * json)) : bool :=
  negb (contains LF (py_str (get trace_data "session_id" (JStr "unknown"))))
  && negb (contains LF (py_str (get trace_data "start_time" (JStr "unknown"))))
  && negb (contains LF (py_str (get trace_data "model" (JStr "unknown")))).

(** [text.split(chr(10))]: the lines of a text. *)
Definition text_lines (text : string) : list string := split_on LF text.

(** A call of the memory tool whose [command] holds a line break. *)
Definition sample_broken_tool_call : list (string * json) :=
  fields_of "tool_call"
    [ ("tool_name", JStr "memory");
      ("command", JStr ("view" ++ String LF "    end"));
      ("parameters", JDict [ ("path", JStr "/memories") ]) ].

(** [a] is the beginning of [b]. *)
Definition prefix_of {A : Type} (a b : list A) : Prop :=
  exists more, b = List.app a more.

(** Every character of the text is white space. *)
Fixpoint all_space (s : string) : bool :=
  match s with
  | EmptyString => true
  | String c s' => Prompt.is_space c && all_space s'
  end.

(** The line is a comment of a prompt file. *)
Definition is_comment (line : string) : bool :=
  negb (String.eqb (Prompt.strip line) EmptyString)
  && Prompt.startswith Prompt.HASH (Prompt.strip line).

(** The line is blank: nothing is left of it once stripped. *)
Definition is_blank (line : string) : bool :=
  String.eqb (Prompt.strip line) EmptyString.

(** The file was read and parsed to a JSON object. *)
Definition parsed_object (f : Api.session_file) : bool :=
  match Api.content f with
  | Loaded (JDict _) => true
  | _ => false
  end.

(** The file holds a JSON object whose [session_id] is not the one asked. *)
Definition other_session (session_id : string) (f : Api.session_file) : bool :=
  match Api.content f with
  | Loaded (JDict data) => negb (eq_str (get data "session_id" JNull) session_id)
  | _ => false
  end.

(** The event is a record that is not a [token_usage] event. *)
Definition plain_event (event : json) : bool :=
  match event with
  | JDict ev => negb (eq_str (get ev "event_type" JNull) "token_usage")
  | _ => false
  end.

Definition sample_session_file (name id : string) : Api.session_file :=
  Api.mkFile (name ++ ".json") name
             (Loaded (JDict [ ("session_id", JStr id);
                              ("events", JList [ JDict sample_user_input;
                                                 JDict sample_llm_response ]) ])).

Definition sample_corrupt_file : Api.session_file :=
  Api.mkFile "session_x.json" "session_x" (InvalidJSON "Expecting value").

End MoreSpec.

(** * Properties *)

(** ** Facts on strings *)

Module PyStrFacts.
Import PyStr.

Lemma length_app (a b : string) :
  String.length (a ++ b) = String.length a + String.length b.
Proof.
  induction a as [|c a IH]; simpl; [reflexivity|].
  now rewrite IH.
Qed.

Lemma contains_app (c : ascii) (a b : string) :
  contains c (a ++ b) = contains c a || contains c b.
Proof.
  induction a as [|x a IH]; simpl; [reflexivity|].
  now rewrite IH, orb_assoc.
Qed.

Lemma length_str_take (n : nat) (s : string) :
  String.length (str_take n s) = Nat.min n (String.length s).
Proof.
  revert s; induction n as [|n IH]; intros [|c s]; simpl; try reflexivity.
  now rewrite IH.
Qed.

Lemma contains_str_take (c : ascii) (n : nat) (s : string) :
  contains c s = false -> contains c (str_take n s) = false.
Proof.
  revert s; induction n as [|n IH]; intros [|x s]; simpl; try reflexivity.
  intros H. apply orb_false_iff in H as [Hx Hs].
  now rewrite Hx, (IH s Hs).
Qed.

(** After [replace(c, by)] no [c] is left, when [by] has none. *)
Lemma replace_char_removes (c : ascii) (by_ s : string) :
  contains c by_ = false -> contains c (replace_char c by_ s) = false.
Proof.
  intros Hby. induction s as [|a s IH]; simpl; [reflexivity|].
  destruct (Ascii.eqb a c) eqn:E.
  - now rewrite contains_app, Hby, IH.
  - simpl. now rewrite E, IH.
Qed.

(** [replace(c, by)] brings in no [d] that neither the text nor [by] had. *)
Lemma replace_char_keeps_absent (c d : ascii) (by_ s : string) :
  contains d by_ = false -> contains d s = false ->
  contains d (replace_char c by_ s) = false.
Proof.
  intros Hby. induction s as [|a s IH]; simpl; [reflexivity|].
  intros H. apply orb_false_iff in H as [Ha Hs].
  destruct (Ascii.eqb a c).
  - now rewrite contains_app, Hby, (IH Hs).
  - simpl. now rewrite Ha, (IH Hs).
Qed.



Lemma str_app_assoc (a b c : string) : (a ++ b) ++ c = a ++ (b ++ c).
Proof. induction a as [|x a IH]; cbn; [reflexivity|now rewrite IH]. Qed.

Lemma str_app_nil_r (a : string) : a ++ EmptyString = a.
Proof. induction a as [|x a IH]; cbn; [reflexivity|now rewrite IH]. Qed.


End PyStrFacts.

(** ** The escaping primitive *)

Module EscapeFacts.
Import PyStr PyVal Diagram DiagramSpec PyStrFacts.

Lemma escape_text_unfold (text : string) (max_length : nat) :
  escape_text text max_length =
    if (max_length <? String.length (normalised text))%nat
    then str_take max_length (normalised text) ++ "..."
    else normalised text.
Proof. reflexivity. Qed.

Lemma normalised_no_line_break (text : string) :
  contains LF (normalised text) = false.
Proof.
  unfold normalised.
  apply replace_char_keeps_absent; [reflexivity|].
  now apply replace_char_removes.
Qed.

Lemma normalised_no_double_quote (text : string) :
  contains DQUOTE (normalised text) = false.
Proof.
  unfold normalised. now apply replace_char_removes.
Qed.


Lemma escape_text_no_line_break (text : string) (max_length : nat) :
  contains LF (escape_text text max_length) = false.
Proof.
  rewrite escape_text_unfold.
  destruct (max_length <? _)%nat.
  - rewrite contains_app, contains_str_take by apply normalised_no_line_break.
    reflexivity.
  - apply normalised_no_line_break.
Qed.

Lemma escape_text_no_double_quote (text : string) (max_length : nat) :
  contains DQUOTE (escape_text text max_length) = false.
Proof.
  rewrite escape_text_unfold.
  destruct (max_length <? _)%nat.
  - rewrite contains_app, contains_str_take by apply normalised_no_double_quote.
    reflexivity.
  - apply normalised_no_double_quote.
Qed.





Lemma escape_text_length (text : string) (max_length : nat) :
  String.length (escape_text text max_length) <= max_length + 3.
Proof.
  rewrite escape_text_unfold.
  destruct (Nat.ltb_spec max_length (String.length (normalised text))).
  - rewrite length_app, length_str_take. simpl. lia.
  - lia.
Qed.

End EscapeFacts.

(** ** The walk over the events *)

Module WalkFacts.
Import PyStr PyVal Diagram DiagramSpec MoreSpec PyStrFacts EscapeFacts.

(** The branch of [user_input]. *)
Lemma walk_event_user_input (event : list (string * json)) (c : string)
      (st : walk_state) :
  is_kind event "user_input" ->
  get event "content" (JStr EmptyString) = JStr c ->
  walk_event (JDict event) st =
    Ok (mkWalk
          (List.app (lines st)
             [ EmptyString;
               rect_line;
               "        Note over User,MemorySystem: Turn "
                 ++ str_of_nat (S (turn_number st)) ++ ": User Input";
               EmptyString;
               "        User->>HostApp: " ++ chr DQUOTE ++ escape_text c 50 ++ chr DQUOTE;
               "        HostApp->>HostApp: Append to messages" ])
          (S (turn_number st)) true).
Proof.
  intros Hkind Hc. unfold is_kind in Hkind.
  unfold walk_event. rewrite Hkind. cbn [eq_str String.eqb Ascii.eqb Bool.eqb].
  unfold on_user_input. rewrite Hc. reflexivity.
Qed.

(** The branch of [llm_response]. *)
Lemma walk_event_llm_response (event : list (string * json)) (c : string)
      (st : walk_state) :
  is_kind event "llm_response" ->
  get event "content" (JStr EmptyString) = JStr c ->
  walk_event (JDict event) st =
    Ok (mkWalk
          (List.app (lines st)
             (List.app
                [ EmptyString;
                  "        Note over LLM: Ready to respond";
                  "        LLM-->>HostApp: " ++ chr DQUOTE ++ escape_text c 60 ++ chr DQUOTE;
                  "        HostApp->>HostApp: Append to messages";
                  "        HostApp-->>User: " ++ chr DQUOTE ++ escape_text c 60 ++ chr DQUOTE ]
                (if in_turn st then [ end_line ] else [])))
          (turn_number st) false).
Proof.
  intros Hkind Hc. unfold is_kind in Hkind.
  unfold walk_event. rewrite Hkind. cbn [eq_str String.eqb Ascii.eqb Bool.eqb].
  unfold on_llm_response. rewrite Hc. cbn [call_escape_text bind].
  destruct st as [ls n [|]]; cbn [append in_turn lines turn_number].
  - rewrite <- app_assoc. reflexivity.
  - rewrite app_nil_r. reflexivity.
Qed.

(** The branch of [error]. *)
Lemma walk_event_error (event : list (string * json)) (msg : string)
      (st : walk_state) :
  is_kind event "error" ->
  get event "message" (JStr "Unknown error") = JStr msg ->
  walk_event (JDict event) st =
    Ok (append st [ "    Note over HostApp: ERROR: " ++ escape_text msg 40 ]).
Proof.
  intros Hkind Hc. unfold is_kind in Hkind.
  unfold walk_event. rewrite Hkind. cbn [eq_str String.eqb Ascii.eqb Bool.eqb].
  unfold on_error. rewrite Hc. reflexivity.
Qed.

(** The branch of [tool_call], for the memory tool. *)
Lemma walk_event_tool_call (event params : list (string * json)) (st : walk_state) :
  is_kind event "tool_call" ->
  get event "tool_name" (JStr EmptyString) = JStr "memory" ->
  get event "parameters" (JDict []) = JDict params ->
  walk_event (JDict event) st =
    Ok (append st
          [ EmptyString;
            "        Note over LLM: Decides to "
              ++ py_str (get event "command" (JStr EmptyString));
            "        LLM->>MemorySystem: "
              ++ py_str (get event "command" (JStr EmptyString))
              ++ "(" ++ format_params params ++ ")";
            "        activate MemorySystem" ]).
Proof.
  intros Hkind Hname Hparams. unfold is_kind in Hkind.
  unfold walk_event. rewrite Hkind. cbn [eq_str String.eqb Ascii.eqb Bool.eqb].
  unfold on_tool_call. rewrite Hname, Hparams. reflexivity.
Qed.

(** The branch of [tool_result], for the memory tool. *)
Lemma walk_event_tool_result (event : list (string * json)) (shown : string)
      (st : walk_state) :
  is_kind event "tool_result" ->
  get event "tool_name" (JStr EmptyString) = JStr "memory" ->
  (if truthy (get event "success" (JBool true))
   then get event "result" (JStr EmptyString)
   else if truthy (get event "error" JNull)
        then get event "error" JNull
        else JStr "Error") = JStr shown ->
  walk_event (JDict event) st =
    Ok (append st
          [ (if truthy (get event "success" (JBool true))
             then "        MemorySystem-->>LLM: "
             else "        MemorySystem-->>LLM: ERROR: ") ++ escape_text shown 40;
            "        deactivate MemorySystem" ]).
Proof.
  intros Hkind Hname Hshown. unfold is_kind in Hkind.
  unfold walk_event. rewrite Hkind. cbn [eq_str String.eqb Ascii.eqb Bool.eqb].
  unfold on_tool_result. rewrite Hname. cbn [eq_str String.eqb Ascii.eqb Bool.eqb].
  destruct (truthy (get event "success" (JBool true))); rewrite Hshown;
    cbn [call_escape_text bind]; unfold append; cbn [lines turn_number in_turn];
    rewrite <- app_assoc; reflexivity.
Qed.

(** A tool event of another tool writes nothing. *)
Lemma walk_event_other_tool (event : list (string * json)) (st : walk_state) :
  is_kind event "tool_call" \/ is_kind event "tool_result" ->
  eq_str (get event "tool_name" (JStr EmptyString)) "memory" = false ->
  walk_event (JDict event) st = Ok st.
Proof.
  unfold is_kind. intros [Hkind|Hkind] Hname;
    unfold walk_event; rewrite Hkind; cbn [eq_str String.eqb Ascii.eqb Bool.eqb].
  - unfold on_tool_call. now rewrite Hname.
  - unfold on_tool_result. now rewrite Hname.
Qed.

(** An event of no recognized kind leaves the state of the walk as it is. *)
Lemma walk_event_unrecognized (event : json) (st : walk_state) :
  unrecognized event = true -> walk_event event st = Ok st.
Proof.
  destruct event as [| | | | |ev]; try discriminate.
  unfold unrecognized, recognized. intros H.
  apply negb_true_iff in H.
  repeat (apply orb_false_iff in H; destruct H as [H ?]).
  unfold walk_event.
  repeat match goal with E : eq_str _ _ = false |- _ => rewrite E; clear E end.
  reflexivity.
Qed.

Lemma walk_without_unrecognized (events : list json) (st : walk_state) :
  walk (without_unrecognized events) st = walk events st.
Proof.
  revert st. induction events as [|event rest IH]; intros st; [reflexivity|].
  unfold without_unrecognized in *. cbn [filter].
  destruct (unrecognized event) eqn:E; cbn [negb walk].
  - rewrite (walk_event_unrecognized _ _ E). cbn [bind]. apply IH.
  - destruct (walk_event event st); cbn [bind]; [apply IH|reflexivity].
Qed.

Lemma walk_app (a b : list json) (st : walk_state) :
  walk (List.app a b) st = (st' <- walk a st ;; walk b st').
Proof.
  revert st. induction a as [|event a IH]; intros st; [reflexivity|].
  cbn [List.app walk]. destruct (walk_event event st); cbn [bind];
    [apply IH|reflexivity].
Qed.

Lemma eq_str_true (v : json) (k : string) : eq_str v k = true -> v = JStr k.
Proof.
  destruct v; try discriminate. cbn. intros H. apply String.eqb_eq in H. now subst.
Qed.

(** Case analysis on the kind of an event record: [event_type] is one of the
    six kinds of the walk, or none of them. *)
Lemma kind_cases (ev : list (string * json)) :
  is_kind ev "user_input" \/ is_kind ev "llm_request" \/ is_kind ev "tool_call"
  \/ is_kind ev "tool_result" \/ is_kind ev "llm_response" \/ is_kind ev "error"
  \/ recognized (get ev "event_type" JNull) = false.
Proof.
  unfold is_kind, recognized.
  destruct (eq_str (get ev "event_type" JNull) "user_input") eqn:E1;
    [left; now apply eq_str_true|right].
  destruct (eq_str (get ev "event_type" JNull) "llm_request") eqn:E2;
    [left; now apply eq_str_true|right].
  destruct (eq_str (get ev "event_type" JNull) "tool_call") eqn:E3;
    [left; now apply eq_str_true|right].
  destruct (eq_str (get ev "event_type" JNull) "tool_result") eqn:E4;
    [left; now apply eq_str_true|right].
  destruct (eq_str (get ev "event_type" JNull) "llm_response") eqn:E5;
    [left; now apply eq_str_true|right].
  destruct (eq_str (get ev "event_type" JNull) "error") eqn:E6;
    [left; now apply eq_str_true|right].
  reflexivity.
Qed.

Ltac kind_simpl H :=
  unfold is_kind in H;
  unfold walk_event, event_renders, escaped_payload, is_user_input;
  rewrite ?H; cbn [eq_str String.eqb Ascii.eqb Bool.eqb andb].

(** The step of the walk succeeds exactly on the events that can be written,
    and fails with [AttributeError] on the others. *)
Lemma walk_event_outcome (event : json) (st : walk_state) :
  if event_renders event
  then exists st', walk_event event st = Ok st'
  else walk_event event st = Raise AttributeError.
Proof.
  destruct event as [| | | | |ev]; try reflexivity.
  destruct (kind_cases ev) as [H|[H|[H|[H|[H|[H|H]]]]]].
  - kind_simpl H. unfold on_user_input.
    destruct (get ev "content" (JStr EmptyString)); cbn; eauto.
  - kind_simpl H. unfold on_llm_request. destruct (in_turn st); eauto.
  - kind_simpl H. unfold on_tool_call.
    destruct (eq_str (get ev "tool_name" (JStr EmptyString)) "memory"); [|eauto].
    destruct (get ev "parameters" (JDict [])); cbn; eauto.
  - kind_simpl H. unfold on_tool_result.
    destruct (eq_str (get ev "tool_name" (JStr EmptyString)) "memory"); [|eauto].
    destruct (truthy (get ev "success" (JBool true))).
    + destruct (get ev "result" (JStr EmptyString)); cbn; eauto.
    + destruct (truthy (get ev "error" JNull)); [|cbn; eauto].
      destruct (get ev "error" JNull); cbn; eauto.
  - kind_simpl H. unfold on_llm_response.
    destruct (get ev "content" (JStr EmptyString)); cbn; try reflexivity.
    destruct (in_turn st); eauto.
  - kind_simpl H. unfold on_error.
    destruct (get ev "message" (JStr "Unknown error")); cbn; eauto.
  - rewrite (walk_event_unrecognized (JDict ev) st)
      by (unfold unrecognized; now rewrite H).
    unfold recognized in H.
    repeat (apply orb_false_iff in H; destruct H as [H ?]).
    unfold event_renders, escaped_payload.
    repeat match goal with E : eq_str _ _ = false |- _ => rewrite E; clear E end.
    eauto.
Qed.

Lemma walk_outcome (events : list json) (st : walk_state) :
  if forallb event_renders events
  then exists st', walk events st = Ok st'
  else walk events st = Raise AttributeError.
Proof.
  revert st. induction events as [|event rest IH]; intros st; cbn [forallb walk].
  - eauto.
  - pose proof (walk_event_outcome event st) as Hev.
    destruct (event_renders event); cbn [andb].
    + destruct Hev as [st' ->]. cbn [bind]. apply IH.
    + now rewrite Hev.
Qed.

Lemma count_line_app (line : string) (a b : list string) :
  count_line line (List.app a b) = count_line line a + count_line line b.
Proof. unfold count_line. now rewrite filter_app, List.length_app. Qed.

Ltac open_branch H Hok :=
  unfold is_kind in H; unfold walk_event in Hok; rewrite H in Hok;
  cbn [eq_str String.eqb Ascii.eqb Bool.eqb andb] in Hok;
  unfold is_user_input; rewrite ?H;
  cbn [eq_str String.eqb Ascii.eqb Bool.eqb andb as_bit].

(** What one step of the walk adds: the lines, the openings and closings of
    regions among them, and the turn counter. *)
Lemma walk_event_counts (event : json) (st st' : walk_state) :
  walk_event event st = Ok st' ->
  exists new,
    lines st' = List.app (lines st) new
    /\ turn_number st' = turn_number st + as_bit (is_user_input event)
    /\ count_line rect_line new = as_bit (is_user_input event)
    /\ count_line end_line new + as_bit (in_turn st')
       <= count_line rect_line new + as_bit (in_turn st).
Proof.
  intros Hok. destruct event as [| | | | |ev]; try discriminate.
  destruct (kind_cases ev) as [H|[H|[H|[H|[H|[H|H]]]]]].
  - open_branch H Hok. unfold on_user_input in Hok.
    destruct (get ev "content" (JStr EmptyString)); try discriminate.
    cbn [call_escape_text bind] in Hok. injection Hok as <-.
    eexists. cbn [lines turn_number in_turn as_bit].
    split; [reflexivity|]. split; [lia|]. split; [reflexivity|].
    cbn. destruct (in_turn st); cbn; lia.
  - open_branch H Hok. unfold on_llm_request in Hok.
    destruct (in_turn st) eqn:Hin; injection Hok as <-.
    + eexists. cbn [append lines turn_number in_turn]. rewrite Hin.
      split; [reflexivity|]. split; [lia|]. split; reflexivity.
    + exists []. rewrite app_nil_r, Hin. split; [reflexivity|].
      split; [lia|]. split; reflexivity.
  - open_branch H Hok. unfold on_tool_call in Hok.
    destruct (eq_str (get ev "tool_name" (JStr EmptyString)) "memory").
    + destruct (get ev "parameters" (JDict [])); try discriminate.
      cbn [items bind] in Hok. injection Hok as <-.
      eexists. cbn [append lines turn_number in_turn].
      split; [reflexivity|]. split; [lia|]. split; reflexivity.
    + injection Hok as <-. exists []. rewrite app_nil_r.
      split; [reflexivity|]. split; [lia|]. split; reflexivity.
  - open_branch H Hok. unfold on_tool_result in Hok.
    destruct (eq_str (get ev "tool_name" (JStr EmptyString)) "memory").
    + destruct (truthy (get ev "success" (JBool true))).
      * destruct (get ev "result" (JStr EmptyString)); try discriminate.
        cbn [call_escape_text bind] in Hok. injection Hok as <-.
        eexists. cbn [append lines turn_number in_turn]. rewrite <- app_assoc.
        split; [reflexivity|]. split; [lia|]. split; reflexivity.
      * destruct (if truthy (get ev "error" JNull)
                  then get ev "error" JNull else JStr "Error"); try discriminate.
        cbn [call_escape_text bind] in Hok. injection Hok as <-.
        eexists. cbn [append lines turn_number in_turn]. rewrite <- app_assoc.
        split; [reflexivity|]. split; [lia|]. split; reflexivity.
    + injection Hok as <-. exists []. rewrite app_nil_r.
      split; [reflexivity|]. split; [lia|]. split; reflexivity.
  - open_branch H Hok. unfold on_llm_response in Hok.
    destruct (get ev "content" (JStr EmptyString)); try discriminate.
    cbn [call_escape_text bind append in_turn lines turn_number] in Hok.
    destruct (in_turn st) eqn:Hin; injection Hok as <-;
      eexists; cbn [append lines turn_number in_turn]; rewrite <- ?app_assoc;
      rewrite ?Hin; (split; [reflexivity|]); (split; [lia|]); split; reflexivity.
  - open_branch H Hok. unfold on_error in Hok.
    destruct (get ev "message" (JStr "Unknown error")); try discriminate.
    cbn [call_escape_text bind] in Hok. injection Hok as <-.
    eexists. cbn [append lines turn_number in_turn].
    split; [reflexivity|]. split; [lia|]. split; reflexivity.
  - rewrite (walk_event_unrecognized (JDict ev) st) in Hok
      by (unfold unrecognized; now rewrite H).
    injection Hok as <-.
    assert (Hu : is_user_input (JDict ev) = false).
    { unfold recognized in H. unfold is_user_input.
      repeat (apply orb_false_iff in H; destruct H as [H ?]). assumption. }
    rewrite Hu. exists []. rewrite app_nil_r.
    split; [reflexivity|]. split; [cbn; lia|]. split; reflexivity.
Qed.

Lemma walk_counts (events : list json) (st st' : walk_state) :
  walk events st = Ok st' ->
  exists new,
    lines st' = List.app (lines st) new
    /\ turn_number st' = turn_number st + List.length (filter is_user_input events)
    /\ count_line rect_line new = List.length (filter is_user_input events)
    /\ count_line end_line new + as_bit (in_turn st')
       <= count_line rect_line new + as_bit (in_turn st).
Proof.
  revert st. induction events as [|event rest IH]; intros st Hok; cbn [walk] in Hok.
  - injection Hok as <-. exists []. rewrite app_nil_r. cbn. repeat split; lia.
  - destruct (walk_event event st) as [mid|e] eqn:Hev; [|discriminate].
    cbn [bind] in Hok.
    destruct (walk_event_counts _ _ _ Hev) as (n1 & Hl1 & Ht1 & Hr1 & He1).
    destruct (IH _ Hok) as (n2 & Hl2 & Ht2 & Hr2 & He2).
    exists (List.app n1 n2).
    rewrite Hl2, Hl1, <- app_assoc, !count_line_app.
    cbn [filter]. destruct (is_user_input event); cbn [as_bit List.length] in *;
      repeat split; lia.
Qed.

Ltac frame_branch H Hok :=
  unfold is_kind in H; unfold walk_event in Hok; rewrite H in Hok;
  cbn [eq_str String.eqb Ascii.eqb Bool.eqb andb] in Hok;
  unfold open_after, is_user_input, is_llm_response; rewrite ?H;
  cbn [eq_str String.eqb Ascii.eqb Bool.eqb andb as_bit];
  rewrite ?andb_false_r, ?andb_true_r; cbn [as_bit].

Ltac frame_done :=
  (split; [reflexivity|]); (split; [cbn [as_bit]; lia|]); (split; [reflexivity|]);
  split; reflexivity.

(** The framing of one step of the walk: the turn counter, the flag, and the
    openings and closings of regions among the lines written. *)
Lemma walk_event_framing (event : json) (st st' : walk_state) :
  walk_event event st = Ok st' ->
  exists new,
    lines st' = List.app (lines st) new
    /\ turn_number st' = turn_number st + as_bit (is_user_input event)
    /\ in_turn st' = open_after (in_turn st) event
    /\ count_line rect_line new = as_bit (is_user_input event)
    /\ count_line end_line new = as_bit (in_turn st && is_llm_response event).
Proof.
  intros Hok. destruct event as [| | | | |ev]; try discriminate.
  destruct (kind_cases ev) as [H|[H|[H|[H|[H|[H|H]]]]]].
  - frame_branch H Hok. unfold on_user_input in Hok.
    destruct (get ev "content" (JStr EmptyString)); try discriminate.
    cbn [call_escape_text bind] in Hok. injection Hok as <-.
    eexists. cbn [lines turn_number in_turn]. frame_done.
  - frame_branch H Hok. unfold on_llm_request in Hok.
    destruct (in_turn st) eqn:Hin; injection Hok as <-.
    + eexists. cbn [append lines turn_number in_turn]. rewrite Hin. frame_done.
    + exists []. rewrite app_nil_r, Hin. frame_done.
  - frame_branch H Hok. unfold on_tool_call in Hok.
    destruct (eq_str (get ev "tool_name" (JStr EmptyString)) "memory").
    + destruct (get ev "parameters" (JDict [])); try discriminate.
      cbn [items bind] in Hok. injection Hok as <-.
      eexists. cbn [append lines turn_number in_turn]. frame_done.
    + injection Hok as <-. exists []. rewrite app_nil_r. frame_done.
  - frame_branch H Hok. unfold on_tool_result in Hok.
    destruct (eq_str (get ev "tool_name" (JStr EmptyString)) "memory").
    + destruct (truthy (get ev "success" (JBool true))).
      * destruct (get ev "result" (JStr EmptyString)); try discriminate.
        cbn [call_escape_text bind] in Hok. injection Hok as <-.
        eexists. cbn [append lines turn_number in_turn]. rewrite <- app_assoc.
        frame_done.
      * destruct (if truthy (get ev "error" JNull)
                  then get ev "error" JNull else JStr "Error"); try discriminate.
        cbn [call_escape_text bind] in Hok. injection Hok as <-.
        eexists. cbn [append lines turn_number in_turn]. rewrite <- app_assoc.
        frame_done.
    + injection Hok as <-. exists []. rewrite app_nil_r. frame_done.
  - frame_branch H Hok. unfold on_llm_response in Hok.
    destruct (get ev "content" (JStr EmptyString)); try discriminate.
    cbn [call_escape_text bind append in_turn lines turn_number] in Hok.
    destruct (in_turn st) eqn:Hin; injection Hok as <-;
      eexists; cbn [append lines turn_number in_turn as_bit];
      rewrite <- ?app_assoc, ?Hin; frame_done.
  - frame_branch H Hok. unfold on_error in Hok.
    destruct (get ev "message" (JStr "Unknown error")); try discriminate.
    cbn [call_escape_text bind] in Hok. injection Hok as <-.
    eexists. cbn [append lines turn_number in_turn]. frame_done.
  - rewrite (walk_event_unrecognized (JDict ev) st) in Hok
      by (unfold unrecognized; now rewrite H).
    injection Hok as <-.
    unfold recognized in H.
    repeat (apply orb_false_iff in H; destruct H as [H ?]).
    unfold open_after, is_user_input, is_llm_response.
    repeat match goal with E : eq_str _ _ = false |- _ => rewrite E; clear E end.
    rewrite andb_false_r. exists []. rewrite app_nil_r. frame_done.
Qed.

(** The framing of the whole walk. *)
Lemma walk_framing (events : list json) (st st' : walk_state) :
  walk events st = Ok st' ->
  exists new,
    lines st' = List.app (lines st) new
    /\ turn_number st' = turn_number st + List.length (filter is_user_input events)
    /\ in_turn st' = fold_left open_after events (in_turn st)
    /\ count_line rect_line new = List.length (filter is_user_input events)
    /\ count_line end_line new = closings (in_turn st) events.
Proof.
  revert st. induction events as [|event rest IH]; intros st Hok; cbn [walk] in Hok.
  - injection Hok as <-. exists []. rewrite app_nil_r. cbn. repeat split; lia.
  - destruct (walk_event event st) as [mid|e] eqn:Hev; [|discriminate].
    cbn [bind] in Hok.
    destruct (walk_event_framing _ _ _ Hev) as (n1 & Hl1 & Ht1 & Hf1 & Hr1 & He1).
    destruct (IH _ Hok) as (n2 & Hl2 & Ht2 & Hf2 & Hr2 & He2).
    exists (List.app n1 n2).
    rewrite Hl2, Hl1, <- app_assoc, !count_line_app.
    cbn [filter fold_left closings]. rewrite <- Hf1, Hf2, Hr1, Hr2, He1, He2, Ht2, Ht1.
    destruct (is_user_input event); cbn [as_bit List.length];
      repeat split; lia.
Qed.

Lemma walk_insert (before after : list json) (event : json) (st : walk_state) :
  walk (List.app before (event :: after)) st
  = (mid <- walk before st ;; st' <- walk_event event mid ;; walk after st').
Proof. rewrite walk_app. reflexivity. Qed.

End WalkFacts.

(** ** The diagram reconstructor *)

Module DiagramTheorems.
Import PyStr PyVal Diagram DiagramSpec MoreSpec PyStrFacts EscapeFacts WalkFacts.

Lemma get_of_lookup (a b : list (string * json)) (key : string) (default : json) :
  lookup a key = lookup b key -> get a key default = get b key default.
Proof. unfold get. now intros ->. Qed.

Lemma render_times_repeat (n : nat) (trace_data : json) :
  render_times n trace_data = repeat (generate_mermaid_diagram trace_data) n.
Proof. induction n as [|n IH]; cbn; [reflexivity|now rewrite IH]. Qed.

(** C2. The renderer is a function of the session record alone: every one
    of any number of calls on a record returns the same text, and two
    records that agree on the four fields the renderer reads ([session_id],
    [start_time], [model], [events]) are rendered to the same text,
    whatever else they hold. *)
Theorem generate_mermaid_diagram_deterministic :
  forall (a b : list (string * json)) (n : nat),
    (forall key, In key read_fields -> lookup a key = lookup b key) ->
    Forall (fun out => out = generate_mermaid_diagram (JDict a))
           (render_times n (JDict a))
    /\ generate_mermaid_diagram (JDict a) = generate_mermaid_diagram (JDict b).
Proof.
  intros a b n Hagree. split.
  - rewrite render_times_repeat. apply Forall_forall.
    intros out Hin. now apply repeat_spec in Hin.
  - unfold generate_mermaid_diagram, generate_mermaid_lines, header.
    rewrite (get_of_lookup a b "session_id"), (get_of_lookup a b "start_time"),
      (get_of_lookup a b "model"), (get_of_lookup a b "events");
      try reflexivity; apply Hagree; cbn; tauto.
Qed.

Lemma generate_mermaid_diagram_deterministic_witness :
  generate_mermaid_diagram
    (JDict [ ("session_id", JStr "s1"); ("end_time", JNull);
             ("events", JList [ JDict sample_user_input ]) ])
  = generate_mermaid_diagram
      (JDict [ ("events", JList [ JDict sample_user_input ]);
               ("session_id", JStr "s1"); ("end_time", JStr "2025-01-01T10:00:00") ]).
Proof.
  refine (proj2 (generate_mermaid_diagram_deterministic _ _ 2 _)).
  intros key Hin. cbn in Hin.
  repeat (destruct Hin as [<-|Hin]; [reflexivity|]). destruct Hin.
Defined.

(** C4. The walk keeps one open-turn flag. A [user_input] event adds one to
    the turn counter, writes the opening of a framed region labelled with
    the new number and sets the flag, and closes nothing, whatever the flag
    was: after two [user_input] events in a row two regions are opened and
    none is closed. An [llm_response] event writes the closing line exactly
    when the flag is set, and clears it. The walk takes the events in the
    order of the list, each from the state that the events before it left,
    so this is what it does for every event of a log: when it ends, the
    counter has grown by the number of [user_input] events, the flag is the
    one that the events set and cleared in turn, one region was opened for
    each [user_input] event and one closed for each [llm_response] event met
    with the flag set. The renderer starts the walk with the counter at 0
    and the flag cleared, so the first turn is numbered 1, and after the
    last event it closes a region still open before the footer. *)
Theorem turn_framing :
  forall (u u' r : list (string * json)) (cu cu' cr : string) (st : walk_state),
    is_kind u "user_input" -> get u "content" (JStr EmptyString) = JStr cu ->
    is_kind u' "user_input" -> get u' "content" (JStr EmptyString) = JStr cu' ->
    is_kind r "llm_response" -> get r "content" (JStr EmptyString) = JStr cr ->
    walk_event (JDict u) st =
      Ok (mkWalk
            (List.app (lines st)
               [ EmptyString;
                 rect_line;
                 "        Note over User,MemorySystem: Turn "
                   ++ str_of_nat (S (turn_number st)) ++ ": User Input";
                 EmptyString;
                 "        User->>HostApp: " ++ chr DQUOTE ++ escape_text cu 50 ++ chr DQUOTE;
                 "        HostApp->>HostApp: Append to messages" ])
            (S (turn_number st)) true)
    /\ (exists new,
           walk [ JDict u; JDict u' ] st
           = Ok (mkWalk (List.app (lines st) new) (S (S (turn_number st))) true)
           /\ count_line rect_line new = 2
           /\ count_line end_line new = 0)
    /\ walk_event (JDict r) st =
         Ok (mkWalk
               (List.app (lines st)
                  (List.app
                     [ EmptyString;
                       "        Note over LLM: Ready to respond";
                       "        LLM-->>HostApp: " ++ chr DQUOTE ++ escape_text cr 60 ++ chr DQUOTE;
                       "        HostApp->>HostApp: Append to messages";
                       "        HostApp-->>User: " ++ chr DQUOTE ++ escape_text cr 60 ++ chr DQUOTE ]
                     (if in_turn st then [ end_line ] else [])))
               (turn_number st) false)
    /\ (forall st0 : walk_state, walk [] st0 = Ok st0)
    /\ (forall (event : json) (rest : list json) (st0 : walk_state),
           walk (event :: rest) st0
           = (st' <- walk_event event st0 ;; walk rest st'))
    /\ (forall (before after : list json) (event : json) (st0 : walk_state),
           walk (List.app before (event :: after)) st0
           = (mid <- walk before st0 ;;
              st' <- walk_event event mid ;;
              walk after st'))
    /\ (forall (events : list json) (st0 final : walk_state),
           walk events st0 = Ok final ->
           exists new,
             lines final = List.app (lines st0) new
             /\ turn_number final
                = turn_number st0 + List.length (filter is_user_input events)
             /\ in_turn final = fold_left open_after events (in_turn st0)
             /\ count_line rect_line new = List.length (filter is_user_input events)
             /\ count_line end_line new = closings (in_turn st0) events)
    /\ (forall trace_data : list (string * json),
           generate_mermaid_lines (JDict trace_data)
           = (events <- iterate (get trace_data "events" (JList [])) ;;
              final <- walk events (mkWalk (header trace_data) 0 false) ;;
              Ok (List.app (lines final)
                    (List.app (if in_turn final then [ end_line ] else []) footer)))).
Proof.
  intros u u' r cu cu' cr st Hu Hcu Hu' Hcu' Hr Hcr.
  split; [now apply walk_event_user_input|].
  split.
  { eexists. cbn [walk].
    rewrite (walk_event_user_input u cu st Hu Hcu). cbn [bind].
    rewrite (walk_event_user_input u' cu' _ Hu' Hcu'). cbn [bind lines turn_number].
    rewrite <- app_assoc. split; [reflexivity|]. split; reflexivity. }
  split; [now apply walk_event_llm_response|].
  split; [reflexivity|].
  split; [reflexivity|].
  split; [intros; apply walk_insert|].
  split; [intros events st0 final Hwalk; now apply walk_framing|].
  intros trace_data. unfold generate_mermaid_lines.
  destruct (iterate (get trace_data "events" (JList []))) as [events|e];
    cbn [bind]; [|reflexivity].
  destruct (walk events (mkWalk (header trace_data) 0 false)) as [final|e];
    cbn [bind]; [|reflexivity].
  unfold close_walk.
  destruct (in_turn final); [|reflexivity].
  now rewrite <- app_assoc.
Qed.

Lemma turn_framing_witness :
  walk_event (JDict sample_user_input) start_state
  = Ok (mkWalk
          [ EmptyString; rect_line;
            "        Note over User,MemorySystem: Turn 1: User Input";
            EmptyString;
            "        User->>HostApp: " ++ chr DQUOTE ++ "hi" ++ chr DQUOTE;
            "        HostApp->>HostApp: Append to messages" ]
          1 true)
  /\ walk_event (JDict sample_llm_response) (mkWalk [] 1 true)
     = Ok (mkWalk
             [ EmptyString;
               "        Note over LLM: Ready to respond";
               "        LLM-->>HostApp: " ++ chr DQUOTE ++ "hello" ++ chr DQUOTE;
               "        HostApp->>HostApp: Append to messages";
               "        HostApp-->>User: " ++ chr DQUOTE ++ "hello" ++ chr DQUOTE;
               end_line ]
             1 false).
Proof.
  pose proof (fun st =>
                turn_framing sample_user_input sample_user_input sample_llm_response
                             "hi" "hi" "hello" st
                             eq_refl eq_refl eq_refl eq_refl eq_refl eq_refl) as T.
  split.
  - exact (proj1 (T start_state)).
  - exact (proj1 (proj2 (proj2 (T (mkWalk [] 1 true))))).
Defined.




Lemma length_format_pair (kv : string * json) :
  String.length (format_pair kv) <= String.length (fst kv) + 31.
Proof.
  unfold format_pair. rewrite !length_app, length_str_take.
  change (String.length "=") with 1. lia.
Qed.

Lemma length_format_params (params : list (string * json)) :
  String.length (format_params params) <= 53.
Proof.
  unfold format_params.
  destruct (Nat.ltb_spec 50 (String.length (join ", " (map format_pair params)))).
  - rewrite length_app, length_str_take.
    change (String.length "...") with 3. lia.
  - lia.
Qed.

(** C6. A [tool_call] event of the memory tool is written as a call
    annotation with the command and the parameters as [key=value] pairs in
    the order of the record, each value cut to 30 characters of its [repr],
    joined with a comma and a space and cut again to 50 characters (then
    followed by the ellipsis); the [tool_result] event of the memory tool
    that follows is written as a return annotation with the escaped result
    cut to 40 characters when it succeeded, and with the escaped error
    behind the prefix ERROR when it failed. A [tool_call] or [tool_result]
    event whose [tool_name] is not that of the memory tool writes nothing
    and leaves the walk as it was. *)
Theorem memory_tool_annotations :
  forall (call res params : list (string * json)) (shown : string) (st : walk_state),
    is_kind call "tool_call" ->
    get call "tool_name" (JStr EmptyString) = JStr "memory" ->
    get call "parameters" (JDict []) = JDict params ->
    is_kind res "tool_result" ->
    get res "tool_name" (JStr EmptyString) = JStr "memory" ->
    (if truthy (get res "success" (JBool true))
     then get res "result" (JStr EmptyString)
     else if truthy (get res "error" JNull)
          then get res "error" JNull
          else JStr "Error") = JStr shown ->
    walk [ JDict call; JDict res ] st =
      Ok (append st
            [ EmptyString;
              "        Note over LLM: Decides to "
                ++ py_str (get call "command" (JStr EmptyString));
              "        LLM->>MemorySystem: "
                ++ py_str (get call "command" (JStr EmptyString))
                ++ "(" ++ format_params params ++ ")";
              "        activate MemorySystem";
              (if truthy (get res "success" (JBool true))
               then "        MemorySystem-->>LLM: "
               else "        MemorySystem-->>LLM: ERROR: ") ++ escape_text shown 40;
              "        deactivate MemorySystem" ])
    /\ format_params params =
         (let params_str :=
            join ", " (map (fun kv => fst kv ++ "=" ++ str_take 30 (py_repr (snd kv)))
                           params) in
          if (50 <? String.length params_str)%nat
          then str_take 50 params_str ++ "..."
          else params_str)
    /\ String.length (format_params params) <= 53
    /\ String.length (escape_text shown 40) <= 43
    /\ (forall (other : list (string * json)) (st0 : walk_state),
           is_kind other "tool_call" \/ is_kind other "tool_result" ->
           eq_str (get other "tool_name" (JStr EmptyString)) "memory" = false ->
           walk_event (JDict other) st0 = Ok st0).
Proof.
  intros call res params shown st Hc Hcn Hcp Hr Hrn Hshown.
  split; [|split; [reflexivity|split; [apply length_format_params|
                     split; [apply (escape_text_length shown 40)|
                             intros other st0; apply walk_event_other_tool]]]].
  cbn [walk].
  rewrite (walk_event_tool_call call params st Hc Hcn Hcp). cbn [bind].
  rewrite (walk_event_tool_result res shown _ Hr Hrn Hshown). cbn [bind].
  unfold append. cbn [lines turn_number in_turn].
  rewrite <- app_assoc. reflexivity.
Qed.

Lemma memory_tool_annotations_witness :
  walk [ JDict sample_tool_call; JDict sample_tool_result ] start_state
  = Ok (mkWalk
          [ EmptyString;
            "        Note over LLM: Decides to view";
            "        LLM->>MemorySystem: view(path='/memories')";
            "        activate MemorySystem";
            "        MemorySystem-->>LLM: <file list>";
            "        deactivate MemorySystem" ]
          0 false).
Proof.
  exact (proj1 (memory_tool_annotations
                  sample_tool_call sample_tool_result
                  [ ("path", JStr "/memories") ] "<file list>" start_state
                  eq_refl eq_refl eq_refl eq_refl eq_refl eq_refl)).
Defined.

(** C6, as stated, fails on a [tool_call] event of another tool: nothing is
    written for it. *)
Lemma other_tool_call_not_rendered :
  is_kind sample_other_tool_call "tool_call"
  /\ walk_event (JDict sample_other_tool_call) start_state = Ok start_state.
Proof. split; reflexivity. Qed.

(** C7. Text that [json.load] rejects as invalid JSON, or a missing file,
    makes [main] print a message that names the failure (for a missing file
    with the path as [Path] shows it) and return 1, with nothing written; a
    file that cannot be opened or decoded, and a record that is valid JSON
    but not an object, make [main] raise. A JSON object is always rendered
    when its events can be walked: without [events] the body is empty, and
    without [session_id], [start_time] or [model] the header shows the
    placeholder; [main] then returns 0 when the diagram can be saved. *)
Theorem replay_input_handling :
  forall (trace_file : string) (output : option string) (d : disk),
    (forall err,
        main trace_file output (InvalidJSON err) d
        = mkRun (Ok 1%Z) [ "Error: Invalid JSON in trace file: " ++ err ] None)
    /\ main trace_file output NotFound d
       = mkRun (Ok 1%Z)
               [ "Error: Trace file not found: " ++ path_str trace_file ] None
    /\ (forall e, main trace_file output (Unreadable e) d = mkRun (Raise e) [] None)
    /\ (forall v,
           is_object v = false ->
           generate_mermaid_diagram v = Raise AttributeError
           /\ main trace_file output (Loaded v) d
              = mkRun (Raise AttributeError) [] None)
    /\ (forall trace_data,
           lookup trace_data "events" = None ->
           generate_mermaid_diagram (JDict trace_data)
           = Ok (join (chr LF) (List.app (header trace_data) footer))
           /\ returned (main trace_file output (Loaded (JDict trace_data)) Writes)
              = Ok 0%Z)
    /\ (forall trace_data,
           lookup trace_data "session_id" = None ->
           nth 1 (header trace_data) EmptyString = "Session ID: unknown")
    /\ (forall trace_data,
           lookup trace_data "start_time" = None ->
           nth 2 (header trace_data) EmptyString = "Start Time: unknown")
    /\ (forall trace_data,
           lookup trace_data "model" = None ->
           nth 3 (header trace_data) EmptyString = "Model: unknown").
Proof.
  intros trace_file output d.
  split; [reflexivity|]. split; [reflexivity|]. split; [reflexivity|].
  split; [|split; [|split; [|split]]].
  - intros v Hv. destruct v; try discriminate; split; reflexivity.
  - intros trace_data Hev.
    assert (Hgen : generate_mermaid_diagram (JDict trace_data)
                   = Ok (join (chr LF) (List.app (header trace_data) footer))).
    { unfold generate_mermaid_diagram, generate_mermaid_lines, get.
      rewrite Hev. reflexivity. }
    split; [exact Hgen|]. unfold main. rewrite Hgen. reflexivity.
  - intros trace_data Hid. unfold header, get. rewrite Hid. reflexivity.
  - intros trace_data Hid. unfold header, get. rewrite Hid. reflexivity.
  - intros trace_data Hid. unfold header, get. rewrite Hid. reflexivity.
Qed.

Lemma replay_input_handling_witness :
  main "trace.json" None (InvalidJSON "Expecting value: line 1 column 1 (char 0)")
       Writes
  = mkRun (Ok 1%Z)
          [ "Error: Invalid JSON in trace file: Expecting value: line 1 column 1 (char 0)" ]
          None
  /\ main "./missing.json" None NotFound Writes
     = mkRun (Ok 1%Z) [ "Error: Trace file not found: missing.json" ] None
  /\ generate_mermaid_diagram (JList []) = Raise AttributeError.
Proof.
  split; [|split].
  - exact (proj1 (replay_input_handling "trace.json" None Writes) _).
  - exact (proj1 (proj2 (replay_input_handling "./missing.json" None Writes))).
  - exact (proj1 (proj1 (proj2 (proj2 (proj2
                   (replay_input_handling "trace.json" None Writes))))
                        (JList []) eq_refl)).
Defined.

(** C7, as stated, fails on the empty JSON object, which has neither
    [session_id] nor [events]: it is rendered, with the placeholder, and
    [main] returns 0. *)
Lemma record_without_fields_is_rendered :
  lookup [] "session_id" = None
  /\ lookup [] "events" = None
  /\ generate_mermaid_diagram (JDict [])
     = Ok (join (chr LF)
             [ "---"; "Session ID: unknown"; "Start Time: unknown"; "Model: unknown";
               "---"; EmptyString; "```mermaid"; "sequenceDiagram";
               "    participant User";
               "    participant HostApp as Host App<br/>(chat.py)";
               "    participant LLM as Claude LLM";
               "    participant MemorySystem as Memory System<br/>(memory_tool)";
               EmptyString; "    Note over HostApp: Session Started";
               EmptyString; "    Note over HostApp: Session Ended"; "```" ])
  /\ returned (main "trace.json" None (Loaded (JDict [])) Writes) = Ok 0%Z
  /\ printed (main "trace.json" None (Loaded (JDict [])) Writes)
     = [ "Sequence diagram saved to: diagrams/sequence_unknown.md" ].
Proof. repeat split. Qed.

Lemma lookup_strip_other (trace_data : list (string * json)) (key : string) :
  String.eqb key "events" = false ->
  lookup (strip_unrecognized trace_data) key = lookup trace_data key.
Proof.
  intros Hkey. induction trace_data as [|[k x] rest IH]; [reflexivity|].
  cbn [strip_unrecognized lookup].
  destruct (String.eqb_spec k key) as [->|Hne].
  - now rewrite Hkey.
  - apply IH.
Qed.

Lemma lookup_strip_events (trace_data : list (string * json)) :
  lookup (strip_unrecognized trace_data) "events"
  = match lookup trace_data "events" with
    | Some (JList events) => Some (JList (without_unrecognized events))
    | other => other
    end.
Proof.
  induction trace_data as [|[k x] rest IH]; [reflexivity|].
  cbn [strip_unrecognized lookup].
  destruct (String.eqb k "events"); [|apply IH].
  destruct x; reflexivity.
Qed.

Lemma iterate_strip_events (A : Type) (trace_data : list (string * json))
      (k : list json -> result A) :
  (forall events, k (without_unrecognized events) = k events) ->
  bind (iterate (get (strip_unrecognized trace_data) "events" (JList []))) k
  = bind (iterate (get trace_data "events" (JList []))) k.
Proof.
  intros Hk. unfold get. rewrite lookup_strip_events.
  destruct (lookup trace_data "events") as [[| | | |evs|]|]; try reflexivity.
  cbn [iterate bind]. apply Hk.
Qed.

(** C10. An event record whose [event_type] is none of the six kinds of the
    walk, a [token_usage] event among them, writes no line and leaves the
    turn counter and the open-turn flag as they are; the diagram of a record
    is the diagram of the same record with those events taken out. *)
Theorem unrecognized_events_ignored :
  forall (trace_data : list (string * json)) (events : list json) (st : walk_state),
    (forall event, unrecognized event = true -> walk_event event st = Ok st)
    /\ (forall fields, unrecognized (event_of "token_usage" fields) = true)
    /\ walk (without_unrecognized events) st = walk events st
    /\ generate_mermaid_diagram (JDict (strip_unrecognized trace_data))
       = generate_mermaid_diagram (JDict trace_data).
Proof.
  intros trace_data events st.
  split; [intros event; apply walk_event_unrecognized|].
  split; [reflexivity|].
  split; [apply walk_without_unrecognized|].
  unfold generate_mermaid_diagram, generate_mermaid_lines, header.
  rewrite (get_of_lookup (strip_unrecognized trace_data) trace_data "session_id"),
    (get_of_lookup (strip_unrecognized trace_data) trace_data "start_time"),
    (get_of_lookup (strip_unrecognized trace_data) trace_data "model")
    by (apply lookup_strip_other; reflexivity).
  cbn [bind]. f_equal.
  apply iterate_strip_events.
  intros evs. now rewrite walk_without_unrecognized.
Qed.

Lemma unrecognized_events_ignored_witness :
  walk [ JDict sample_user_input;
         event_of "token_usage" [ ("input_tokens", JInt 10) ];
         event_of "heartbeat" [];
         JDict sample_llm_response ] start_state
  = walk [ JDict sample_user_input; JDict sample_llm_response ] start_state.
Proof.
  symmetry.
  exact (proj1 (proj2 (proj2 (unrecognized_events_ignored
                                []
                                [ JDict sample_user_input;
                                  event_of "token_usage" [ ("input_tokens", JInt 10) ];
                                  event_of "heartbeat" [];
                                  JDict sample_llm_response ]
                                start_state)))).
Defined.

End DiagramTheorems.


(** ** The event log and its counters *)

Module TraceFacts.
Import Conversation Trace ConversationSpec.

Lemma usage_eq (a b : usage) :
  input_tokens a = input_tokens b ->
  output_tokens a = output_tokens b ->
  cache_read_tokens a = cache_read_tokens b ->
  cache_write_tokens a = cache_write_tokens b ->
  a = b.
Proof. destruct a, b; cbn; intros; subst; reflexivity. Qed.

Ltac usage_arith :=
  repeat match goal with u : usage |- _ => destruct u end;
  unfold usage_le, usage_add, usage_zero in *; cbn in *;
  try (apply usage_eq; cbn); lia.

Lemma usage_add_zero_l (a : usage) : usage_add usage_zero a = a.
Proof. usage_arith. Qed.

Lemma usage_add_zero_r (a : usage) : usage_add a usage_zero = a.
Proof. usage_arith. Qed.

Lemma usage_add_assoc (a b c : usage) :
  usage_add a (usage_add b c) = usage_add (usage_add a b) c.
Proof. usage_arith. Qed.

Lemma deltas_sum_app (a b : list event) :
  deltas_sum (List.app a b) = usage_add (deltas_sum a) (deltas_sum b).
Proof.
  induction a as [|e a IH]; cbn [List.app deltas_sum].
  - now rewrite usage_add_zero_l.
  - destruct (body e); rewrite IH; try reflexivity.
    apply usage_add_assoc.
Qed.

Lemma last_cumulative_app (a b : list event) (acc : usage) :
  last_cumulative (List.app a b) acc = last_cumulative b (last_cumulative a acc).
Proof.
  revert acc. induction a as [|e a IH]; intros acc; cbn [List.app last_cumulative].
  - reflexivity.
  - destruct (body e); apply IH.
Qed.

(** The sum over a longer prefix is at least the sum over a shorter one. *)
Lemma deltas_sum_prefix_le (a b : list event) :
  deltas_nonneg (List.app a b) ->
  usage_le (deltas_sum a) (deltas_sum (List.app a b)).
Proof.
  intros Hnn. rewrite deltas_sum_app.
  assert (Hb : usage_le usage_zero (deltas_sum b)).
  { assert (Hnb : deltas_nonneg b).
    { intros e d c Hin. apply (Hnn e d c). apply in_or_app. now right. }
    clear Hnn. induction b as [|e b IH]; cbn [deltas_sum].
    - unfold usage_le; cbn; lia.
    - assert (Hrest : usage_le usage_zero (deltas_sum b)).
      { apply IH. intros e' d c Hin. apply (Hnb e' d c). now right. }
      destruct (body e) eqn:E; try exact Hrest.
      pose proof (Hnb e delta cumulative (or_introl eq_refl) E) as Hd.
      generalize dependent (deltas_sum b). intros s _ Hs. usage_arith. }
  generalize dependent (deltas_sum b). generalize (deltas_sum a).
  intros s s' Hs. usage_arith.
Qed.

Lemma deltas_sum_body (evs : list event) :
  deltas_sum evs = payload_sum (map body evs).
Proof.
  induction evs as [|e evs IH]; [reflexivity|].
  cbn [deltas_sum map payload_sum]. rewrite IH. destruct (body e); reflexivity.
Qed.

Lemma payload_sum_app (a b : list payload) :
  payload_sum (List.app a b) = usage_add (payload_sum a) (payload_sum b).
Proof.
  induction a as [|p a IH]; cbn [List.app payload_sum].
  - now rewrite usage_add_zero_l.
  - destruct p; rewrite IH; try reflexivity. apply usage_add_assoc.
Qed.

Lemma payload_sum_no_token_usage (ps : list payload) :
  Forall (fun p => is_token_usage p = false) ps -> payload_sum ps = usage_zero.
Proof.
  induction 1 as [|p ps Hp _ IH]; [reflexivity|].
  destruct p; cbn [payload_sum]; try exact IH. discriminate.
Qed.

(** What one more event does to a log that is in order. *)
Lemma log_ok_snoc (evs : list event) (counters counters' : usage) (e : event) :
  log_ok evs counters ->
  match body e with
  | token_usage delta cumulative =>
      cumulative = usage_add counters delta /\ counters' = cumulative
  | _ => counters' = counters
  end ->
  log_ok (List.app evs [ e ]) counters'.
Proof.
  intros (Hsum & Hlast & Hcons & Hchain) He.
  assert (Hnew_sum : counters' = deltas_sum (List.app evs [ e ])).
  { rewrite deltas_sum_app. cbn [deltas_sum].
    destruct (body e); try (subst; now rewrite usage_add_zero_r).
    destruct He as [-> ->]. now rewrite usage_add_zero_r, <- Hsum. }
  assert (Hnew_last : last_cumulative (List.app evs [ e ]) usage_zero = counters').
  { rewrite last_cumulative_app, Hlast. cbn [last_cumulative].
    destruct (body e); first [ now subst | now destruct He as [_ ->] ]. }
  split; [exact Hnew_sum|]. split; [exact Hnew_last|]. split.
  - intros i idx delta cumulative Hnth.
    destruct (Nat.lt_ge_cases i (List.length evs)) as [Hlt|Hge].
    + rewrite nth_error_app1 in Hnth by exact Hlt.
      rewrite firstn_app.
      replace (S i - List.length evs) with 0 by lia.
      cbn [firstn]. rewrite app_nil_r. exact (Hcons i idx delta cumulative Hnth).
    + rewrite nth_error_app2 in Hnth by exact Hge.
      destruct (i - List.length evs) as [|k] eqn:Ek.
      * cbn in Hnth. injection Hnth as ->.
        rewrite firstn_all2 by (rewrite length_app; cbn; lia).
        cbn [body] in He. destruct He as [_ <-]. exact Hnew_sum.
      * cbn in Hnth. destruct k; discriminate.
  - intros i idx delta cumulative Hnth.
    destruct (Nat.lt_ge_cases i (List.length evs)) as [Hlt|Hge].
    + rewrite nth_error_app1 in Hnth by exact Hlt.
      rewrite firstn_app.
      replace (i - List.length evs) with 0 by lia.
      cbn [firstn]. rewrite app_nil_r. exact (Hchain i idx delta cumulative Hnth).
    + rewrite nth_error_app2 in Hnth by exact Hge.
      destruct (i - List.length evs) as [|k] eqn:Ek.
      * cbn in Hnth. injection Hnth as ->.
        assert (i = List.length evs) as -> by lia.
        rewrite firstn_app, firstn_all, Nat.sub_diag. cbn [firstn].
        rewrite app_nil_r, Hlast.
        cbn [body] in He. now destruct He as [-> _].
      * cbn in Hnth. destruct k; discriminate.
Qed.

Lemma log_ok_nil : log_ok [] usage_zero.
Proof.
  repeat split; intros [|i] idx delta cumulative H; discriminate.
Qed.

(** Consistent checkpoints over deltas that are not negative do not
    decrease. *)
Lemma consistent_monotone (evs : list event) :
  counters_consistent evs -> deltas_nonneg evs -> counters_monotone evs.
Proof.
  intros Hcons Hnn i j idx idx' d d' c c' Hij Hi Hj.
  rewrite (Hcons i idx d c Hi), (Hcons j idx' d' c' Hj).
  assert (Hshort : firstn (S i) evs = firstn (S i) (firstn (S j) evs)).
  { rewrite firstn_firstn. f_equal. lia. }
  rewrite Hshort.
  rewrite <- (firstn_skipn (S i) (firstn (S j) evs)) at 2.
  apply deltas_sum_prefix_le.
  rewrite firstn_skipn.
  intros e delta cumulative Hin. apply (Hnn e delta cumulative).
  rewrite <- (firstn_skipn (S j) evs). apply in_or_app. now left.
Qed.

End TraceFacts.

(** ** The turn and the reset *)

Module ConversationFacts.
Import Conversation Trace ConversationSpec PyStrFacts TraceFacts.

(** The loop over the stream, in closed form. *)
Lemma consume_closed_form (ss : list run_step) (st : stream_state) :
  consume ss st =
    mkStream (response_text st ++ streamed_text ss)
             (List.app (yielded st) (yielded_from ss))
             (log_all (logged_by ss) (manager st)).
Proof.
  unfold consume, log_all. revert st.
  induction ss as [|s ss IH]; intros [rt ys m]; cbn [fold_left].
  - cbn. now rewrite str_app_nil_r, app_nil_r.
  - rewrite IH. destruct s as [[[chunk|]|[block|]|]| |];
      cbn [on_step response_text yielded manager streamed_text yielded_from
             logged_by fold_left]; try reflexivity.
    + now rewrite str_app_assoc, <- app_assoc.
    + destruct (block_type block) as [ty|]; [|reflexivity].
      destruct (String.eqb ty "tool_use"); [|reflexivity].
      cbn [response_text yielded manager]. now rewrite <- app_assoc.
Qed.

Lemma yielded_from_progress (ss : list run_step) :
  forallb is_progress (yielded_from ss) = true.
Proof.
  induction ss as [|s ss IH]; [reflexivity|].
  destruct s as [[[chunk|]|[block|]|]| |]; cbn [yielded_from]; try exact IH.
  destruct (block_type block) as [ty|]; [|exact IH].
  destruct (String.eqb ty "tool_use"); exact IH.
Qed.

Lemma logged_by_tool_events (ss : list run_step) :
  Forall (fun p => is_token_usage p = false) (logged_by ss).
Proof.
  induction ss as [|s ss IH]; [constructor|].
  destruct s as [e| |]; cbn [logged_by]; [exact IH| |]; constructor;
    try reflexivity; exact IH.
Qed.

(** Logging leaves the history and the counters alone and adds to the log. *)
Lemma log_all_frame (ps : list payload) (m : ConversationManager) :
  messages (log_all ps m) = messages m
  /\ totals (log_all ps m) = totals m
  /\ Conversation.model (log_all ps m) = Conversation.model m
  /\ Conversation.system_prompt (log_all ps m) = Conversation.system_prompt m
  /\ map body (events (trace (log_all ps m)))
     = List.app (map body (events (trace m))) ps.
Proof.
  unfold log_all. revert m.
  induction ps as [|p ps IH]; intros m; cbn [fold_left].
  - now rewrite app_nil_r.
  - destruct (IH (log p m)) as (Hm & Ht & Hmo & Hsp & Hev).
    rewrite Hm, Ht, Hmo, Hsp, Hev. cbn [log messages totals Conversation.model
                                            Conversation.system_prompt trace].
    repeat split; try reflexivity.
    cbn [Trace.append events]. rewrite map_app, <- app_assoc. reflexivity.
Qed.

(** The invariant of the manager: its log and its counters are in order. *)
Lemma log_keeps_order (p : payload) (m : ConversationManager) :
  is_token_usage p = false ->
  log_ok (events (trace m)) (totals m) ->
  log_ok (events (trace (log p m))) (totals (log p m)).
Proof.
  intros Hp Hok. cbn [log trace totals Trace.append events].
  apply (log_ok_snoc _ (totals m)); [exact Hok|].
  cbn [body]. destruct p; try reflexivity. discriminate.
Qed.

Lemma log_all_keeps_order (ps : list payload) (m : ConversationManager) :
  Forall (fun p => is_token_usage p = false) ps ->
  log_ok (events (trace m)) (totals m) ->
  log_ok (events (trace (log_all ps m))) (totals (log_all ps m)).
Proof.
  unfold log_all. intros Hps. revert m.
  induction Hps as [|p ps Hp _ IH]; intros m Hok; cbn [fold_left]; [exact Hok|].
  apply IH. now apply log_keeps_order.
Qed.

(** The four additions run when no cache count is [None]. *)
Lemma track_usage_reported (u : api_usage) (counters : usage) :
  counts_reported u = true ->
  track_usage u counters = (usage_add counters (last_usage u), Some (last_usage u)).
Proof.
  unfold counts_reported, track_usage, last_usage. cbv zeta.
  destruct (getattr (cache_read_input_tokens u)); [|discriminate].
  destruct (getattr (cache_creation_input_tokens u)); [|discriminate].
  reflexivity.
Qed.

Lemma track_usage_none (u : api_usage) (counters : usage) :
  counts_reported u = false ->
  snd (track_usage u counters) = None.
Proof.
  unfold counts_reported, track_usage. cbv zeta.
  destruct (getattr (cache_read_input_tokens u)); [|reflexivity].
  destruct (getattr (cache_creation_input_tokens u)); [discriminate|reflexivity].
Qed.

(** A turn keeps the log and the counters in order, when its external call
    raises or reports its usage. *)
Lemma turn_keeps_order (user_message : string) (run : llm_run)
      (m : ConversationManager) :
  usage_reported run = true ->
  log_ok (events (trace m)) (totals m) ->
  log_ok (events (trace (after_turn user_message run m)))
         (totals (after_turn user_message run m)).
Proof.
  intros Hrep Hok. unfold usage_reported in Hrep.
  unfold after_turn, send_message_streaming.
  rewrite consume_closed_form. cbn [manager response_text yielded].
  set (m2 := log (Trace.llm_request _ _) _).
  assert (H2 : log_ok (events (trace m2)) (totals m2)).
  { subst m2. apply log_keeps_order; [reflexivity|].
    apply log_keeps_order; [reflexivity|]. exact Hok. }
  pose proof (log_all_keeps_order (logged_by (steps run)) m2
                                  (logged_by_tool_events _) H2) as H3.
  destruct (ending run) as [error_type message|error_type message|r]; cbn [fst snd].
  - apply log_keeps_order; [reflexivity|exact H3].
  - exact H3.
  - set (m3 := log_all _ m2) in *.
    set (shown := match first_text _ with Some t => t | None => _ end).
    cbn [log push_message totals].
    rewrite (track_usage_reported _ _ Hrep). cbn [fst snd].
    cbn [log push_message set_totals trace totals Trace.append events
             messages Conversation.model Conversation.system_prompt].
    apply (log_ok_snoc _ (totals m3)).
    + apply (log_ok_snoc _ (totals m3)); [exact H3|reflexivity].
    + cbn [body]. split; reflexivity.
Qed.

End ConversationFacts.

(** ** The orchestrator *)

Module ConversationTheorems.
Import Conversation Trace ConversationSpec PyStrFacts TraceFacts ConversationFacts.

Lemma reachable_in_order (m : ConversationManager) :
  reachable m -> log_ok (events (trace m)) (totals m).
Proof.
  induction 1 as [session_id now model system_prompt
                 | m user_message run _ IH Hrep
                 | m env m' answer written _ _ Hreset].
  - apply log_ok_nil.
  - now apply turn_keeps_order.
  - unfold clear_memories in Hreset.
    destruct (clear_all_memory env); [|discriminate].
    cbn [trace Conversation.model Conversation.system_prompt messages totals]
      in Hreset.
    destruct (Trace.finalize (now env) (store env) (trace m)) as [old [handle|e]];
      [|discriminate].
    injection Hreset as <- _ _. apply log_ok_nil.
Qed.

(** C1. In the log of a manager reached from the constructor by turns whose
    external call raises, or completes with a usage whose cache counts are
    integers or missing, and by resets that return, the checkpoint of every
    [token_usage] event is the sum of the [token_usage] deltas up to and
    including it, and is the checkpoint before it plus the delta of its
    turn; the manager's counters are the sum over the whole log; and when
    the reported token counts are not negative, the four counters do not
    decrease along the log. *)
Theorem counters_consistent_reachable :
  forall m : ConversationManager,
    reachable m ->
    counters_consistent (events (trace m))
    /\ checkpoints_chained (events (trace m))
    /\ totals m = deltas_sum (events (trace m))
    /\ (deltas_nonneg (events (trace m)) -> counters_monotone (events (trace m))).
Proof.
  intros m Hm. destruct (reachable_in_order m Hm) as (Hsum & _ & Hcons & Hchain).
  split; [exact Hcons|]. split; [exact Hchain|]. split; [exact Hsum|].
  now apply consistent_monotone.
Qed.

Lemma counters_consistent_reachable_witness :
  counters_consistent
    (events (trace (after_turn "and now?" (sample_run 3 2)
                      (after_turn "hi" (sample_run 10 5) sample_manager))))
  /\ totals (after_turn "and now?" (sample_run 3 2)
               (after_turn "hi" (sample_run 10 5) sample_manager))
     = deltas_sum
         (events (trace (after_turn "and now?" (sample_run 3 2)
                           (after_turn "hi" (sample_run 10 5) sample_manager)))).
Proof.
  pose proof (counters_consistent_reachable
                _ (reach_turn _ "and now?" (sample_run 3 2)
                     (reach_turn _ "hi" (sample_run 10 5)
                        (reach_init "20250101_100000" "2025-01-01T10:00:00"
                                    "claude-sonnet-4-5" "You remember.")
                        eq_refl)
                     eq_refl))
    as (Hcons & _ & Hsum & _).
  split; [exact Hcons|exact Hsum].
Defined.

(** C1, as stated for every session log, fails after a reset that the
    storage interrupts: the counters are cleared, the session stays, and the
    checkpoint of the next turn is below the sum of the deltas and below the
    checkpoint before it. *)
Lemma interrupted_reset_breaks_counters :
  snd (fst (clear_memories sample_interrupted_env
                           (after_turn "hi" (sample_run 10 5) sample_manager)))
  = Raise (OSError "No space left on device")
  /\ map body (events (trace sample_interrupted_session))
  = [ user_input "hi"; llm_request 1 [ "memory" ]; llm_response "Hello";
      token_usage (mkUsage 10 5 0 0) (mkUsage 10 5 0 0);
      user_input "and now?"; llm_request 1 [ "memory" ]; llm_response "Hello";
      token_usage (mkUsage 3 2 0 0) (mkUsage 3 2 0 0) ]
  /\ nth_error (events (trace sample_interrupted_session)) 7
     = Some (mkEvent 7 (token_usage (mkUsage 3 2 0 0) (mkUsage 3 2 0 0)))
  /\ deltas_sum (firstn 8 (events (trace sample_interrupted_session)))
     = mkUsage 13 7 0 0
  /\ ~ counters_consistent (events (trace sample_interrupted_session))
  /\ ~ counters_monotone (events (trace sample_interrupted_session)).
Proof.
  split; [reflexivity|].
  split; [reflexivity|]. split; [reflexivity|]. split; [reflexivity|]. split.
  - intros H.
    specialize (H 7 7 (mkUsage 3 2 0 0) (mkUsage 3 2 0 0) eq_refl).
    discriminate H.
  - intros H.
    specialize (H 3 7 3 7 (mkUsage 10 5 0 0) (mkUsage 3 2 0 0)
                  (mkUsage 10 5 0 0) (mkUsage 3 2 0 0)).
    assert (Hle : 3 <= 7) by lia.
    specialize (H Hle eq_refl eq_refl).
    destruct H as [H _]. cbn in H. lia.
Qed.

(** The same claim fails after a turn whose call completes with a cache
    count that is [None]: the addition raises when two counters are already
    increased and before the [token_usage] event is logged, so the
    checkpoint of the next turn is above the sum of the deltas. *)
Lemma none_count_breaks_counters :
  usage_reported (sample_none_run 10 5) = false
  /\ map body (events (trace sample_none_session))
     = [ user_input "hi"; llm_request 1 [ "memory" ]; llm_response "Hello";
         Trace.error "TypeError" NONE_ADDED;
         user_input "and now?"; llm_request 3 [ "memory" ]; llm_response "Hello";
         token_usage (mkUsage 3 2 0 0) (mkUsage 13 7 0 0) ]
  /\ deltas_sum (firstn 8 (events (trace sample_none_session))) = mkUsage 3 2 0 0
  /\ ~ counters_consistent (events (trace sample_none_session)).
Proof.
  split; [reflexivity|]. split; [reflexivity|]. split; [reflexivity|].
  intros H.
  specialize (H 7 7 (mkUsage 3 2 0 0) (mkUsage 13 7 0 0) eq_refl).
  discriminate H.
Qed.

(** C3. When the external call raises an exception that is an [Exception],
    the turn appends to the log the [user_input] and [llm_request] events,
    what the memory tool logged, and last an [error] event with the type
    name and the message of the exception; it yields the progress events of
    the stream and last an [error] event with the message, and no [done];
    nothing leaves the generator. When the exception is not an [Exception],
    it leaves the generator: the log and the events yielded stop where the
    stream stopped, with no [error] event in either. In both cases the
    counters and the sum of the logged deltas are what they were. *)
Theorem failed_turn_logged :
  forall (user_message : string) (ss : list run_step)
         (error_type message : string) (m : ConversationManager),
    map body (events (trace (after_turn user_message
                               (mkLlmRun ss (Raised error_type message)) m)))
    = List.app (map body (events (trace m)))
        (user_input user_message
           :: llm_request (S (List.length (messages m))) [ "memory" ]
           :: List.app (logged_by ss) [ Trace.error error_type message ])
    /\ yielded_by_turn user_message (mkLlmRun ss (Raised error_type message)) m
       = List.app (yielded_from ss) [ Conversation.error message ]
    /\ forallb is_progress (yielded_from ss) = true
    /\ totals (after_turn user_message (mkLlmRun ss (Raised error_type message)) m)
       = totals m
    /\ deltas_sum (events (trace (after_turn user_message
                                    (mkLlmRun ss (Raised error_type message)) m)))
       = deltas_sum (events (trace m))
    /\ escaping_turn user_message (mkLlmRun ss (Raised error_type message)) m = None
    /\ map body (events (trace (after_turn user_message
                                  (mkLlmRun ss (Uncaught error_type message)) m)))
       = List.app (map body (events (trace m)))
           (user_input user_message
              :: llm_request (S (List.length (messages m))) [ "memory" ]
              :: logged_by ss)
    /\ yielded_by_turn user_message (mkLlmRun ss (Uncaught error_type message)) m
       = yielded_from ss
    /\ escaping_turn user_message (mkLlmRun ss (Uncaught error_type message)) m
       = Some (error_type, message)
    /\ totals (after_turn user_message (mkLlmRun ss (Uncaught error_type message)) m)
       = totals m
    /\ deltas_sum (events (trace (after_turn user_message
                                    (mkLlmRun ss (Uncaught error_type message)) m)))
       = deltas_sum (events (trace m)).
Proof.
  intros user_message ss error_type message m.
  unfold after_turn, yielded_by_turn, escaping_turn, send_message_streaming.
  cbn [steps ending]. rewrite consume_closed_form.
  cbn [fst snd manager yielded].
  set (m2 := log (Trace.llm_request _ _) _).
  destruct (log_all_frame (logged_by ss) m2) as (Hm & Ht & _ & _ & Hev).
  assert (Hstream : map body (events (trace (log_all (logged_by ss) m2)))
                    = List.app (map body (events (trace m)))
                        (user_input user_message
                           :: llm_request (S (List.length (messages m))) [ "memory" ]
                           :: logged_by ss)).
  { rewrite Hev. subst m2.
    cbn [log push_message trace Trace.append events messages map body].
    rewrite !map_app. cbn [map body]. rewrite List.length_app.
    cbn [List.length]. rewrite Nat.add_1_r, <- !app_assoc. reflexivity. }
  assert (Hbody : map body (events (trace (log (Trace.error error_type message)
                                               (log_all (logged_by ss) m2))))
                  = List.app (map body (events (trace m)))
                      (user_input user_message
                         :: llm_request (S (List.length (messages m))) [ "memory" ]
                         :: List.app (logged_by ss)
                              [ Trace.error error_type message ])).
  { cbn [log trace Trace.append events]. rewrite map_app, Hstream.
    cbn [map body]. rewrite <- app_assoc. reflexivity. }
  assert (Hquiet : payload_sum (user_input user_message
                                  :: llm_request (S (List.length (messages m)))
                                       [ "memory" ]
                                  :: logged_by ss) = usage_zero).
  { cbn [payload_sum].
    apply (payload_sum_no_token_usage _ (logged_by_tool_events ss)). }
  split; [exact Hbody|]. split; [reflexivity|].
  split; [apply yielded_from_progress|]. split; [|split; [|split; [reflexivity|]]].
  - cbn [log totals]. rewrite Ht. reflexivity.
  - rewrite (deltas_sum_body (events (trace (log _ _)))), Hbody,
      (deltas_sum_body (events (trace m))).
    rewrite payload_sum_app. cbn [payload_sum]. rewrite payload_sum_app.
    rewrite (payload_sum_no_token_usage _ (logged_by_tool_events ss)).
    cbn [payload_sum]. now rewrite !usage_add_zero_r.
  - split; [exact Hstream|]. split; [reflexivity|]. split; [reflexivity|].
    split; [rewrite Ht; reflexivity|].
    rewrite (deltas_sum_body (events (trace (log_all _ _)))), Hstream,
      (deltas_sum_body (events (trace m))).
    rewrite payload_sum_app, Hquiet. now rewrite usage_add_zero_r.
Qed.

(** C3, as stated for every exception of the external call, fails on one
    that is not an [Exception]: when the task of the request is cancelled
    while the stream is awaited, no [error] event is logged and none is
    yielded. *)
Lemma cancelled_turn_not_logged :
  map body (events (trace (after_turn "hi" sample_cancelled_run sample_manager)))
  = [ user_input "hi"; llm_request 1 [ "memory" ] ]
  /\ yielded_by_turn "hi" sample_cancelled_run sample_manager = [ text "Hel" ]
  /\ escaping_turn "hi" sample_cancelled_run sample_manager
     = Some ("CancelledError", EmptyString).
Proof. repeat split. Qed.




(** C8. A reset whose steps all succeed leaves an empty history, counters at
    zero and a new session with the model and the system prompt of the
    manager, and the session before it is written with its end time; a
    reset whose first step (clearing the memory store) raises leaves the
    manager as it was and surfaces the error. When the write of the session
    raises, the error is surfaced with the history and the counters already
    cleared and the session kept. *)
Theorem clear_memories_outcomes :
  forall (env : reset_env) (m : ConversationManager),
    (forall e,
        clear_all_memory env = Raise e ->
        clear_memories env m = (m, Raise e, None))
    /\ (forall answer old handle,
           clear_all_memory env = Ok answer ->
           Trace.finalize (now env) (store env) (trace m) = (old, Ok handle) ->
           clear_memories env m
           = (mkManager (Conversation.model m) (Conversation.system_prompt m) []
                        (Trace.create (next_session_id env) (now env)
                                      (Conversation.model m)
                                      (Conversation.system_prompt m))
                        usage_zero,
              Ok answer, Some old)
           /\ durable old = Some handle
           /\ events old = events (trace m))
    /\ (forall answer old e,
           clear_all_memory env = Ok answer ->
           Trace.finalize (now env) (store env) (trace m) = (old, Raise e) ->
           clear_memories env m
           = (mkManager (Conversation.model m) (Conversation.system_prompt m) []
                        (trace m) usage_zero,
              Raise e, None)).
Proof.
  intros env m. unfold clear_memories. split; [|split].
  - intros e ->. reflexivity.
  - intros answer old handle -> Hfin.
    cbn [trace Conversation.model Conversation.system_prompt messages totals].
    rewrite Hfin. split; [reflexivity|].
    unfold Trace.finalize in Hfin.
    destruct (durable (trace m)) as [h|] eqn:Hd.
    + injection Hfin as <- <-. split; [exact Hd|reflexivity].
    + destruct (store env); [|discriminate].
      injection Hfin as <- <-. split; reflexivity.
  - intros answer old e -> Hfin.
    cbn [trace Conversation.model Conversation.system_prompt messages totals].
    rewrite Hfin.
    unfold Trace.finalize in Hfin.
    destruct (durable (trace m)); [discriminate|].
    destruct (store env); [discriminate|].
    injection Hfin as <- _. reflexivity.
Qed.

Lemma clear_memories_outcomes_witness :
  clear_memories sample_reset_env (after_turn "hi" (sample_run 10 5) sample_manager)
  = (mkManager "claude-sonnet-4-5" "You remember." []
               (Trace.create "20250101_110000" "2025-01-01T11:00:00"
                             "claude-sonnet-4-5" "You remember.")
               usage_zero,
     Ok "All memory cleared",
     Some (fst (Trace.finalize
                  "2025-01-01T11:00:00"
                  (Ok "sessions/session_20250101_100000.json")
                  (trace (after_turn "hi" (sample_run 10 5) sample_manager))))).
Proof.
  exact (proj1 (proj1 (proj2 (clear_memories_outcomes
                                sample_reset_env
                                (after_turn "hi" (sample_run 10 5) sample_manager)))
                      "All memory cleared" _
                      "sessions/session_20250101_100000.json" eq_refl eq_refl)).
Defined.

(** C8, as stated, fails when the storage refuses the write of the session:
    the error is surfaced, but the history and the counters are cleared. *)
Lemma interrupted_reset_not_atomic :
  messages (after_turn "hi" (sample_run 10 5) sample_manager)
  = [ mkMessage "user" "hi"; mkMessage "assistant" "Hello" ]
  /\ totals (after_turn "hi" (sample_run 10 5) sample_manager) = mkUsage 10 5 0 0
  /\ clear_memories sample_interrupted_env
                    (after_turn "hi" (sample_run 10 5) sample_manager)
     = (mkManager "claude-sonnet-4-5" "You remember." []
                  (trace (after_turn "hi" (sample_run 10 5) sample_manager))
                  usage_zero,
        Raise (OSError "No space left on device"), None).
Proof. repeat split. Qed.

End ConversationTheorems.

(** * Further properties *)

(** ** The escaping primitive and the walk *)

Module DiagramMore.
Import PyStr PyVal Diagram DiagramSpec MoreSpec PyStrFacts EscapeFacts WalkFacts.

Lemma replace_char_absent (c : ascii) (by_ s : string) :
  contains c s = false -> replace_char c by_ s = s.
Proof.
  induction s as [|a s IH]; cbn [contains replace_char]; [reflexivity|].
  intros H. apply orb_false_iff in H as [Ha Hs].
  now rewrite Ha, (IH Hs).
Qed.

Lemma normalised_clean (s : string) :
  contains LF s = false -> contains DQUOTE s = false -> normalised s = s.
Proof.
  intros Hlf Hdq. unfold normalised.
  rewrite (replace_char_absent LF _ s Hlf). now apply replace_char_absent.
Qed.

Lemma str_take_app_exact (a b : string) :
  str_take (String.length a) (a ++ b) = a.
Proof.
  induction a as [|c a IH]; cbn.
  - destruct b; reflexivity.
  - now rewrite IH.
Qed.

(** X1. Escaping is idempotent: escaping an escaped text again, with the same
    budget, changes nothing. *)
Theorem escape_text_idempotent :
  forall (t : string) (max_length : nat),
    escape_text (escape_text t max_length) max_length = escape_text t max_length.
Proof.
  intros t n.
  pose proof (escape_text_no_line_break t n) as Hlf.
  pose proof (escape_text_no_double_quote t n) as Hdq.
  rewrite (escape_text_unfold (escape_text t n)).
  rewrite (normalised_clean _ Hlf Hdq).
  rewrite (escape_text_unfold t) in *.
  destruct (Nat.ltb_spec n (String.length (normalised t))) as [Hlong|Hshort].
  - assert (Hlen : String.length (str_take n (normalised t)) = n).
    { rewrite length_str_take. lia. }
    rewrite length_app, Hlen.
    change (String.length "...") with 3.
    destruct (Nat.ltb_spec n (n + 3)); [|lia].
    rewrite <- Hlen at 1. now rewrite str_take_app_exact.
  - destruct (Nat.ltb_spec n (String.length (normalised t))); [lia|reflexivity].
Qed.

(** X2. The renderer returns a diagram exactly for the records that are a
    JSON object whose [events] can be iterated and hold only events that can
    be written (records, whose escaped payloads are texts and whose memory
    tool parameters are a mapping); for every other record it raises
    [AttributeError] or [TypeError]. *)
Theorem generate_mermaid_diagram_succeeds_iff :
  forall trace_data : json,
    ((exists diagram, generate_mermaid_diagram trace_data = Ok diagram)
     <-> record_renders trace_data = true)
    /\ (record_renders trace_data = false ->
        generate_mermaid_diagram trace_data = Raise AttributeError
        \/ generate_mermaid_diagram trace_data = Raise TypeError).
Proof.
  intros trace_data.
  assert (Hcases :
            if record_renders trace_data
            then exists diagram, generate_mermaid_diagram trace_data = Ok diagram
            else generate_mermaid_diagram trace_data = Raise AttributeError
                 \/ generate_mermaid_diagram trace_data = Raise TypeError).
  { destruct trace_data as [| | | | |td]; cbn [record_renders]; try (left; reflexivity).
    unfold generate_mermaid_diagram, generate_mermaid_lines.
    destruct (iterate (get td "events" (JList []))) as [events|e] eqn:Hit.
    - cbn [bind].
      pose proof (walk_outcome events (mkWalk (header td) 0 false)) as Hw.
      destruct (forallb event_renders events).
      + destruct Hw as [st' ->]. cbn [bind]. eauto.
      + rewrite Hw. left. reflexivity.
    - cbn [bind]. destruct (get td "events" (JList [])); cbn in Hit;
        try discriminate; injection Hit as <-; right; reflexivity. }
  destruct (record_renders trace_data); split.
  - split; [reflexivity|intros _; exact Hcases].
  - discriminate.
  - split; [|discriminate].
    intros [diagram Hd]. destruct Hcases as [H|H]; rewrite H in Hd; discriminate.
  - intros _. exact Hcases.
Qed.

Lemma string_of_uint_unbroken (d : Decimal.uint) :
  contains LF (NilEmpty.string_of_uint d) = false.
Proof. induction d; cbn; auto. Qed.

Lemma str_of_nat_unbroken (n : nat) : contains LF (str_of_nat n) = false.
Proof.
  unfold str_of_nat, NilZero.string_of_uint.
  destruct (Nat.to_uint n) eqn:E; try reflexivity;
    rewrite <- E; apply string_of_uint_unbroken.
Qed.

Ltac unbroken :=
  repeat first
    [ apply Forall_nil
    | apply Forall_cons
    | reflexivity
    | rewrite contains_app
    | rewrite escape_text_no_line_break
    | rewrite str_of_nat_unbroken ].

(** The lines that the renderer joins are the header, a body and the footer;
    the body opens one framed region per [user_input] event and closes no
    more regions than it opens. *)
Lemma lines_framing (trace_data : list (string * json)) (events : list json)
      (ls : list string) :
  iterate (get trace_data "events" (JList [])) = Ok events ->
  generate_mermaid_lines (JDict trace_data) = Ok ls ->
  exists body,
    ls = List.app (header trace_data) (List.app body footer)
    /\ count_line rect_line body = List.length (filter is_user_input events)
    /\ count_line end_line body <= count_line rect_line body
    /\ count_line rect_line ls = count_line rect_line body
    /\ count_line end_line ls = count_line end_line body.
Proof.
  intros Hit Hgen. rename trace_data into td.
  unfold generate_mermaid_lines in Hgen. rewrite Hit in Hgen. cbn [bind] in Hgen.
  destruct (walk events (mkWalk (header td) 0 false)) as [st|e] eqn:Hw;
    [|discriminate].
  cbn [bind] in Hgen. injection Hgen as <-.
  destruct (walk_counts _ _ _ Hw) as (new & Hl & _ & Hr & He).
  cbn [lines in_turn as_bit] in Hl, He.
  exists (List.app new (if in_turn st then [ end_line ] else [])).
  unfold close_walk. rewrite Hl.
  assert (Hshape :
            List.app (if in_turn st
                      then List.app (List.app (header td) new) [ end_line ]
                      else List.app (header td) new) footer
            = List.app (header td)
                (List.app (List.app new (if in_turn st then [ end_line ] else []))
                          footer)).
  { destruct (in_turn st); rewrite <- ?app_assoc, ?app_nil_r; reflexivity. }
  rewrite Hshape. split; [reflexivity|].
  rewrite !count_line_app.
  assert (Hh1 : count_line rect_line (header td) = 0) by reflexivity.
  assert (Hh2 : count_line end_line (header td) = 0) by reflexivity.
  assert (Hf1 : count_line rect_line footer = 0) by reflexivity.
  assert (Hf2 : count_line end_line footer = 0) by reflexivity.
  rewrite Hh1, Hh2, Hf1, Hf2.
  destruct (in_turn st); cbn [as_bit] in He.
  - change (count_line rect_line [ end_line ]) with 0.
    change (count_line end_line [ end_line ]) with 1.
    repeat split; lia.
  - change (count_line rect_line []) with 0.
    change (count_line end_line []) with 0.
    repeat split; lia.
Qed.

Lemma split_on_unbroken (c : ascii) (s : string) :
  contains c s = false -> split_on c s = [ s ].
Proof.
  induction s as [|a s IH]; cbn [contains split_on]; [reflexivity|].
  intros H. apply orb_false_iff in H as [Ha Hs].
  now rewrite Ha, (IH Hs).
Qed.

Lemma split_on_app (c : ascii) (a b : string) :
  contains c a = false -> split_on c (a ++ String c b) = a :: split_on c b.
Proof.
  induction a as [|x a IH]; cbn [contains]; intros H.
  - simpl. now rewrite Ascii.eqb_refl.
  - apply orb_false_iff in H as [Hx Ha]. simpl. now rewrite Hx, (IH Ha).
Qed.

(** Splitting the joined text gives the lines back, when none holds a line
    break. *)
Lemma split_join (ls : list string) :
  ls <> [] ->
  Forall (fun line => contains LF line = false) ls ->
  split_on LF (join (chr LF) ls) = ls.
Proof.
  induction ls as [|l ls IH]; [contradiction|]. intros _ Hall.
  inversion Hall as [|? ? Hl Hls]; subst.
  destruct ls as [|l' ls].
  - cbn [join]. now apply split_on_unbroken.
  - change (join (chr LF) (l :: l' :: ls))
      with (l ++ String LF (join (chr LF) (l' :: ls))).
    rewrite (split_on_app LF l _ Hl), IH; [reflexivity|discriminate|assumption].
Qed.

Lemma ok_inj {A : Type} (a b : A) : Ok a = Ok b -> a = b.
Proof. intros H. now injection H. Qed.

Ltac unbroken_branch H Hok Hf :=
  unfold is_kind in H; unfold walk_event in Hok; rewrite H in Hok;
  rewrite H in Hf;
  cbn [eq_str String.eqb Ascii.eqb Bool.eqb andb] in Hok, Hf.

Ltac extend_unbroken Hst :=
  cbn [Diagram.append lines]; rewrite <- ?app_assoc;
  apply Forall_app; split; [exact Hst|]; unbroken.

(** A step of the walk writes no line break, when the fields that it writes
    as they are hold none. *)
Lemma walk_event_unbroken (event : json) (st st' : walk_state) :
  walk_event event st = Ok st' ->
  fields_unbroken event = true ->
  Forall (fun line => contains LF line = false) (lines st) ->
  Forall (fun line => contains LF line = false) (lines st').
Proof.
  intros Hok Hf Hst. destruct event as [| | | | |ev]; try discriminate.
  unfold fields_unbroken in Hf.
  destruct (kind_cases ev) as [H|[H|[H|[H|[H|[H|H]]]]]].
  - unbroken_branch H Hok Hf. unfold on_user_input in Hok.
    destruct (get ev "content" (JStr EmptyString)); try discriminate.
    cbn [call_escape_text bind] in Hok. apply ok_inj in Hok; subst st'.
    extend_unbroken Hst.
  - unbroken_branch H Hok Hf. apply negb_true_iff in Hf.
    unfold on_llm_request in Hok.
    destruct (in_turn st); apply ok_inj in Hok; subst st'; [|exact Hst].
    extend_unbroken Hst. now rewrite Hf.
  - unbroken_branch H Hok Hf. unfold on_tool_call in Hok.
    destruct (eq_str (get ev "tool_name" (JStr EmptyString)) "memory");
      [|apply ok_inj in Hok; subst st'; exact Hst].
    destruct (get ev "parameters" (JDict [])) as [| | | | |params];
      try discriminate.
    cbn [items bind] in Hok. apply ok_inj in Hok; subst st'.
    apply andb_true_iff in Hf as [Hcmd Hparams].
    apply negb_true_iff in Hcmd, Hparams.
    extend_unbroken Hst; now rewrite ?Hcmd, ?Hparams.
  - unbroken_branch H Hok Hf. unfold on_tool_result in Hok.
    destruct (eq_str (get ev "tool_name" (JStr EmptyString)) "memory");
      [|apply ok_inj in Hok; subst st'; exact Hst].
    destruct (truthy (get ev "success" (JBool true))).
    + destruct (get ev "result" (JStr EmptyString)); try discriminate.
      cbn [call_escape_text bind] in Hok. apply ok_inj in Hok; subst st'.
      extend_unbroken Hst.
    + destruct (if truthy (get ev "error" JNull)
                then get ev "error" JNull else JStr "Error"); try discriminate.
      cbn [call_escape_text bind] in Hok. apply ok_inj in Hok; subst st'.
      extend_unbroken Hst.
  - unbroken_branch H Hok Hf. unfold on_llm_response in Hok.
    destruct (get ev "content" (JStr EmptyString)); try discriminate.
    cbn [call_escape_text bind append in_turn lines turn_number] in Hok.
    destruct (in_turn st); apply ok_inj in Hok; subst st'; extend_unbroken Hst.
  - unbroken_branch H Hok Hf. unfold on_error in Hok.
    destruct (get ev "message" (JStr "Unknown error")); try discriminate.
    cbn [call_escape_text bind] in Hok. apply ok_inj in Hok; subst st'.
    extend_unbroken Hst.
  - rewrite (walk_event_unrecognized (JDict ev) st) in Hok
      by (unfold unrecognized; now rewrite H).
    apply ok_inj in Hok; subst st'. exact Hst.
Qed.

Lemma walk_unbroken (events : list json) (st st' : walk_state) :
  walk events st = Ok st' ->
  forallb fields_unbroken events = true ->
  Forall (fun line => contains LF line = false) (lines st) ->
  Forall (fun line => contains LF line = false) (lines st').
Proof.
  revert st. induction events as [|event rest IH]; intros st Hok Hf Hst;
    cbn [walk forallb] in Hok, Hf.
  - now injection Hok as <-.
  - apply andb_true_iff in Hf as [Hf1 Hf2].
    destruct (walk_event event st) as [mid|e] eqn:Hev; [|discriminate].
    cbn [bind] in Hok.
    exact (IH mid Hok Hf2 (walk_event_unbroken _ _ _ Hev Hf1 Hst)).
Qed.

Lemma header_lines_unbroken (trace_data : list (string * json)) :
  header_unbroken trace_data = true ->
  Forall (fun line => contains LF line = false) (header trace_data).
Proof.
  unfold header_unbroken. intros H.
  apply andb_true_iff in H as [H Hm]. apply andb_true_iff in H as [Hs Ht].
  apply negb_true_iff in Hs, Ht, Hm.
  unfold header. unbroken; now rewrite ?Hs, ?Ht, ?Hm.
Qed.

(** The lines of a diagram returned are the lines that were joined, when the
    fields written as they are hold no line break. *)
Lemma text_lines_of_diagram (trace_data : list (string * json)) (events : list json)
      (diagram : string) :
  iterate (get trace_data "events" (JList [])) = Ok events ->
  header_unbroken trace_data = true ->
  forallb fields_unbroken events = true ->
  generate_mermaid_diagram (JDict trace_data) = Ok diagram ->
  generate_mermaid_lines (JDict trace_data) = Ok (text_lines diagram).
Proof.
  intros Hit Hh Hf Hgen. unfold generate_mermaid_diagram in Hgen.
  destruct (generate_mermaid_lines (JDict trace_data)) as [ls|e] eqn:Hls;
    [|discriminate].
  cbn [bind] in Hgen. injection Hgen as <-.
  unfold generate_mermaid_lines in Hls. rewrite Hit in Hls. cbn [bind] in Hls.
  destruct (walk events (mkWalk (header trace_data) 0 false)) as [st|e] eqn:Hw;
    [|discriminate].
  cbn [bind] in Hls. injection Hls as <-.
  pose proof (walk_unbroken _ _ _ Hw Hf (header_lines_unbroken _ Hh)) as Hst.
  unfold text_lines. rewrite split_join; [reflexivity| |].
  - unfold close_walk, footer. destruct (in_turn st), (lines st); discriminate.
  - unfold close_walk. apply Forall_app. split; [|unfold footer; unbroken].
    destruct (in_turn st); [|exact Hst].
    apply Forall_app. split; [exact Hst|unbroken].
Qed.

(** X3. In a diagram that the renderer returns for a record whose fields
    written as they are (the three fields of the header, the [tools] of an
    [llm_request], the [command] and the parameters of a call of the memory
    tool) hold no line break, the lines of the text are the header, a body
    and the footer; the body opens exactly one framed region per
    [user_input] event and never closes more regions than it opens. *)
Theorem framing_counts :
  forall (trace_data : list (string * json)) (events : list json) (diagram : string),
    iterate (get trace_data "events" (JList [])) = Ok events ->
    header_unbroken trace_data = true ->
    forallb fields_unbroken events = true ->
    generate_mermaid_diagram (JDict trace_data) = Ok diagram ->
    exists body,
      text_lines diagram = List.app (header trace_data) (List.app body footer)
      /\ count_line rect_line body = List.length (filter is_user_input events)
      /\ count_line end_line body <= count_line rect_line body
      /\ count_line rect_line (text_lines diagram) = count_line rect_line body
      /\ count_line end_line (text_lines diagram) = count_line end_line body.
Proof.
  intros trace_data events diagram Hit Hh Hf Hgen.
  apply (lines_framing trace_data events (text_lines diagram) Hit).
  now apply (text_lines_of_diagram trace_data events).
Qed.

Lemma framing_counts_witness :
  match generate_mermaid_diagram
          (JDict [ ("session_id", JStr "s1");
                   ("events", JList [ JDict sample_user_input; JDict sample_user_input;
                                      JDict sample_llm_response ]) ]) with
  | Ok diagram =>
      count_line rect_line (text_lines diagram) = 2
      /\ count_line end_line (text_lines diagram) <= 2
  | Raise _ => False
  end.
Proof.
  destruct (generate_mermaid_diagram _) as [diagram|e] eqn:Hgen;
    [|discriminate Hgen].
  destruct (framing_counts
              [ ("session_id", JStr "s1");
                ("events", JList [ JDict sample_user_input; JDict sample_user_input;
                                   JDict sample_llm_response ]) ]
              [ JDict sample_user_input; JDict sample_user_input;
                JDict sample_llm_response ]
              diagram eq_refl eq_refl eq_refl Hgen) as (body & _ & Hr & He & Hlr & Hle).
  rewrite Hlr, Hle. rewrite Hr in He. split; [exact Hr|exact He].
Defined.

(** Without the condition on the fields the count fails: a [command] that
    holds a line break followed by the text of a closing line gives a
    diagram with a closing line and no opening. *)
Lemma unescaped_command_breaks_framing :
  match generate_mermaid_diagram
          (JDict [ ("events", JList [ JDict sample_broken_tool_call ]) ]) with
  | Ok diagram =>
      count_line rect_line (text_lines diagram) = 0
      /\ count_line end_line (text_lines diagram) = 1
  | Raise _ => False
  end.
Proof. vm_compute. split; reflexivity. Qed.

(** X4. A line break in a text payload never breaks a line of the diagram:
    for an event whose payload the walk escapes (the content of [user_input]
    and [llm_response], the result or error of a [tool_result] of the memory
    tool, the message of [error]) the step succeeds and none of the lines it
    writes holds a line break. *)
Theorem escaped_lines_unbroken :
  forall (event : list (string * json)) (t : string) (budget : nat) (st : walk_state),
    escaped_payload event = Some (JStr t, budget) ->
    exists st' new,
      walk_event (JDict event) st = Ok st'
      /\ lines st' = List.app (lines st) new
      /\ new <> []
      /\ Forall (fun line => contains LF line = false) new.
Proof.
  intros ev t budget st Hp.
  destruct (kind_cases ev) as [H|[H|[H|[H|[H|[H|H]]]]]];
    unfold escaped_payload in Hp; try (unfold is_kind in H; rewrite H in Hp);
    cbn [eq_str String.eqb Ascii.eqb Bool.eqb andb] in Hp; try discriminate.
  - injection Hp as Hc _.
    rewrite (walk_event_user_input ev t st H Hc).
    do 2 eexists. split; [reflexivity|]. cbn [lines].
    split; [reflexivity|]. split; [discriminate|]. unbroken.
  - destruct (eq_str (get ev "tool_name" (JStr EmptyString)) "memory") eqn:Hname;
      [|discriminate].
    apply eq_str_true in Hname.
    assert (Hshown : (if truthy (get ev "success" (JBool true))
                      then get ev "result" (JStr EmptyString)
                      else if truthy (get ev "error" JNull)
                           then get ev "error" JNull
                           else JStr "Error") = JStr t).
    { destruct (truthy (get ev "success" (JBool true))); now injection Hp. }
    rewrite (walk_event_tool_result ev t st H Hname Hshown).
    do 2 eexists. split; [reflexivity|]. cbn [append lines].
    split; [reflexivity|]. split; [discriminate|].
    destruct (truthy (get ev "success" (JBool true))); unbroken.
  - injection Hp as Hc _.
    rewrite (walk_event_llm_response ev t st H Hc).
    do 2 eexists. split; [reflexivity|]. cbn [lines].
    split; [reflexivity|]. split; [discriminate|].
    destruct (in_turn st); unbroken.
  - injection Hp as Hc _.
    rewrite (walk_event_error ev t st H Hc).
    do 2 eexists. split; [reflexivity|]. cbn [append lines].
    split; [reflexivity|]. split; [discriminate|]. unbroken.
  - unfold recognized in H.
    repeat (apply orb_false_iff in H; destruct H as [H ?]).
    repeat match goal with
           | E : eq_str _ _ = false |- _ => rewrite E in Hp; clear E
           end.
    discriminate.
Qed.

Lemma escaped_lines_unbroken_witness :
  exists st' new,
    walk_event
      (JDict (fields_of "user_input"
                [ ("content", JStr (String LF "two" ++ String LF "lines")) ]))
      start_state = Ok st'
    /\ lines st' = List.app (lines start_state) new
    /\ new <> []
    /\ Forall (fun line => contains LF line = false) new.
Proof.
  exact (escaped_lines_unbroken
           (fields_of "user_input"
              [ ("content", JStr (String LF "two" ++ String LF "lines")) ])
           (String LF "two" ++ String LF "lines") 50 start_state eq_refl).
Defined.

End DiagramMore.

(** ** The turn, seen from its caller *)

Module TurnMore.
Import Conversation Trace ConversationSpec ConversationMore MoreSpec.
Import PyStrFacts TraceFacts ConversationFacts.

(** The turn in closed form: the manager when the stream has been consumed,
    and what each ending of the external call adds. *)
Lemma turn_closed_form (user_message : string) (run : llm_run)
      (m : ConversationManager) :
  send_message_streaming user_message run m
  = let m3 :=
      log_all (logged_by (steps run))
        (log (llm_request (S (List.length (messages m))) [ "memory" ])
             (log (user_input user_message)
                  (push_message (mkMessage "user" user_message) m))) in
    match ending run with
    | Completed r =>
        let m4 :=
          log (llm_response (final_text (steps run) r))
              (push_message (mkMessage "assistant" (final_text (steps run) r)) m3) in
        match track_usage (Conversation.usage r) (totals m) with
        | (counters, Some last) =>
            (List.app (yielded_from (steps run)) [ done (mkSnapshot last counters) ],
             log (token_usage last counters) (set_totals counters m4),
             None)
        | (counters, None) =>
            (List.app (yielded_from (steps run)) [ Conversation.error NONE_ADDED ],
             log (Trace.error "TypeError" NONE_ADDED) (set_totals counters m4),
             None)
        end
    | Raised error_type message =>
        (List.app (yielded_from (steps run)) [ Conversation.error message ],
         log (Trace.error error_type message) m3,
         None)
    | Uncaught error_type message =>
        (yielded_from (steps run), m3, Some (error_type, message))
    end.
Proof.
  unfold send_message_streaming. rewrite consume_closed_form.
  cbn [manager response_text yielded List.app append].
  cbn [log push_message messages]. rewrite List.length_app.
  cbn [List.length]. rewrite Nat.add_1_r. cbv zeta.
  set (m2 := log (llm_request _ _) _).
  destruct (log_all_frame (logged_by (steps run)) m2) as (_ & Ht & _).
  destruct (ending run) as [error_type message|error_type message|r]; try reflexivity.
  cbn [log push_message totals]. rewrite Ht. subst m2. cbn [log push_message totals].
  unfold final_text.
  destruct (track_usage (Conversation.usage r) (totals m)) as [counters [last|]];
    reflexivity.
Qed.

Lemma log_all_in (ps : list payload) (m : ConversationManager) :
  messages (log_all ps m) = messages m
  /\ totals (log_all ps m) = totals m
  /\ map body (events (trace (log_all ps m)))
     = List.app (map body (events (trace m))) ps.
Proof.
  destruct (log_all_frame ps m) as (Hm & Ht & _ & _ & Hev). now repeat split.
Qed.

(** The log when the stream has been consumed. *)
Lemma streamed_log (user_message : string) (ss : list run_step)
      (m : ConversationManager) :
  map body
      (events (trace (log_all (logged_by ss)
                        (log (llm_request (S (List.length (messages m))) [ "memory" ])
                             (log (user_input user_message)
                                  (push_message (mkMessage "user" user_message) m))))))
  = List.app (map body (events (trace m)))
      (user_input user_message
         :: llm_request (S (List.length (messages m))) [ "memory" ]
         :: logged_by ss).
Proof.
  destruct (log_all_in (logged_by ss)
              (log (llm_request (S (List.length (messages m))) [ "memory" ])
                   (log (user_input user_message)
                        (push_message (mkMessage "user" user_message) m))))
    as (_ & _ & ->).
  cbn [log push_message trace Trace.append events].
  rewrite !map_app. cbn [map body]. rewrite <- !app_assoc. reflexivity.
Qed.

Lemma completed_turn_effect (user_message : string) (ss : list run_step)
      (r : response) (m : ConversationManager) :
  counts_reported (Conversation.usage r) = true ->
  map body (events (trace (after_turn user_message (mkLlmRun ss (Completed r)) m)))
  = List.app (map body (events (trace m)))
      (user_input user_message
         :: llm_request (S (List.length (messages m))) [ "memory" ]
         :: List.app (logged_by ss)
              [ llm_response (final_text ss r);
                token_usage (last_usage (Conversation.usage r))
                            (usage_add (totals m)
                                       (last_usage (Conversation.usage r))) ])
  /\ yielded_by_turn user_message (mkLlmRun ss (Completed r)) m
     = List.app (yielded_from ss)
         [ done (mkSnapshot (last_usage (Conversation.usage r))
                            (usage_add (totals m)
                                       (last_usage (Conversation.usage r)))) ]
  /\ totals (after_turn user_message (mkLlmRun ss (Completed r)) m)
     = usage_add (totals m) (last_usage (Conversation.usage r))
  /\ escaping_turn user_message (mkLlmRun ss (Completed r)) m = None.
Proof.
  intros Hrep. unfold after_turn, yielded_by_turn, escaping_turn.
  rewrite turn_closed_form. cbn [steps ending]. cbv zeta.
  rewrite (track_usage_reported _ _ Hrep). cbn [fst snd].
  split; [|repeat split].
  cbn [log push_message set_totals trace Trace.append events].
  rewrite !map_app, streamed_log. cbn [map body].
  rewrite <- !app_assoc. reflexivity.
Qed.

(** X6. A turn whose external call completes with a usage that holds no
    [None] appends to the log, in this order, the [user_input] and
    [llm_request] events, what the memory tool logged, the [llm_response]
    with the final text and one [token_usage] event whose delta is the usage
    of the call and whose checkpoint is the new value of the counters; it
    yields the progress events and last a [done] event carrying that same
    delta and checkpoint. When a cache count of the usage is [None], the
    addition raises inside the turn: the [llm_response] is logged, then an
    [error] event in place of the [token_usage] event; the turn yields
    [error] in place of [done], and the input and output counters have
    already been incremented. *)
Theorem completed_turn_logged :
  forall (user_message : string) (ss : list run_step) (r : response)
         (m : ConversationManager),
    (counts_reported (Conversation.usage r) = true ->
     map body (events (trace (after_turn user_message (mkLlmRun ss (Completed r)) m)))
     = List.app (map body (events (trace m)))
         (user_input user_message
            :: llm_request (S (List.length (messages m))) [ "memory" ]
            :: List.app (logged_by ss)
                 [ llm_response (final_text ss r);
                   token_usage (last_usage (Conversation.usage r))
                               (usage_add (totals m)
                                          (last_usage (Conversation.usage r))) ])
     /\ yielded_by_turn user_message (mkLlmRun ss (Completed r)) m
        = List.app (yielded_from ss)
            [ done (mkSnapshot (last_usage (Conversation.usage r))
                               (usage_add (totals m)
                                          (last_usage (Conversation.usage r)))) ]
     /\ totals (after_turn user_message (mkLlmRun ss (Completed r)) m)
        = usage_add (totals m) (last_usage (Conversation.usage r))
     /\ escaping_turn user_message (mkLlmRun ss (Completed r)) m = None)
    /\ (counts_reported (Conversation.usage r) = false ->
        map body (events (trace (after_turn user_message
                                   (mkLlmRun ss (Completed r)) m)))
        = List.app (map body (events (trace m)))
            (user_input user_message
               :: llm_request (S (List.length (messages m))) [ "memory" ]
               :: List.app (logged_by ss)
                    [ llm_response (final_text ss r);
                      Trace.error "TypeError" NONE_ADDED ])
        /\ yielded_by_turn user_message (mkLlmRun ss (Completed r)) m
           = List.app (yielded_from ss) [ Conversation.error NONE_ADDED ]
        /\ input_tokens (totals (after_turn user_message
                                   (mkLlmRun ss (Completed r)) m))
           = (input_tokens (totals m)
              + Conversation.input_tokens (Conversation.usage r))%Z
        /\ output_tokens (totals (after_turn user_message
                                    (mkLlmRun ss (Completed r)) m))
           = (output_tokens (totals m)
              + Conversation.output_tokens (Conversation.usage r))%Z
        /\ escaping_turn user_message (mkLlmRun ss (Completed r)) m = None).
Proof.
  intros user_message ss r m. split; [apply completed_turn_effect|].
  intros Hrep. unfold after_turn, yielded_by_turn, escaping_turn.
  rewrite turn_closed_form. cbn [steps ending]. cbv zeta.
  pose proof (track_usage_none (Conversation.usage r) (totals m) Hrep) as Hnone.
  assert (Hin : input_tokens (fst (track_usage (Conversation.usage r) (totals m)))
                = (input_tokens (totals m)
                   + Conversation.input_tokens (Conversation.usage r))%Z
                /\ output_tokens (fst (track_usage (Conversation.usage r) (totals m)))
                   = (output_tokens (totals m)
                      + Conversation.output_tokens (Conversation.usage r))%Z).
  { unfold track_usage. cbv zeta.
    destruct (getattr (cache_read_input_tokens (Conversation.usage r)));
      [destruct (getattr (cache_creation_input_tokens (Conversation.usage r)))|];
      split; reflexivity. }
  destruct (track_usage (Conversation.usage r) (totals m)) as [counters [last|]];
    [discriminate|].
  cbn [fst snd] in *. destruct Hin as [Hi Ho].
  split; [|repeat split; assumption].
  cbn [log push_message set_totals trace Trace.append events].
  rewrite !map_app, streamed_log. cbn [map body].
  rewrite <- !app_assoc. reflexivity.
Qed.

Lemma completed_turn_logged_witness :
  yielded_by_turn "hi" (sample_none_run 10 5) sample_manager
  = [ text "Hello"; Conversation.error NONE_ADDED ]
  /\ input_tokens (totals (after_turn "hi" (sample_none_run 10 5) sample_manager))
     = 10%Z.
Proof.
  destruct (proj2 (completed_turn_logged
                     "hi" (steps (sample_none_run 10 5))
                     (mkResponse [ Some "Hello" ] (mkApiUsage 10 5 IsNone IsNone))
                     sample_manager) eq_refl) as (_ & Hy & Hi & _).
  split; [exact Hy|exact Hi].
Defined.

Lemma forallb_progress_no_terminal (out : list outward) :
  forallb is_progress out = true -> filter is_terminal out = [].
Proof.
  induction out as [|o out IH]; [reflexivity|].
  cbn [forallb filter]. intros H. apply andb_true_iff in H as [Ho Hrest].
  destruct o; try discriminate; now apply IH.
Qed.

(** What a turn yields after the progress events of the stream. *)
Lemma yielded_shape (user_message : string) (run : llm_run)
      (m : ConversationManager) :
  exists tail,
    yielded_by_turn user_message run m = List.app (yielded_from (steps run)) tail
    /\ filter is_terminal tail = tail
    /\ concat_text tail = EmptyString
    /\ match ending run with
       | Completed r =>
           escaping_turn user_message run m = None
           /\ if counts_reported (Conversation.usage r)
              then exists snapshot, tail = [ done snapshot ]
              else tail = [ Conversation.error NONE_ADDED ]
       | Raised _ message =>
           escaping_turn user_message run m = None
           /\ tail = [ Conversation.error message ]
       | Uncaught error_type message =>
           escaping_turn user_message run m = Some (error_type, message)
           /\ tail = []
       end.
Proof.
  unfold yielded_by_turn, escaping_turn. rewrite turn_closed_form. cbv zeta.
  destruct (ending run) as [error_type message|error_type message|r]; cbn [fst snd].
  - eexists. repeat split.
  - exists []. rewrite app_nil_r. repeat split.
  - destruct (counts_reported (Conversation.usage r)) eqn:Hrep.
    + rewrite (track_usage_reported _ _ Hrep). cbn [fst snd].
      eexists. split; [reflexivity|]. repeat split. eauto.
    + pose proof (track_usage_none (Conversation.usage r) (totals m) Hrep) as Hnone.
      destruct (track_usage (Conversation.usage r) (totals m)) as [counters [last|]];
        [discriminate|].
      cbn [fst snd]. eexists. repeat split.
Qed.

(** X7. A turn that no exception leaves yields exactly one terminal event,
    and yields it last: [done] when the external call completed and its
    usage holds no [None], [error] with the message of the exception when
    the call raised an [Exception] or when the addition of a [None] cache
    count raised; all the events before it are text increments or tool
    starts. A turn that an exception leaves (one that is not an
    [Exception]) yields no terminal event. *)
Theorem single_terminal_event :
  forall (user_message : string) (run : llm_run) (m : ConversationManager),
    forallb is_progress (yielded_from (steps run)) = true
    /\ match ending run with
       | Completed r =>
           exists terminal,
             yielded_by_turn user_message run m
             = List.app (yielded_from (steps run)) [ terminal ]
             /\ filter is_terminal (yielded_by_turn user_message run m) = [ terminal ]
             /\ escaping_turn user_message run m = None
             /\ if counts_reported (Conversation.usage r)
                then exists snapshot, terminal = done snapshot
                else terminal = Conversation.error NONE_ADDED
       | Raised _ message =>
           yielded_by_turn user_message run m
           = List.app (yielded_from (steps run)) [ Conversation.error message ]
           /\ filter is_terminal (yielded_by_turn user_message run m)
              = [ Conversation.error message ]
           /\ escaping_turn user_message run m = None
       | Uncaught error_type message =>
           yielded_by_turn user_message run m = yielded_from (steps run)
           /\ filter is_terminal (yielded_by_turn user_message run m) = []
           /\ escaping_turn user_message run m = Some (error_type, message)
       end.
Proof.
  intros user_message run m.
  split; [apply yielded_from_progress|].
  destruct (yielded_shape user_message run m) as (tail & Hy & Hterm & _ & Hend).
  assert (Hfilter : filter is_terminal (yielded_by_turn user_message run m) = tail).
  { rewrite Hy, filter_app.
    rewrite (forallb_progress_no_terminal _ (yielded_from_progress (steps run))).
    exact Hterm. }
  rewrite Hfilter, Hy.
  destruct (ending run) as [error_type message|error_type message|r].
  - destruct Hend as [Hesc ->]. now repeat split.
  - destruct Hend as [Hesc ->]. rewrite app_nil_r. now repeat split.
  - destruct Hend as [Hesc Htail].
    destruct (counts_reported (Conversation.usage r)).
    + destruct Htail as [snapshot ->]. exists (done snapshot). repeat split; eauto.
    + subst tail. eexists. repeat split; eauto.
Qed.

Lemma concat_text_app (a b : list outward) :
  concat_text (List.app a b) = concat_text a ++ concat_text b.
Proof.
  induction a as [|o a IH]; [reflexivity|].
  cbn [List.app concat_text]. destruct o; rewrite IH; try reflexivity.
  now rewrite str_app_assoc.
Qed.

Lemma concat_text_yielded_from (ss : list run_step) :
  concat_text (yielded_from ss) = streamed_text ss.
Proof.
  induction ss as [|s ss IH]; [reflexivity|].
  destruct s as [[[chunk|]|[block|]|]| |]; cbn [yielded_from streamed_text concat_text];
    try exact IH.
  - now rewrite IH.
  - destruct (block_type block) as [ty|]; [|exact IH].
    destruct (String.eqb ty "tool_use"); exact IH.
Qed.

(** X8. The text increments that a turn yields, concatenated in order, are
    the text that the stream delivered; when the final message has no block
    with text, this concatenation is the text that the turn records as the
    assistant's answer, in the history and in the log. *)
Theorem text_reconstruction :
  forall (user_message : string) (run : llm_run) (m : ConversationManager),
    concat_text (yielded_by_turn user_message run m) = streamed_text (steps run)
    /\ (forall r,
           ending run = Completed r ->
           first_text (response_content r) = None ->
           final_text (steps run) r
           = concat_text (yielded_by_turn user_message run m)
           /\ List.last (messages (after_turn user_message run m))
                        (mkMessage EmptyString EmptyString)
              = mkMessage "assistant"
                          (concat_text (yielded_by_turn user_message run m))).
Proof.
  intros user_message run m.
  assert (Hconcat : concat_text (yielded_by_turn user_message run m)
                    = streamed_text (steps run)).
  { destruct (yielded_shape user_message run m) as (tail & Hy & _ & Hquiet & _).
    rewrite Hy, concat_text_app, concat_text_yielded_from, Hquiet.
    apply str_app_nil_r. }
  split; [exact Hconcat|].
  intros r Hend Hnone. rewrite Hconcat.
  unfold final_text. rewrite Hnone. split; [reflexivity|].
  unfold after_turn. rewrite turn_closed_form, Hend. cbv zeta.
  unfold final_text. rewrite Hnone.
  destruct (track_usage (Conversation.usage r) (totals m)) as [counters [last|]];
    cbn [fst snd log push_message set_totals messages];
    rewrite last_last; reflexivity.
Qed.

Lemma text_reconstruction_witness :
  concat_text (yielded_by_turn "hi" (sample_run 10 5) sample_manager) = "Hello".
Proof.
  exact (proj1 (text_reconstruction "hi" (sample_run 10 5) sample_manager)).
Defined.

Lemma log_all_appends (ps : list payload) (m : ConversationManager) :
  exists more,
    events (trace (log_all ps m)) = List.app (events (trace m)) more
    /\ session_id (trace (log_all ps m)) = session_id (trace m)
    /\ start_time (trace (log_all ps m)) = start_time (trace m)
    /\ end_time (trace (log_all ps m)) = end_time (trace m)
    /\ durable (trace (log_all ps m)) = durable (trace m).
Proof.
  unfold log_all. revert m.
  induction ps as [|p ps IH]; intros m; cbn [fold_left].
  - exists []. now rewrite app_nil_r.
  - destruct (IH (log p m)) as (more & He & Hs & Hst & Hen & Hd).
    rewrite He, Hs, Hst, Hen, Hd.
    cbn [log trace Trace.append events session_id start_time end_time durable].
    eexists. rewrite <- app_assoc. repeat split; reflexivity.
Qed.

(** X9. A turn only appends: the log before the turn is the beginning of
    the log after it and the history before it the beginning of the history
    after it, whatever the external call does; the identity of the session
    and the model and system prompt of the manager are untouched. *)
Theorem turn_only_appends :
  forall (user_message : string) (run : llm_run) (m : ConversationManager),
    prefix_of (events (trace m)) (events (trace (after_turn user_message run m)))
    /\ prefix_of (messages m) (messages (after_turn user_message run m))
    /\ session_id (trace (after_turn user_message run m)) = session_id (trace m)
    /\ start_time (trace (after_turn user_message run m)) = start_time (trace m)
    /\ end_time (trace (after_turn user_message run m)) = end_time (trace m)
    /\ Conversation.model (after_turn user_message run m) = Conversation.model m
    /\ Conversation.system_prompt (after_turn user_message run m)
       = Conversation.system_prompt m.
Proof.
  intros user_message run m.
  unfold after_turn, prefix_of. rewrite turn_closed_form. cbv zeta.
  set (m2 := log (Trace.llm_request _ _) _).
  destruct (log_all_frame (logged_by (steps run)) m2) as (Hm & _ & Hmo & Hsp & _).
  destruct (log_all_appends (logged_by (steps run)) m2) as (more & He & Hs & Hst & Hen & _).
  destruct (ending run) as [error_type message|error_type message|r];
    [| |destruct (track_usage (Conversation.usage r) (totals m))
          as [counters [last|]]];
    cbn [fst snd];
    cbn [log push_message set_totals trace totals Trace.append events messages
             Conversation.model Conversation.system_prompt
             session_id start_time end_time];
    rewrite ?Hm, ?Hmo, ?Hsp, ?He, ?Hs, ?Hst, ?Hen; subst m2;
    cbn [log push_message trace Trace.append events messages
             Conversation.model Conversation.system_prompt
             session_id start_time end_time];
    rewrite <- ?app_assoc;
    (split; [eexists; reflexivity|]); (split; [eexists; reflexivity|]);
    repeat split; reflexivity.
Qed.

(** X10. The statistics that a manager reports are the checkpoint of the last
    [token_usage] event of its log, and zeros when the log has none, for
    every manager reached by turns whose external call raises, or completes
    with a usage whose cache counts are integers or missing, and by resets
    that return. *)
Theorem token_stats_are_last_checkpoint :
  forall m : ConversationManager,
    reachable m ->
    get_token_stats m
    = [ ("total_input",
          input_tokens (last_cumulative (events (trace m)) usage_zero));
        ("total_output",
          output_tokens (last_cumulative (events (trace m)) usage_zero));
        ("total_cache_read",
          cache_read_tokens (last_cumulative (events (trace m)) usage_zero));
        ("total_cache_write",
          cache_write_tokens (last_cumulative (events (trace m)) usage_zero)) ].
Proof.
  intros m Hm.
  destruct (ConversationTheorems.reachable_in_order m Hm) as (_ & Hlast & _).
  unfold get_token_stats, total_input_tokens, total_output_tokens,
    total_cache_read_tokens, total_cache_write_tokens.
  now rewrite Hlast.
Qed.

Lemma token_stats_are_last_checkpoint_witness :
  get_token_stats (after_turn "and now?" sample_failed_run
                     (after_turn "hi" (sample_run 10 5) sample_manager))
  = [ ("total_input", 10%Z); ("total_output", 5%Z);
      ("total_cache_read", 0%Z); ("total_cache_write", 0%Z) ].
Proof.
  exact (token_stats_are_last_checkpoint
           _ (reach_turn _ "and now?" sample_failed_run
                (reach_turn _ "hi" (sample_run 10 5)
                   (reach_init "20250101_100000" "2025-01-01T10:00:00"
                               "claude-sonnet-4-5" "You remember.")
                   eq_refl)
                eq_refl)).
Defined.

(** After a completed call whose usage holds a [None], the statistics are
    ahead of the log: the input and output counters were incremented and no
    [token_usage] event was logged. *)
Lemma token_stats_after_none_count :
  get_token_stats (after_turn "hi" (sample_none_run 10 5) sample_manager)
  = [ ("total_input", 10%Z); ("total_output", 5%Z);
      ("total_cache_read", 0%Z); ("total_cache_write", 0%Z) ]
  /\ map body (events (trace (after_turn "hi" (sample_none_run 10 5) sample_manager)))
     = [ user_input "hi"; llm_request 1 [ "memory" ]; llm_response "Hello";
         Trace.error "TypeError" NONE_ADDED ].
Proof. split; reflexivity. Qed.

(** X11. After a reset that returns, the counters restart: the first turn
    whose call completes with a usage that holds no [None] yields a [done]
    event whose session totals are the usage of that turn alone, the log of
    the new session holds the events of that turn only, and the history
    holds its two messages. *)
Theorem turn_after_reset :
  forall (env : reset_env) (m m' : ConversationManager) (answer : string)
         (written : option SessionTrace) (user_message : string)
         (ss : list run_step) (r : response),
    clear_memories env m = (m', Ok answer, written) ->
    counts_reported (Conversation.usage r) = true ->
    yielded_by_turn user_message (mkLlmRun ss (Completed r)) m'
    = List.app (yielded_from ss)
        [ done (mkSnapshot (last_usage (Conversation.usage r))
                           (last_usage (Conversation.usage r))) ]
    /\ map body (events (trace (after_turn user_message
                                  (mkLlmRun ss (Completed r)) m')))
       = user_input user_message
           :: llm_request 1 [ "memory" ]
           :: List.app (logged_by ss)
                [ llm_response (final_text ss r);
                  token_usage (last_usage (Conversation.usage r))
                              (last_usage (Conversation.usage r)) ]
    /\ messages (after_turn user_message (mkLlmRun ss (Completed r)) m')
       = [ mkMessage "user" user_message; mkMessage "assistant" (final_text ss r) ]
    /\ session_id (trace m') = next_session_id env.
Proof.
  intros env m m' answer written user_message ss r Hreset Hrep.
  assert (Hm' : m' = mkManager (Conversation.model m) (Conversation.system_prompt m) []
                               (Trace.create (next_session_id env) (now env)
                                             (Conversation.model m)
                                             (Conversation.system_prompt m))
                               usage_zero).
  { unfold clear_memories in Hreset.
    destruct (clear_all_memory env); [|discriminate].
    cbn [trace Conversation.model Conversation.system_prompt messages totals]
      in Hreset.
    destruct (Trace.finalize (now env) (store env) (trace m)) as [old [handle|e]];
      [|discriminate].
    now injection Hreset as <- _ _. }
  destruct (completed_turn_effect user_message ss r m' Hrep) as (Hlog & Hy & _).
  rewrite Hy, Hlog. subst m'.
  cbn [totals trace Trace.create events map List.app messages List.length
              session_id].
  rewrite usage_add_zero_l.
  split; [reflexivity|]. split; [reflexivity|]. split; [|reflexivity].
  unfold after_turn. rewrite turn_closed_form. cbn [steps ending]. cbv zeta.
  rewrite (track_usage_reported _ _ Hrep). cbn [fst snd].
  cbn [log push_message set_totals messages].
  destruct (log_all_in (logged_by ss)
              (log (llm_request 1 [ "memory" ])
                   (log (user_input user_message)
                        (push_message (mkMessage "user" user_message)
                           (mkManager (Conversation.model m)
                                      (Conversation.system_prompt m) []
                                      (Trace.create (next_session_id env) (now env)
                                                    (Conversation.model m)
                                                    (Conversation.system_prompt m))
                                      usage_zero)))))
    as (Hmsg & _).
  cbn [messages List.length] in *. rewrite Hmsg. reflexivity.
Qed.

Lemma turn_after_reset_witness :
  yielded_by_turn "again" (sample_run 3 2)
    (manager_after_reset sample_reset_env
       (after_turn "hi" (sample_run 10 5) sample_manager))
  = [ text "Hel"; text "lo";
      done (mkSnapshot (mkUsage 3 2 0 0) (mkUsage 3 2 0 0)) ].
Proof.
  exact (proj1 (turn_after_reset
                  sample_reset_env
                  (after_turn "hi" (sample_run 10 5) sample_manager)
                  _ "All memory cleared" _ "again"
                  (steps (sample_run 3 2))
                  (mkResponse [ Some "Hello" ] (mkApiUsage 3 2 Missing (Int 0)))
                  eq_refl eq_refl)).
Defined.

End TurnMore.

(** ** Prompt loading *)

Module PromptFacts.
Import PyStr Prompt MoreSpec PyStrFacts.

Lemma keep_line_comment (lines : list string) (line : string) :
  is_comment line = true -> keep_line lines line = lines.
Proof.
  unfold is_comment, keep_line. cbv beta zeta. intros H.
  apply andb_true_iff in H as [Hne Hhash].
  rewrite Hne, Hhash. cbn [negb andb].
  apply negb_true_iff in Hne. now rewrite Hne.
Qed.

Lemma fold_keep_line_without_comments (ls acc : list string) :
  fold_left keep_line (filter (fun line => negb (is_comment line)) ls) acc
  = fold_left keep_line ls acc.
Proof.
  revert acc. induction ls as [|line ls IH]; intros acc; [reflexivity|].
  cbn [filter fold_left].
  destruct (is_comment line) eqn:E; cbn [negb fold_left].
  - rewrite (keep_line_comment acc line E). apply IH.
  - apply IH.
Qed.

(** X12. Comment lines do not reach the prompt: a prompt file and the same
    file with its comment lines (lines whose first character after white
    space is the hash sign) taken out load to the same prompt. *)
Theorem comment_lines_ignored :
  forall (ls : list string) (current_date : string),
    load_system_prompt
      (FileLines (filter (fun line => negb (is_comment line)) ls)) current_date
    = load_system_prompt (FileLines ls) current_date.
Proof.
  intros ls current_date. unfold load_system_prompt.
  now rewrite fold_keep_line_without_comments.
Qed.

Lemma rstrip_all_space (s : string) : all_space s = true -> rstrip s = EmptyString.
Proof.
  induction s as [|c s IH]; [reflexivity|].
  cbn [all_space rstrip]. intros H. apply andb_true_iff in H as [Hc Hs].
  now rewrite (IH Hs), Hc.
Qed.

Lemma all_space_join_empty (n : nat) :
  all_space (join (chr LF) (repeat EmptyString n)) = true.
Proof.
  induction n as [|n IH]; [reflexivity|].
  cbn [repeat join]. destruct n as [|n]; [reflexivity|].
  cbn [repeat] in *. cbn [append chr all_space]. exact IH.
Qed.

Lemma keep_line_blank (lines : list string) (line : string) :
  is_blank line = true -> keep_line lines line = List.app lines [ EmptyString ].
Proof.
  unfold is_blank, keep_line. cbv beta zeta. intros H. now rewrite H.
Qed.

Lemma fold_keep_line_blank (ls acc : list string) :
  forallb (fun line => is_blank line || is_comment line) ls = true ->
  exists n, fold_left keep_line ls acc = List.app acc (repeat EmptyString n).
Proof.
  revert acc. induction ls as [|line ls IH]; intros acc H.
  - exists 0. cbn. now rewrite app_nil_r.
  - cbn [forallb] in H. apply andb_true_iff in H as [Hline Hrest].
    cbn [fold_left].
    destruct (is_comment line) eqn:Hc.
    + rewrite (keep_line_comment acc line Hc). now apply IH.
    + rewrite orb_false_r in Hline.
      rewrite (keep_line_blank acc line Hline).
      destruct (IH (List.app acc [ EmptyString ]) Hrest) as [n Hn].
      exists (S n). rewrite Hn, <- app_assoc. reflexivity.
Qed.

(** X13. A prompt file that holds only blank lines and comment lines, an
    empty file among them, loads to a prompt that is the date line alone,
    after its two line breaks; a missing file raises. *)
Theorem empty_prompt_is_date_only :
  forall (ls : list string) (current_date : string),
    forallb (fun line => is_blank line || is_comment line) ls = true ->
    load_system_prompt (FileLines ls) current_date
    = inr (String LF (String LF "Today's date is: ") ++ current_date)
    /\ load_system_prompt NoSuchFile current_date = inl FileNotFoundError.
Proof.
  intros ls current_date H. split; [|reflexivity].
  unfold load_system_prompt.
  destruct (fold_keep_line_blank ls [] H) as [n ->]. cbn [List.app].
  unfold strip. rewrite (rstrip_all_space _ (all_space_join_empty n)).
  reflexivity.
Qed.

Lemma empty_prompt_is_date_only_witness :
  load_system_prompt
    (FileLines [ String HASH " Persona" ++ chr LF; chr LF;
                 "   " ++ String HASH " more" ++ chr LF ])
    "2025-01-01 10:00:00"
  = inr (String LF (String LF "Today's date is: 2025-01-01 10:00:00")).
Proof.
  exact (proj1 (empty_prompt_is_date_only
                  [ String HASH " Persona" ++ chr LF; chr LF;
                    "   " ++ String HASH " more" ++ chr LF ]
                  "2025-01-01 10:00:00" eq_refl)).
Defined.

End PromptFacts.

(** ** The session endpoints *)

Module ApiFacts.
Import PyStr PyVal Diagram DiagramSpec MoreSpec Api.

Lemma list_entries_app (a b : list session_file) :
  list_entries (List.app a b) = List.app (list_entries a) (list_entries b).
Proof.
  induction a as [|f a IH]; [reflexivity|].
  cbn [List.app list_entries]. destruct (session_entry f); rewrite IH; reflexivity.
Qed.

Lemma session_entry_unparsed (f : session_file) :
  parsed_object f = false -> session_entry f = None.
Proof.
  unfold parsed_object, session_entry.
  destruct (content f) as [| | |[| | | | |data]]; try reflexivity. discriminate.
Qed.

(** X14. [list_sessions] never fails on a file: a file that is missing, is
    not valid JSON or is not a JSON object is left out of the listing, and
    the entries of the other files are what they are without it, in the same
    order; the listing is never longer than the directory. *)
Theorem list_sessions_skips_unreadable :
  forall (before after : list session_file) (f : session_file),
    parsed_object f = false ->
    list_sessions (List.app before (f :: after))
    = list_sessions (List.app before after)
    /\ List.length (list_entries (List.app before (f :: after)))
       <= List.length (List.app before after).
Proof.
  intros before after f Hf. unfold list_sessions.
  assert (Heq : list_entries (List.app before (f :: after))
                = list_entries (List.app before after)).
  { rewrite !list_entries_app. cbn [list_entries].
    now rewrite (session_entry_unparsed f Hf). }
  rewrite Heq. split; [reflexivity|].
  generalize (List.app before after). intros files.
  induction files as [|g files IH]; [reflexivity|].
  cbn [list_entries]. destruct (session_entry g); cbn [List.length]; lia.
Qed.

Lemma list_sessions_skips_unreadable_witness :
  list_sessions [ sample_session_file "session_b" "b"; sample_corrupt_file;
                  sample_session_file "session_a" "a" ]
  = list_sessions [ sample_session_file "session_b" "b";
                    sample_session_file "session_a" "a" ].
Proof.
  exact (proj1 (list_sessions_skips_unreadable
                  [ sample_session_file "session_b" "b" ]
                  [ sample_session_file "session_a" "a" ]
                  sample_corrupt_file eq_refl)).
Defined.

Lemma token_events_app (a b : list json) :
  token_events (List.app a b)
  = (x <- token_events a ;; y <- token_events b ;; Ok (List.app x y)).
Proof.
  induction a as [|e a IH]; cbn [List.app token_events bind].
  - destruct (token_events b); reflexivity.
  - destruct e as [| | | | |ev]; try reflexivity.
    rewrite IH. destruct (token_events a) as [x|]; cbn [bind]; [|reflexivity].
    destruct (token_events b) as [y|]; cbn [bind]; [|reflexivity].
    destruct (eq_str (get ev "event_type" JNull) "token_usage"); reflexivity.
Qed.

Lemma token_events_plain (events : list json) :
  forallb plain_event events = true -> token_events events = Ok [].
Proof.
  induction events as [|e events IH]; [reflexivity|].
  cbn [forallb]. intros H. apply andb_true_iff in H as [He Hrest].
  destruct e as [| | | | |ev]; try discriminate.
  cbn [token_events]. rewrite (IH Hrest). cbn [bind].
  unfold plain_event in He. apply negb_true_iff in He. now rewrite He.
Qed.

Lemma token_events_objects (events : list json) :
  forallb is_object events = true -> exists found, token_events events = Ok found.
Proof.
  induction events as [|e events IH]; [now exists []|].
  cbn [forallb]. intros H. apply andb_true_iff in H as [He Hrest].
  destruct e as [| | | | |ev]; try discriminate.
  destruct (IH Hrest) as [found Hfound].
  cbn [token_events]. rewrite Hfound. cbn [bind]. eauto.
Qed.

(** X15. The total that [list_sessions] shows for a session is read from the
    last [token_usage] event of its record alone: it is the sum of the input
    and output totals of that event's checkpoint, whatever the events before
    it hold and whatever events of other kinds follow it; a record without
    [token_usage] events shows 0. *)
Theorem total_tokens_from_last_checkpoint :
  forall (before after : list json) (last_event cumulative : list (string * json))
         (total_input total_output : Z),
    forallb is_object before = true ->
    forallb plain_event after = true ->
    is_kind last_event "token_usage" ->
    get last_event "cumulative" (JDict []) = JDict cumulative ->
    get cumulative "total_input_tokens" (JInt 0) = JInt total_input ->
    get cumulative "total_output_tokens" (JInt 0) = JInt total_output ->
    total_tokens_of (List.app before (JDict last_event :: after))
    = Ok (JInt (total_input + total_output))
    /\ total_tokens_of after = Ok (JInt 0).
Proof.
  intros before after last_event cumulative i o Hb Ha Hkind Hcum Hi Ho.
  unfold total_tokens_of. split.
  - rewrite token_events_app.
    destruct (token_events_objects before Hb) as [found ->]. cbn [bind].
    cbn [token_events]. rewrite (token_events_plain after Ha). cbn [bind].
    unfold is_kind in Hkind. rewrite Hkind.
    cbn [eq_str String.eqb Ascii.eqb Bool.eqb andb].
    rewrite rev_app_distr. cbn [rev List.app].
    rewrite Hcum. cbn [get_from bind]. rewrite Hi, Ho. reflexivity.
  - now rewrite (token_events_plain after Ha).
Qed.

Lemma total_tokens_from_last_checkpoint_witness :
  total_tokens_of
    [ JDict sample_user_input;
      event_of "token_usage"
        [ ("cumulative", JDict [ ("total_input_tokens", JInt 10);
                                 ("total_output_tokens", JInt 5) ]) ];
      JDict sample_user_input;
      event_of "token_usage"
        [ ("cumulative", JDict [ ("total_input_tokens", JInt 13);
                                 ("total_output_tokens", JInt 7) ]) ];
      JDict sample_llm_response ]
  = Ok (JInt 20).
Proof.
  exact (proj1 (total_tokens_from_last_checkpoint
                  [ JDict sample_user_input;
                    event_of "token_usage"
                      [ ("cumulative", JDict [ ("total_input_tokens", JInt 10);
                                               ("total_output_tokens", JInt 5) ]) ];
                    JDict sample_user_input ]
                  [ JDict sample_llm_response ]
                  (fields_of "token_usage"
                     [ ("cumulative", JDict [ ("total_input_tokens", JInt 13);
                                              ("total_output_tokens", JInt 7) ]) ])
                  [ ("total_input_tokens", JInt 13); ("total_output_tokens", JInt 7) ]
                  13%Z 7%Z eq_refl eq_refl eq_refl eq_refl eq_refl eq_refl)).
Defined.

(** What the search finds: the first file, among files that all hold a JSON
    object, whose record carries the identifier. *)
Lemma find_session_file_found (session_id : string) (files : list session_file)
      (f : session_file) (data : list (string * json)) :
  find_session_file session_id files = Found f data ->
  exists before after,
    files = List.app before (f :: after)
    /\ forallb (other_session session_id) before = true
    /\ content f = Loaded (JDict data)
    /\ get data "session_id" JNull = JStr session_id.
Proof.
  induction files as [|g files IH]; [discriminate|].
  cbn [find_session_file].
  destruct (content g) as [| | |[| | | | |d]] eqn:Hg; try discriminate.
  destruct (eq_str (get d "session_id" JNull) session_id) eqn:Hid.
  - intros H. injection H as <- <-. exists [], files.
    split; [reflexivity|]. split; [reflexivity|]. split; [exact Hg|].
    destruct (get d "session_id" JNull); try discriminate.
    cbn in Hid. apply String.eqb_eq in Hid. now subst.
  - intros H. destruct (IH H) as (before & after & -> & Hbefore & Hf & Hdata).
    exists (g :: before), after. split; [reflexivity|].
    split; [|split; assumption].
    cbn [forallb]. rewrite Hbefore. unfold other_session. now rewrite Hg, Hid.
Qed.

Lemma find_session_file_not_among (session_id : string) (files : list session_file) :
  find_session_file session_id files = NotAmong
  <-> forallb (other_session session_id) files = true.
Proof.
  induction files as [|g files IH]; [split; reflexivity|].
  cbn [find_session_file forallb]. unfold other_session at 1.
  destruct (content g) as [| | |[| | | | |d]]; try (split; discriminate).
  destruct (eq_str (get d "session_id" JNull) session_id); cbn [negb andb].
  - split; discriminate.
  - exact IH.
Qed.

Lemma find_session_file_escapes (session_id : string)
      (before after : list session_file) (f : session_file) :
  forallb (other_session session_id) before = true ->
  parsed_object f = false ->
  find_session_file session_id (List.app before (f :: after)) = Escaped.
Proof.
  intros Hbefore Hf. induction before as [|g before IH]; cbn [List.app find_session_file].
  - unfold parsed_object in Hf.
    destruct (content f) as [| | |[| | | | |d]]; try reflexivity. discriminate.
  - cbn [forallb] in Hbefore. apply andb_true_iff in Hbefore as [Hg Hrest].
    unfold other_session in Hg.
    destruct (content g) as [| | |[| | | | |d]]; try discriminate.
    apply negb_true_iff in Hg. rewrite Hg. now apply IH.
Qed.

Lemma diagram_starts_with_header (td : list (string * json)) (text : string) :
  generate_mermaid_diagram (JDict td) = Ok text ->
  exists rest,
    text = "---" ++ chr LF ++ "Session ID: "
                 ++ py_str (get td "session_id" (JStr "unknown")) ++ chr LF ++ rest.
Proof.
  unfold generate_mermaid_diagram. intros H.
  destruct (generate_mermaid_lines (JDict td)) as [ls|e] eqn:Hgen; [|discriminate].
  cbn [bind] in H. injection H as <-.
  unfold generate_mermaid_lines in Hgen.
  destruct (iterate (get td "events" (JList []))) as [events|e]; [|discriminate].
  cbn [bind] in Hgen.
  destruct (walk events (mkWalk (header td) 0 false)) as [st|e] eqn:Hw; [|discriminate].
  cbn [bind] in Hgen. injection Hgen as <-.
  destruct (WalkFacts.walk_counts _ _ _ Hw) as (new & Hl & _).
  cbn [lines] in Hl. unfold close_walk. rewrite Hl.
  set (tail := List.app _ footer).
  assert (Htail : exists more,
             tail = List.app (header td) more).
  { subst tail. destruct (in_turn st); rewrite <- !app_assoc; eauto. }
  destruct Htail as [more ->]. unfold header. cbn [List.app join].
  eexists. rewrite PyStrFacts.str_app_assoc. reflexivity.
Qed.

(** X16. When [generate_session_diagram] answers, the answer is for the
    session asked: it carries the identifier and the path of the diagram
    file built from it, its diagram is what the renderer returns for the
    first file of the directory whose record has that [session_id], and the
    header of the diagram shows the identifier. *)
Theorem diagram_for_requested_session :
  forall (session_id : string) (files : list session_file) (d : disk)
         (reply : diagram_reply),
    generate_session_diagram session_id files d = Returned reply ->
    reply_session_id reply = session_id
    /\ diagram_file reply = "sessions/diagram_" ++ session_id ++ ".md"
    /\ (exists before f after data,
           files = List.app before (f :: after)
           /\ forallb (other_session session_id) before = true
           /\ content f = Loaded (JDict data)
           /\ get data "session_id" JNull = JStr session_id
           /\ generate_mermaid_diagram (JDict data) = Ok (diagram reply))
    /\ (exists rest,
           diagram reply
           = "---" ++ chr LF ++ "Session ID: " ++ session_id ++ chr LF ++ rest).
Proof.
  intros session_id files d reply H. unfold generate_session_diagram in H.
  destruct (find_session_file session_id files) as [f data| |] eqn:Hfind;
    try discriminate.
  destruct (generate_mermaid_diagram (JDict data)) as [text|e] eqn:Hgen;
    [|discriminate].
  destruct d as [|e]; [|discriminate].
  injection H as <-. cbn [reply_session_id diagram_file diagram].
  destruct (find_session_file_found _ _ _ _ Hfind)
    as (before & after & Hfiles & Hbefore & Hf & Hid).
  split; [reflexivity|]. split; [reflexivity|]. split.
  - exists before, f, after, data. repeat split; assumption.
  - destruct (diagram_starts_with_header data text Hgen) as [rest Hrest].
    exists rest. rewrite Hrest.
    assert (Hget : get data "session_id" (JStr "unknown") = JStr session_id).
    { unfold get in *. destruct (lookup data "session_id"); [exact Hid|discriminate]. }
    now rewrite Hget.
Qed.

Lemma diagram_for_requested_session_witness :
  exists reply,
    generate_session_diagram "a" [ sample_session_file "session_b" "b";
                                   sample_session_file "session_a" "a" ] Writes
    = Returned reply
    /\ reply_session_id reply = "a"
    /\ diagram_file reply = "sessions/diagram_a.md".
Proof.
  destruct (generate_session_diagram "a" _ Writes) as [reply| |] eqn:H;
    try discriminate H.
  exists reply. split; [reflexivity|].
  destruct (diagram_for_requested_session _ _ _ _ H) as (H1 & H2 & _).
  split; assumption.
Defined.

(** X17. Both session endpoints answer 404 exactly when every file of the
    directory holds a JSON object whose [session_id] is another one; and a
    file that cannot be read as a JSON object, met before the file of the
    session, makes them fail with an exception that nothing handles, even
    when the session is in the directory. *)
Theorem session_lookup_failures :
  forall (session_id : string) (files after : list session_file) (f : session_file)
         (d : disk),
    (get_session session_id files = HTTPException 404 (Text "Session not found")
     <-> forallb (other_session session_id) files = true)
    /\ (generate_session_diagram session_id files d
        = HTTPException 404 (Text "Session not found")
        <-> forallb (other_session session_id) files = true)
    /\ (forallb (other_session session_id) files = true ->
        parsed_object f = false ->
        get_session session_id (List.app files (f :: after)) = Unhandled
        /\ generate_session_diagram session_id (List.app files (f :: after)) d
           = Unhandled).
Proof.
  intros session_id files after f d.
  pose proof (find_session_file_not_among session_id files) as Hiff.
  split; [|split].
  - unfold get_session. rewrite <- Hiff.
    destruct (find_session_file session_id files); split; try discriminate;
      reflexivity.
  - unfold generate_session_diagram. rewrite <- Hiff.
    destruct (find_session_file session_id files) as [g data| |];
      try (split; try discriminate; reflexivity).
    destruct (generate_mermaid_diagram (JDict data)); [destruct d|];
      split; discriminate.
  - intros Hfiles Hf. unfold get_session, generate_session_diagram.
    rewrite (find_session_file_escapes session_id files after f Hfiles Hf).
    split; reflexivity.
Qed.

Lemma session_lookup_failures_witness :
  get_session "a" [ sample_session_file "session_b" "b"; sample_corrupt_file;
                    sample_session_file "session_a" "a" ]
  = Unhandled.
Proof.
  exact (proj1 (proj2 (proj2 (session_lookup_failures
                                "a" [ sample_session_file "session_b" "b" ]
                                [ sample_session_file "session_a" "a" ]
                                sample_corrupt_file Writes))
                      eq_refl eq_refl)).
Defined.

(** X18. Nothing that happens once the file of the session is found escapes
    [generate_session_diagram]: it answers with the diagram when the record
    can be rendered and the diagram can be saved, with status 500 carrying
    the exception of the file system when the record can be rendered and
    the diagram cannot be saved, and with status 500 carrying the
    [AttributeError] or [TypeError] of the renderer when the record cannot
    be rendered. *)
Theorem renderer_failure_is_500 :
  forall (session_id : string) (files : list session_file)
         (f : session_file) (data : list (string * json)),
    find_session_file session_id files = Found f data ->
    (record_renders (JDict data) = true ->
     (exists reply, generate_session_diagram session_id files Writes = Returned reply)
     /\ (forall e,
            generate_session_diagram session_id files (Refuses e)
            = HTTPException 500 (StrOf e)))
    /\ (record_renders (JDict data) = false ->
        forall d,
          generate_session_diagram session_id files d
          = HTTPException 500 (StrOf AttributeError)
          \/ generate_session_diagram session_id files d
             = HTTPException 500 (StrOf TypeError)).
Proof.
  intros session_id files f data Hfind.
  unfold generate_session_diagram. rewrite Hfind.
  pose proof (WalkFacts.walk_outcome) as Hwalk.
  unfold record_renders, generate_mermaid_diagram, generate_mermaid_lines.
  destruct (iterate (get data "events" (JList []))) as [events|e] eqn:Hit.
  - cbn [bind]. specialize (Hwalk events (mkWalk (header data) 0 false)).
    destruct (forallb event_renders events); split; try discriminate.
    + intros _. destruct Hwalk as [st' ->]. cbn [bind]. split; eauto.
    + intros _ d. rewrite Hwalk. cbn [bind]. now left.
  - cbn [bind]. split; [discriminate|]. intros _ d.
    destruct (get data "events" (JList [])); cbn in Hit; try discriminate;
      injection Hit as <-; now right.
Qed.

Lemma renderer_failure_is_500_witness :
  generate_session_diagram
    "a" [ sample_session_file "session_a" "a" ]
    (Refuses (OSError "No space left on device"))
  = HTTPException 500 (StrOf (OSError "No space left on device")).
Proof.
  exact (proj2 (proj1 (renderer_failure_is_500
                         "a" [ sample_session_file "session_a" "a" ]
                         _ _ eq_refl)
                      eq_refl)
               (OSError "No space left on device")).
Defined.

End ApiFacts.
